(** * connection-saver: the pairing-code and device-graph endpoints of server.js

    A shallow embedding of the request handlers of [server.js] that deal with
    pairing codes, device connections and the code-usage ledger, together with
    the relational store they talk to through the Supabase client.

    - Every handler is a function from the request, the store and the
      environment of the call (clock, the identifier drawn for a new row, the
      random draw) to the HTTP response and the store afterwards.
    - The store is the four tables of the schema shipped with the server
      (users, pairing_codes, device_connections, code_usage), each a list of
      rows in table order; statements check the primary keys, the UNIQUE
      constraints and the foreign keys of that schema and cascade deletes as
      the schema says.  A statement fails only on one of these constraints;
      [validate_with] takes the statement that inserts the connection as a
      parameter, so that validate can also be studied under any other
      failure of it.
    - The user, ledger-view, ping and notification endpoints follow: the
      pings table joins the store in [Database], a message handed to
      Firebase is a value returned next to the response, and whether
      Firebase is initialised, and what it answers, are inputs of the
      handler.  [serve] puts every endpoint that touches the database into
      one transition system.
    - Rows carry the columns of the CREATE TABLE statements and the two
      columns the handlers use besides them, users.fcm_token and
      pairing_codes.updated_at.
    - Identifiers are uuid values carried as strings (every string is taken
      as a well-formed uuid); instants are milliseconds since the epoch, with
      one clock for the server and the database; coordinates are binary64
      numbers; request fields that may be missing are options. *)

From Stdlib Require Import String Ascii List ZArith Bool Arith Lia.
From Stdlib Require Import Sorted Permutation.
From Stdlib Require Import Floats.PrimFloat.
Import ListNotations.

Open Scope string_scope.
Open Scope list_scope.

(** ** JavaScript primitives used by the handlers *)

Module JS.

(** [!s] for a request field that is absent or a string: absent and the
    empty string are falsy. *)
Definition truthy (s : option string) : bool :=
  match s with
  | Some s' => negb (s' =? "")
  | None => false
  end.

(** Truthiness of a number field: absent, [0], [-0] and [NaN] are falsy. *)
Definition truthy_num (x : option float) : bool :=
  match x with
  | Some f => negb (PrimFloat.eqb f 0%float) && PrimFloat.eqb f f
  | None => false
  end.

(** [x || null] on a number field and on a string field. *)
Definition num_or_null (x : option float) : option float :=
  if truthy_num x then x else None.

Definition str_or_null (s : option string) : option string :=
  if truthy s then s else None.

(** [s.replace('-', '')]: a string pattern replaces the first match only. *)
Fixpoint replace_hyphen (s : string) : string :=
  match s with
  | EmptyString => EmptyString
  | String c s' => if (c =? "-")%char then s' else String c (replace_hyphen s')
  end.

Definition upper_char (c : ascii) : ascii :=
  let n := nat_of_ascii c in
  if ((97 <=? n)%nat && (n <=? 122)%nat)%bool then ascii_of_nat (n - 32) else c.

(** [s.toUpperCase()] on ASCII text. *)
Fixpoint toUpperCase (s : string) : string :=
  match s with
  | EmptyString => EmptyString
  | String c s' => String (upper_char c) (toUpperCase s')
  end.

(** [s.substring(a, b)]: the characters at positions [a] to [b - 1], the
    two bounds swapped when [a > b], clipped to the string. *)
Definition substring (s : string) (a b : nat) : string :=
  if (b <? a)%nat then String.substring b (a - b) s
  else String.substring a (b - a) s.

End JS.

(** The normalisation every endpoint applies to a code it is given:
    [code.replace('-', '').toUpperCase()]. *)
Definition cleanCode (code : string) : string :=
  JS.toUpperCase (JS.replace_hyphen code).

(** ** Data model: the rows of the schema *)

Definition uuid := string.
Definition instant := Z.

Module User.
Record t := mk {
  id : uuid;
  device_id : string;
  device_name : string;
  full_name : option string;
  emergency_contact1_name : option string;
  emergency_contact1_phone : option string;
  emergency_contact2_name : option string;
  emergency_contact2_phone : option string;
  birthday : option string;
  address : option string;
  expo_push_token : option string;
  fcm_token : option string;
  created_at : instant;
  updated_at : instant
}.

Definition set_device_name (name : string) (u : t) : t :=
  mk (id u) (device_id u) name (full_name u)
     (emergency_contact1_name u) (emergency_contact1_phone u)
     (emergency_contact2_name u) (emergency_contact2_phone u)
     (birthday u) (address u) (expo_push_token u) (fcm_token u)
     (created_at u) (updated_at u).
End User.

Module PairingCode.
Record t := mk {
  id : uuid;
  user_id : uuid;
  code : string;
  latitude : option float;
  longitude : option float;
  accuracy : option float;
  created_at : instant;
  expires_at : instant;
  updated_at : option instant
}.

Definition set_location (lat lon acc : option float) (at_ : instant) (p : t) : t :=
  mk (id p) (user_id p) (code p) lat lon acc (created_at p) (expires_at p) (Some at_).
End PairingCode.

Module DeviceConnection.
Record t := mk {
  id : uuid;
  initiator_user_id : uuid;
  paired_user_id : uuid;
  paired_at : instant
}.
End DeviceConnection.

Module CodeUsage.
Record t := mk {
  id : uuid;
  pairing_code_id : uuid;
  user_id : uuid;
  device_id : option string;
  code_owner_id : uuid;
  timestamp : instant;
  created_at : instant
}.

Definition touch (at_ : instant) (dev : option string) (r : t) : t :=
  mk (id r) (pairing_code_id r) (user_id r) dev (code_owner_id r) at_ (created_at r).
End CodeUsage.

Record Store := mkStore {
  users : list User.t;
  pairing_codes : list PairingCode.t;
  device_connections : list DeviceConnection.t;
  code_usage : list CodeUsage.t
}.

Definition empty_store : Store := mkStore [] [] [] [].

(** What a call reads from outside the request and the store. *)
Record Env := mkEnv {
  now : instant;          (* new Date() and the database's NOW() *)
  gen_random_uuid : uuid;   (* the id the database draws for an inserted row *)
  random36 : string         (* Math.random().toString(36) *)
}.

(** 24 hours, in milliseconds: [INTERVAL '24 hours']. *)
Definition day_ms : Z := 86400000.

(** ** The relational store as the Supabase client exposes it *)

Module Pg.

(** The [error] object of a failed statement: its SQLSTATE and its text. *)
Record error := mkError { code : string; message : string }.

Definition unique_violation (constraint : string) : error :=
  mkError "23505" ("duplicate key value violates unique constraint " ++ constraint).

Definition foreign_key_violation (constraint : string) : error :=
  mkError "23503" ("insert or update on table violates foreign key constraint " ++ constraint).

End Pg.

(** [.single()]: the row when the query returns exactly one, otherwise no
    data (and an error object). *)
Definition single {A : Type} (rows : list A) : option A :=
  match rows with
  | [r] => Some r
  | _ => None
  end.

Definition has_user (db : Store) (id : uuid) : bool :=
  existsb (fun u => User.id u =? id) (users db).

Definition has_pairing_code (db : Store) (id : uuid) : bool :=
  existsb (fun p => PairingCode.id p =? id) (pairing_codes db).

(** [from('pairing_codes').select(..).eq('code', c).single()] *)
Definition select_code (db : Store) (c : string) : option PairingCode.t :=
  single (filter (fun p => PairingCode.code p =? c) (pairing_codes db)).

(** [from('users').select('*').eq('id', id).single()] *)
Definition select_user (db : Store) (id : uuid) : option User.t :=
  single (filter (fun u => User.id u =? id) (users db)).

(** An embedded resource [users:<fk column>(..)]: the users row the foreign
    key points to, or null. *)
Definition embed_user (db : Store) (fk : uuid) : option User.t :=
  find (fun u => User.id u =? fk) (users db).

(** [from('users').update({ device_name }).eq('id', id)] *)
Definition update_device_name (db : Store) (id : uuid) (name : string) : Store :=
  mkStore
    (map (fun u => if User.id u =? id then User.set_device_name name u else u) (users db))
    (pairing_codes db) (device_connections db) (code_usage db).

(** [from('pairing_codes').insert({ user_id, code, latitude, longitude, accuracy })];
    [id], [created_at] and [expires_at] take their column defaults. *)
Definition insert_pairing_code (env : Env) (db : Store) (user_id : uuid) (code : string)
    (latitude longitude accuracy : option float) : Store * option Pg.error :=
  if has_pairing_code db (gen_random_uuid env) then
    (db, Some (Pg.unique_violation "pairing_codes_pkey"))
  else if existsb (fun p => PairingCode.code p =? code) (pairing_codes db) then
    (db, Some (Pg.unique_violation "pairing_codes_code_key"))
  else if negb (has_user db user_id) then
    (db, Some (Pg.foreign_key_violation "pairing_codes_user_id_fkey"))
  else
    (mkStore (users db)
       (pairing_codes db ++
          [PairingCode.mk (gen_random_uuid env) user_id code latitude longitude accuracy
             (now env) (now env + day_ms)%Z None])
       (device_connections db) (code_usage db),
     None).

(** [from('pairing_codes').update({ latitude, longitude, accuracy, updated_at }).eq('id', id)] *)
Definition update_location (db : Store) (id : uuid) (lat lon acc : option float)
    (at_ : instant) : Store :=
  mkStore (users db)
    (map (fun p => if PairingCode.id p =? id then PairingCode.set_location lat lon acc at_ p else p)
       (pairing_codes db))
    (device_connections db) (code_usage db).

(** [from('pairing_codes').delete().eq('id', id)]; code_usage rows go with
    their pairing code (ON DELETE CASCADE). *)
Definition delete_pairing_code (db : Store) (id : uuid) : Store :=
  mkStore (users db)
    (filter (fun p => negb (PairingCode.id p =? id)) (pairing_codes db))
    (device_connections db)
    (if has_pairing_code db id
     then filter (fun r => negb (CodeUsage.pairing_code_id r =? id)) (code_usage db)
     else code_usage db).

(** [from('device_connections').insert({ initiator_user_id, paired_user_id })] *)
Definition insert_device_connection (env : Env) (db : Store) (initiator paired : uuid)
    : Store * option Pg.error :=
  if existsb (fun c => DeviceConnection.id c =? gen_random_uuid env) (device_connections db) then
    (db, Some (Pg.unique_violation "device_connections_pkey"))
  else if existsb (fun c => (DeviceConnection.initiator_user_id c =? initiator)
                            && (DeviceConnection.paired_user_id c =? paired))
            (device_connections db) then
    (db, Some (Pg.unique_violation
                 "device_connections_initiator_user_id_paired_user_id_key"))
  else if negb (has_user db initiator) then
    (db, Some (Pg.foreign_key_violation "device_connections_initiator_user_id_fkey"))
  else if negb (has_user db paired) then
    (db, Some (Pg.foreign_key_violation "device_connections_paired_user_id_fkey"))
  else
    (mkStore (users db) (pairing_codes db)
       (device_connections db ++
          [DeviceConnection.mk (gen_random_uuid env) initiator paired (now env)])
       (code_usage db),
     None).

(** The filter [or(initiator_user_id.eq.u, paired_user_id.eq.u)]. *)
Definition touches (u : uuid) (c : DeviceConnection.t) : bool :=
  (DeviceConnection.initiator_user_id c =? u) || (DeviceConnection.paired_user_id c =? u).

(** The filter
    [or(and(initiator_user_id.eq.u, paired_user_id.eq.p), and(initiator_user_id.eq.p, paired_user_id.eq.u))]. *)
Definition links (u p : uuid) (c : DeviceConnection.t) : bool :=
  ((DeviceConnection.initiator_user_id c =? u) && (DeviceConnection.paired_user_id c =? p))
  || ((DeviceConnection.initiator_user_id c =? p) && (DeviceConnection.paired_user_id c =? u)).

(** [from('device_connections').delete().or(..)] *)
Definition delete_connections (db : Store) (u p : uuid) : Store :=
  mkStore (users db) (pairing_codes db)
    (filter (fun c => negb (links u p c)) (device_connections db))
    (code_usage db).

(** The rows of the ledger for one pairing code and one redeeming user. *)
Definition usage_of (db : Store) (pairing_code_id user_id : uuid) : list CodeUsage.t :=
  filter (fun r => (CodeUsage.pairing_code_id r =? pairing_code_id)
                   && (CodeUsage.user_id r =? user_id))
    (code_usage db).

(** [from('code_usage').update({ timestamp, device_id }).eq('id', id)] *)
Definition update_usage (db : Store) (id : uuid) (at_ : instant) (dev : option string) : Store :=
  mkStore (users db) (pairing_codes db) (device_connections db)
    (map (fun r => if CodeUsage.id r =? id then CodeUsage.touch at_ dev r else r) (code_usage db)).

(** [from('code_usage').insert({ pairing_code_id, user_id, device_id, code_owner_id, timestamp })] *)
Definition insert_usage (env : Env) (db : Store) (pairing_code_id user_id : uuid)
    (dev : option string) (code_owner_id : uuid) (at_ : instant) : Store * option Pg.error :=
  if existsb (fun r => CodeUsage.id r =? gen_random_uuid env) (code_usage db) then
    (db, Some (Pg.unique_violation "code_usage_pkey"))
  else if negb (has_pairing_code db pairing_code_id) then
    (db, Some (Pg.foreign_key_violation "code_usage_pairing_code_id_fkey"))
  else if negb (has_user db user_id) then
    (db, Some (Pg.foreign_key_violation "code_usage_user_id_fkey"))
  else if negb (has_user db code_owner_id) then
    (db, Some (Pg.foreign_key_violation "code_usage_code_owner_id_fkey"))
  else
    (mkStore (users db) (pairing_codes db) (device_connections db)
       (code_usage db ++
          [CodeUsage.mk (gen_random_uuid env) pairing_code_id user_id dev code_owner_id
             at_ (now env)]),
     None).

(** [from('code_usage').delete().eq('id', usageId).eq('pairing_code_id', id)] *)
Definition delete_usage (db : Store) (usageId pairing_code_id : uuid) : Store :=
  mkStore (users db) (pairing_codes db) (device_connections db)
    (filter (fun r => negb ((CodeUsage.id r =? usageId)
                            && (CodeUsage.pairing_code_id r =? pairing_code_id)))
       (code_usage db)).

(** [.order('timestamp', { ascending: false })]: newest first, rows of equal
    timestamp in table order. *)
Fixpoint insert_desc (r : CodeUsage.t) (l : list CodeUsage.t) : list CodeUsage.t :=
  match l with
  | [] => [r]
  | x :: l' =>
      if (CodeUsage.timestamp x <=? CodeUsage.timestamp r)%Z then r :: x :: l'
      else x :: insert_desc r l'
  end.

Definition order_desc (l : list CodeUsage.t) : list CodeUsage.t :=
  fold_right insert_desc [] l.

(** ** HTTP responses *)

Module PairedDevice.
(** [{ id, device_name, device_id }] *)
Record t := mk { id : uuid; device_name : string; device_id : string }.

Definition of_user (user : User.t) : t :=
  mk (User.id user) (User.device_name user) (User.device_id user).
End PairedDevice.

Module UsageEntry.
(** [{ id, userId, deviceId, timestamp, deviceName }] *)
Record t := mk {
  id : uuid;
  userId : uuid;
  deviceId : option string;
  timestamp : instant;
  deviceName : string
}.
End UsageEntry.

Module LocationInfo.
(** [{ code, latitude, longitude, accuracy, deviceName, createdAt }] *)
Record t := mk {
  code : string;
  latitude : option float;
  longitude : option float;
  accuracy : option float;
  deviceName : option string;
  createdAt : instant
}.
End LocationInfo.

Inductive Body :=
| Error (error : string)                      (* { error } *)
| Message (message : string)                  (* { message } *)
| MessageCode (message code : string)         (* { message, code } *)
| Code (code : string)                        (* { code } *)
| Profile (user : User.t)                     (* a users row *)
| PairedDevices (devices : list PairedDevice.t)
| UsageHistory (code : string) (usageCount : nat) (usage : list UsageEntry.t)
| Location (info : LocationInfo.t).

Record Response := respond { status : nat; body : Body }.

(** The string in a field that has passed its [!field] guard. *)
Definition str (s : option string) : string :=
  match s with
  | Some s' => s'
  | None => ""
  end.

(** ** The handlers *)

(** POST /api/pairing/generate *)
Definition generate (env : Env) (db : Store)
    (userId : option string) (latitude longitude accuracy : option float)
    (deviceName : option string) : Response * Store :=
  if negb (JS.truthy userId) then
    (respond 400 (Error "Missing required field: userId"), db)
  else
    let code := JS.toUpperCase (JS.substring (random36 env) 2 8) in
    let db1 :=
      if JS.truthy deviceName then update_device_name db (str userId) (str deviceName)
      else db in
    match insert_pairing_code env db1 (str userId) code
            (JS.num_or_null latitude) (JS.num_or_null longitude) (JS.num_or_null accuracy) with
    | (db2, Some error) => (respond 500 (Error (Pg.message error)), db2)
    | (db2, None) => (respond 200 (Code code), db2)
    end.

Section Validate.

(** The statement that creates the connection row, as the store runs it. *)
Variable insert_connection : Env -> Store -> uuid -> uuid -> Store * option Pg.error.

(** POST /api/pairing/validate, over the store's insert statement. *)
Definition validate_with (env : Env) (db : Store)
    (code initiatorUserId : option string) : Response * Store :=
  if negb (JS.truthy code) || negb (JS.truthy initiatorUserId) then
    (respond 400 (Error "Missing required fields: code, initiatorUserId"), db)
  else
    match select_code db (cleanCode (str code)) with
    | None => (respond 400 (Error "Invalid or expired pairing code"), db)
    | Some pairingCode =>
        if (PairingCode.expires_at pairingCode <? now env)%Z then
          (respond 400 (Error "Pairing code has expired"), db)
        else
          match select_user db (PairingCode.user_id pairingCode) with
          | None => (respond 400 (Error "User not found"), db)
          | Some pairingUser =>
              let (db1, connectionError) :=
                insert_connection env db (str initiatorUserId) (User.id pairingUser) in
              match connectionError with
              | Some error =>
                  if negb (Pg.code error =? "23505") then
                    (respond 500 (Error (Pg.message error)), db1)
                  else
                    (respond 200 (Profile pairingUser),
                     delete_pairing_code db1 (PairingCode.id pairingCode))
              | None =>
                  (respond 200 (Profile pairingUser),
                   delete_pairing_code db1 (PairingCode.id pairingCode))
              end
          end
    end.

End Validate.

(** POST /api/pairing/validate *)
Definition validate : Env -> Store -> option string -> option string -> Response * Store :=
  validate_with insert_device_connection.

(** GET /api/devices/paired/:userId *)
Definition listPaired (db : Store) (userId : string) : Response :=
  let data :=
    map (fun c => (DeviceConnection.paired_user_id c,
                   embed_user db (DeviceConnection.paired_user_id c)))
      (filter (touches userId) (device_connections db)) in
  let pairedDevices :=
    flat_map (fun connection =>
                match snd connection with
                | Some user => [PairedDevice.of_user user]
                | None => []
                end) data in
  respond 200 (PairedDevices pairedDevices).

(** DELETE /api/devices/disconnect *)
Definition disconnect (db : Store) (userId pairedUserId : option string) : Response * Store :=
  if negb (JS.truthy userId) || negb (JS.truthy pairedUserId) then
    (respond 400 (Error "Missing required fields: userId, pairedUserId"), db)
  else
    (respond 200 (Message "Device disconnected successfully"),
     delete_connections db (str userId) (str pairedUserId)).

(** POST /api/codes/:code/track-usage *)
Definition trackUsage (env : Env) (db : Store) (code : string)
    (userId deviceId : option string) : Response * Store :=
  let cleanCode := cleanCode code in
  if negb (JS.truthy userId) then
    (respond 400 (Error "Missing required field: userId"), db)
  else
    match select_code db cleanCode with
    | None => (respond 400 (Error "Invalid code"), db)
    | Some pairingCode =>
        match single (usage_of db (PairingCode.id pairingCode) (str userId)) with
        | Some existingUsage =>
            (respond 200 (Message "Code usage updated successfully"),
             update_usage db (CodeUsage.id existingUsage) (now env) (JS.str_or_null deviceId))
        | None =>
            match insert_usage env db (PairingCode.id pairingCode) (str userId)
                    (JS.str_or_null deviceId) (PairingCode.user_id pairingCode) (now env) with
            | (db1, Some usageError) => (respond 500 (Error (Pg.message usageError)), db1)
            | (db1, None) => (respond 200 (Message "Code usage tracked successfully"), db1)
            end
        end
    end.

(** [item.users?.device_name || 'Unknown Device'] *)
Definition device_name_or_unknown (db : Store) (user_id : uuid) : string :=
  match embed_user db user_id with
  | Some u => if User.device_name u =? "" then "Unknown Device" else User.device_name u
  | None => "Unknown Device"
  end.

(** GET /api/codes/:code/usage-history?userId= *)
Definition usageHistory (db : Store) (code : string) (userId : option string) : Response :=
  let cleanCode := cleanCode code in
  if negb (JS.truthy userId) then
    respond 400 (Error "Missing required field: userId")
  else
    match select_code db cleanCode with
    | None => respond 400 (Error "Invalid code")
    | Some pairingCode =>
        if negb (PairingCode.user_id pairingCode =? str userId) then
          respond 403 (Error "Not authorized to view this code's usage")
        else
          let usage :=
            order_desc
              (filter (fun r => CodeUsage.pairing_code_id r =? PairingCode.id pairingCode)
                 (code_usage db)) in
          let usageHistory :=
            map (fun item =>
                   UsageEntry.mk (CodeUsage.id item) (CodeUsage.user_id item)
                     (CodeUsage.device_id item) (CodeUsage.timestamp item)
                     (device_name_or_unknown db (CodeUsage.user_id item)))
              usage in
          respond 200 (UsageHistory cleanCode (length usageHistory) usageHistory)
    end.

(** DELETE /api/codes/:code/usage/:usageId *)
Definition removeUsage (db : Store) (code usageId : string) (userId : option string)
    : Response * Store :=
  let cleanCode := cleanCode code in
  if negb (JS.truthy userId) then
    (respond 400 (Error "Missing required field: userId"), db)
  else
    match select_code db cleanCode with
    | None => (respond 400 (Error "Invalid code"), db)
    | Some pairingCode =>
        if negb (PairingCode.user_id pairingCode =? str userId) then
          (respond 403 (Error "Not authorized to remove users from this code"), db)
        else
          (respond 200 (Message "User removed successfully"),
           delete_usage db usageId (PairingCode.id pairingCode))
    end.

(** GET /api/pairing/location/:code *)
Definition getLocation (db : Store) (code : string) : Response :=
  let cleanCode := cleanCode code in
  match select_code db cleanCode with
  | None => respond 400 (Error "Invalid pairing code")
  | Some pairingCode =>
      if negb (JS.truthy_num (PairingCode.latitude pairingCode))
         || negb (JS.truthy_num (PairingCode.longitude pairingCode)) then
        respond 400 (Error "Location data not available for this code")
      else
        respond 200
          (Location
             (LocationInfo.mk (PairingCode.code pairingCode)
                (PairingCode.latitude pairingCode) (PairingCode.longitude pairingCode)
                (PairingCode.accuracy pairingCode)
                (option_map User.device_name
                   (embed_user db (PairingCode.user_id pairingCode)))
                (PairingCode.created_at pairingCode)))
  end.

(** POST /api/pairing/update-location/:code *)
Definition updateLocation (env : Env) (db : Store) (code : string)
    (latitude longitude accuracy : option float) : Response * Store :=
  let cleanCode := cleanCode code in
  if negb (JS.truthy_num latitude) || negb (JS.truthy_num longitude) then
    (respond 400 (Error "Missing required fields: latitude, longitude"), db)
  else
    match select_code db cleanCode with
    | None => (respond 400 (Error "Invalid pairing code"), db)
    | Some pairingCode =>
        (respond 200 (MessageCode "Location updated successfully" cleanCode),
         update_location db (PairingCode.id pairingCode) latitude longitude
           (JS.num_or_null accuracy) (now env))
    end.

(** ** The constraints of the schema *)

(** No key occurs twice. *)
Fixpoint unique_keys (keys : list string) : bool :=
  match keys with
  | [] => true
  | k :: keys' => negb (existsb (String.eqb k) keys') && unique_keys keys'
  end.

(** The pair of columns under [UNIQUE(initiator_user_id, paired_user_id)]. *)
Fixpoint unique_pairs (cs : list DeviceConnection.t) : bool :=
  match cs with
  | [] => true
  | c :: cs' =>
      negb (existsb (fun d =>
                       (DeviceConnection.initiator_user_id d =? DeviceConnection.initiator_user_id c)
                       && (DeviceConnection.paired_user_id d =? DeviceConnection.paired_user_id c))
              cs')
      && unique_pairs cs'
  end.

(** A store that satisfies the primary keys, UNIQUE constraints and foreign
    keys declared for the four tables. *)
Definition store_ok (db : Store) : bool :=
  unique_keys (map User.id (users db))
  && unique_keys (map User.device_id (users db))
  && unique_keys (map PairingCode.id (pairing_codes db))
  && unique_keys (map PairingCode.code (pairing_codes db))
  && forallb (fun p => has_user db (PairingCode.user_id p)) (pairing_codes db)
  && unique_keys (map DeviceConnection.id (device_connections db))
  && unique_pairs (device_connections db)
  && forallb (fun c => has_user db (DeviceConnection.initiator_user_id c)
                       && has_user db (DeviceConnection.paired_user_id c))
       (device_connections db)
  && unique_keys (map CodeUsage.id (code_usage db))
  && forallb (fun r => has_pairing_code db (CodeUsage.pairing_code_id r)
                       && has_user db (CodeUsage.user_id r)
                       && has_user db (CodeUsage.code_owner_id r))
       (code_usage db).

(** ** A small deployment, used to run the handlers *)

Module Sample.

Definition user (id device_id device_name : string) : User.t :=
  User.mk id device_id device_name None None None None None None None None None 0%Z 0%Z.

Definition U1 : User.t := user "u1" "dev-1" "Station".
Definition U2 : User.t := user "u2" "dev-2" "Seeker".
Definition U3 : User.t := user "u3" "dev-3" "Bystander".

(** Owner U1 holds the code AB12CD with a location attached. *)
Definition AB12CD : PairingCode.t :=
  PairingCode.mk "pc1" "u1" "AB12CD" (Some 37.125%float) (Some (-122.125)%float)
    (Some 5%float) 1000%Z (1000 + day_ms)%Z None.

(** A second code of U1, with a ledger row of its own. *)
Definition ZZ99ZZ : PairingCode.t :=
  PairingCode.mk "pc2" "u1" "ZZ99ZZ" None None None 1000%Z (1000 + day_ms)%Z None.

Definition usage2 : CodeUsage.t :=
  CodeUsage.mk "cu2" "pc2" "u3" None "u1" 1500%Z 1500%Z.

(** A code of U3 whose stored location lies on the equator. *)
Definition EQ0000 : PairingCode.t :=
  PairingCode.mk "pc3" "u3" "EQ0000" (Some 0%float) (Some 9.5%float) None
    1000%Z (1000 + day_ms)%Z None.

Definition db : Store :=
  mkStore [U1; U2; U3] [AB12CD; ZZ99ZZ; EQ0000] [] [usage2].

Definition env (at_ : Z) (id : uuid) : Env := mkEnv at_ id "0.4fzyo82mvyr".

End Sample.

(** ** Vocabulary of the properties *)

(** A request that names a stored code by a truthy string. *)
Definition names (code : string) (pc : PairingCode.t) : Prop :=
  JS.truthy (Some code) = true /\ cleanCode code = PairingCode.code pc.

(** [A-Z0-9] *)
Definition upper_alnum (c : ascii) : bool :=
  let n := nat_of_ascii c in
  ((48 <=? n)%nat && (n <=? 57)%nat) || ((65 <=? n)%nat && (n <=? 90)%nat).

(** [0-9a-z], the digits of radix 36 as [toString(36)] writes them. *)
Definition radix36_digit (c : ascii) : bool :=
  let n := nat_of_ascii c in
  ((48 <=? n)%nat && (n <=? 57)%nat) || ((97 <=? n)%nat && (n <=? 122)%nat).

Fixpoint all_chars (f : ascii -> bool) (s : string) : bool :=
  match s with
  | EmptyString => true
  | String c s' => f c && all_chars f s'
  end.

(** The pattern [^[A-Z0-9]{6}$]. *)
Definition matches_code_format (s : string) : bool :=
  (String.length s =? 6)%nat && all_chars upper_alnum s.

(** What [Math.random().toString(36)] can return: a number of [0, 1) written
    in radix 36, that is [0] for zero and otherwise [0.] followed by at least
    one digit. *)
Definition radix36_fraction (s : string) : bool :=
  match s with
  | String "0" EmptyString => true
  | String "0" (String "." ds) => negb (ds =? "") && all_chars radix36_digit ds
  | _ => false
  end.

(** The peers a paired-devices response lists, by id. *)
Definition listed (r : Response) : list uuid :=
  match body r with
  | PairedDevices devices => map PairedDevice.id devices
  | _ => []
  end.

(** A coordinate that is present and equal to zero. *)
Definition is_zero (x : option float) : bool :=
  match x with
  | Some f => PrimFloat.eqb f 0%float
  | None => false
  end.

(** The invariant of the ledger: at most one row per pairing code and
    redeeming user. *)
Definition ledger_single (db : Store) : Prop :=
  forall pairing_code_id user_id,
    (length (usage_of db pairing_code_id user_id) <= 1)%nat.

(** No ledger row with this id belongs to this pairing code: the id is that
    of a row of another code, or of no row at all. *)
Definition foreign_to (db : Store) (usageId : uuid) (pc : PairingCode.t) : bool :=
  forallb (fun r => implb (CodeUsage.id r =? usageId)
                      (negb (CodeUsage.pairing_code_id r =? PairingCode.id pc)))
    (code_usage db).

(** The history the owner is shown for a code: its ledger rows, newest
    first. *)
Definition history_of (db : Store) (pc : PairingCode.t) : list UsageEntry.t :=
  map (fun item =>
         UsageEntry.mk (CodeUsage.id item) (CodeUsage.user_id item)
           (CodeUsage.device_id item) (CodeUsage.timestamp item)
           (device_name_or_unknown db (CodeUsage.user_id item)))
    (order_desc
       (filter (fun r => CodeUsage.pairing_code_id r =? PairingCode.id pc) (code_usage db))).

(** ** The service as a transition system *)

(** The requests of the pairing, device-graph and ledger endpoints. *)
Inductive Request :=
| Generate (userId : option string) (latitude longitude accuracy : option float)
    (deviceName : option string)
| Validate (code initiatorUserId : option string)
| ListPaired (userId : string)
| Disconnect (userId pairedUserId : option string)
| TrackUsage (code : string) (userId deviceId : option string)
| GetUsageHistory (code : string) (userId : option string)
| RemoveUsage (code usageId : string) (userId : option string)
| GetLocation (code : string)
| UpdateLocation (code : string) (latitude longitude accuracy : option float).

(** One request served: the response and the store afterwards. *)
Definition handle (env : Env) (db : Store) (req : Request) : Response * Store :=
  match req with
  | Generate userId latitude longitude accuracy deviceName =>
      generate env db userId latitude longitude accuracy deviceName
  | Validate code initiatorUserId => validate env db code initiatorUserId
  | ListPaired userId => (listPaired db userId, db)
  | Disconnect userId pairedUserId => disconnect db userId pairedUserId
  | TrackUsage code userId deviceId => trackUsage env db code userId deviceId
  | GetUsageHistory code userId => (usageHistory db code userId, db)
  | RemoveUsage code usageId userId => removeUsage db code usageId userId
  | GetLocation code => (getLocation db code, db)
  | UpdateLocation code latitude longitude accuracy =>
      updateLocation env db code latitude longitude accuracy
  end.

(** A run: the requests served one after another, each with its own
    environment. *)
Fixpoint run (db : Store) (calls : list (Env * Request)) : Store :=
  match calls with
  | [] => db
  | (env, req) :: calls' => run (snd (handle env db req)) calls'
  end.

(** ** The other endpoints: users, ledger views, pings, notifications *)

(** The [updateData] object of the user endpoints: the columns an update
    sets.  [if (x) updateData.k = x] puts a column in only for a truthy
    value. *)
Module Patch.

Record t := mk {
  device_name : option string;
  full_name : option string;
  emergency_contact1_name : option string;
  emergency_contact1_phone : option string;
  emergency_contact2_name : option string;
  emergency_contact2_phone : option string;
  birthday : option string;
  address : option string;
  expo_push_token : option string;
  fcm_token : option string
}.

(** [Object.keys(updateData).length === 0] *)
Definition is_empty (p : t) : bool :=
  match device_name p, full_name p, emergency_contact1_name p, emergency_contact1_phone p,
        emergency_contact2_name p, emergency_contact2_phone p, birthday p, address p,
        expo_push_token p, fcm_token p with
  | None, None, None, None, None, None, None, None, None, None => true
  | _, _, _, _, _, _, _, _, _, _ => false
  end.

(** A column after the update: the new value when the patch has one. *)
Definition override (new old : option string) : option string :=
  match new with
  | Some v => Some v
  | None => old
  end.

(** The row after [update(updateData)]. *)
Definition apply (p : t) (u : User.t) : User.t :=
  User.mk (User.id u) (User.device_id u)
    (match device_name p with Some n => n | None => User.device_name u end)
    (override (full_name p) (User.full_name u))
    (override (emergency_contact1_name p) (User.emergency_contact1_name u))
    (override (emergency_contact1_phone p) (User.emergency_contact1_phone u))
    (override (emergency_contact2_name p) (User.emergency_contact2_name u))
    (override (emergency_contact2_phone p) (User.emergency_contact2_phone u))
    (override (birthday p) (User.birthday u))
    (override (address p) (User.address u))
    (override (expo_push_token p) (User.expo_push_token u))
    (override (fcm_token p) (User.fcm_token u))
    (User.created_at u) (User.updated_at u).

End Patch.

(** [a !== b] on a request field and a nullable column. *)
Definition differs (a b : option string) : bool :=
  match a, b with
  | Some x, Some y => negb (x =? y)
  | None, None => false
  | _, _ => true
  end.

(** [from('users').select(..).eq('device_id', d).single()] *)
Definition select_user_by_device (db : Store) (device_id : string) : option User.t :=
  single (filter (fun u => User.device_id u =? device_id) (users db)).

(** [from('users').update(updateData).eq('id', id)] *)
Definition update_user (db : Store) (id : uuid) (patch : Patch.t) : Store :=
  mkStore
    (map (fun u => if User.id u =? id then Patch.apply patch u else u) (users db))
    (pairing_codes db) (device_connections db) (code_usage db).

(** [from('users').insert({..}).select().single()]: the store and the new
    row, or the error.  [id], [created_at] and [updated_at] take their
    column defaults; there is no [fcm_token] in the inserted object. *)
Definition insert_user (env : Env) (db : Store) (device_id device_name : string)
    (full_name contact1_name contact1_phone contact2_name contact2_phone
       birthday address expo_push_token : option string)
    : Store * (Pg.error + User.t) :=
  if has_user db (gen_random_uuid env) then
    (db, inl (Pg.unique_violation "users_pkey"))
  else if existsb (fun u => User.device_id u =? device_id) (users db) then
    (db, inl (Pg.unique_violation "users_device_id_key"))
  else
    let newUser :=
      User.mk (gen_random_uuid env) device_id device_name full_name
        contact1_name contact1_phone contact2_name contact2_phone
        birthday address expo_push_token None (now env) (now env) in
    (mkStore (users db ++ [newUser]) (pairing_codes db) (device_connections db)
       (code_usage db),
     inr newUser).

(** POST /api/users/get-or-create *)
Definition getOrCreateUser (env : Env) (db : Store)
    (deviceId deviceName expoPushToken fullName
       emergencyContact1Name emergencyContact1Phone
       emergencyContact2Name emergencyContact2Phone birthday address : option string)
    : Response * Store :=
  if negb (JS.truthy deviceId) || negb (JS.truthy deviceName) then
    (respond 400 (Error "Missing required fields: deviceId, deviceName"), db)
  else
    match select_user_by_device db (str deviceId) with
    | Some existingUser =>
        let updateData :=
          Patch.mk
            (JS.str_or_null deviceName)
            (JS.str_or_null fullName)
            (JS.str_or_null emergencyContact1Name)
            (JS.str_or_null emergencyContact1Phone)
            (JS.str_or_null emergencyContact2Name)
            (JS.str_or_null emergencyContact2Phone)
            (JS.str_or_null birthday)
            (JS.str_or_null address)
            (if JS.truthy expoPushToken
                && differs expoPushToken (User.expo_push_token existingUser)
             then expoPushToken else None)
            None in
        (respond 200 (Profile existingUser),
         if Patch.is_empty updateData then db
         else update_user db (User.id existingUser) updateData)
    | None =>
        match insert_user env db (str deviceId) (str deviceName)
                (JS.str_or_null fullName)
                (JS.str_or_null emergencyContact1Name)
                (JS.str_or_null emergencyContact1Phone)
                (JS.str_or_null emergencyContact2Name)
                (JS.str_or_null emergencyContact2Phone)
                (JS.str_or_null birthday) (JS.str_or_null address) expoPushToken with
        | (db1, inl createError) => (respond 500 (Error (Pg.message createError)), db1)
        | (db1, inr newUser) => (respond 200 (Profile newUser), db1)
        end
    end.

Module UserProfile.
(** The columns GET /api/users/:userId selects. *)
Record t := mk {
  id : uuid;
  device_id : string;
  device_name : string;
  full_name : option string;
  emergency_contact1_name : option string;
  emergency_contact1_phone : option string;
  emergency_contact2_name : option string;
  emergency_contact2_phone : option string;
  birthday : option string;
  address : option string;
  created_at : instant
}.

Definition of_user (u : User.t) : t :=
  mk (User.id u) (User.device_id u) (User.device_name u) (User.full_name u)
    (User.emergency_contact1_name u) (User.emergency_contact1_phone u)
    (User.emergency_contact2_name u) (User.emergency_contact2_phone u)
    (User.birthday u) (User.address u) (User.created_at u).
End UserProfile.

Module PastedCode.
(** [{ id, code, usedAt, ownerDevice }] *)
Record t := mk { id : uuid; code : string; usedAt : instant; ownerDevice : string }.
End PastedCode.

Module UsedBy.
(** [{ id, device, usedAt }] *)
Record t := mk { id : uuid; device : string; usedAt : instant }.
End UsedBy.

(** The bodies of the responses that [Body] has no shape for. *)
Inductive Payload :=
| Plain (body : Body)
| UserColumns (user : UserProfile.t)
| MessageUser (message : string) (user : User.t)        (* { message, user } *)
| PastedCodes (count : nat) (codes : list PastedCode.t)  (* { count, codes } *)
| WhoUsed (code : string) (count : nat) (users : list UsedBy.t)
| MessageId (message messageId : string)                 (* { message, messageId } *)
| ErrorDetails (error details : string).                 (* { error, details } *)

Record Reply := reply { reply_status : nat; payload : Payload }.

(** GET /api/users/:userId *)
Definition getUser (db : Store) (userId : string) : Reply :=
  if negb (JS.truthy (Some userId)) then
    reply 400 (Plain (Error "Missing required field: userId"))
  else
    match select_user db userId with
    | None => reply 404 (Plain (Error "User not found"))
    | Some user => reply 200 (UserColumns (UserProfile.of_user user))
    end.

(** [update(updateData).eq('id', userId).select().single()] and the response
    built on it. *)
Definition update_and_reply (db : Store) (userId : string) (updateData : Patch.t)
    (message : string) : Reply * Store :=
  let db1 := update_user db userId updateData in
  match select_user db1 userId with
  | None => (reply 404 (Plain (Error "User not found")), db1)
  | Some user => (reply 200 (MessageUser message user), db1)
  end.

(** POST /api/users/:userId/update-emergency-contacts *)
Definition updateEmergencyContacts (db : Store) (userId : string)
    (emergency_contact1_name emergency_contact1_phone
       emergency_contact2_name emergency_contact2_phone : option string)
    : Reply * Store :=
  if negb (JS.truthy (Some userId)) then
    (reply 400 (Plain (Error "Missing required field: userId")), db)
  else
    let updateData :=
      Patch.mk None None
        (JS.str_or_null emergency_contact1_name) (JS.str_or_null emergency_contact1_phone)
        (JS.str_or_null emergency_contact2_name) (JS.str_or_null emergency_contact2_phone)
        None None None None in
    if Patch.is_empty updateData then
      (reply 400 (Plain (Error "No fields to update")), db)
    else
      update_and_reply db userId updateData "Emergency contacts updated successfully".

(** PATCH /api/users/:userId/update-profile *)
Definition updateProfile (db : Store) (userId : string)
    (full_name birthday address
       emergency_contact1_name emergency_contact1_phone
       emergency_contact2_name emergency_contact2_phone device_name : option string)
    : Reply * Store :=
  if negb (JS.truthy (Some userId)) then
    (reply 400 (Plain (Error "Missing required field: userId")), db)
  else
    let updateData :=
      Patch.mk (JS.str_or_null device_name) (JS.str_or_null full_name)
        (JS.str_or_null emergency_contact1_name) (JS.str_or_null emergency_contact1_phone)
        (JS.str_or_null emergency_contact2_name) (JS.str_or_null emergency_contact2_phone)
        (JS.str_or_null birthday) (JS.str_or_null address) None None in
    if Patch.is_empty updateData then
      (reply 400 (Plain (Error "No fields to update")), db)
    else
      update_and_reply db userId updateData "Profile updated successfully".

(** POST /api/users/update-fcm-token *)
Definition updateFcmToken (db : Store) (deviceId fcmToken : option string)
    : Response * Store :=
  if negb (JS.truthy deviceId) || negb (JS.truthy fcmToken) then
    (respond 400 (Error "Missing required fields: deviceId, fcmToken"), db)
  else
    match select_user_by_device db (str deviceId) with
    | Some user =>
        (respond 200 (Message "FCM token updated successfully"),
         update_user db (User.id user)
           (Patch.mk None None None None None None None None None fcmToken))
    | None => (respond 404 (Error "User not found"), db)
    end.

(** [item.pairing_codes?.code || 'Unknown'] and
    [item.pairing_codes?.users?.device_name || 'Unknown Device'], over the
    embedded [pairing_codes:pairing_code_id(code, users:user_id(device_name))]. *)
Definition embed_code (db : Store) (fk : uuid) : option PairingCode.t :=
  find (fun p => PairingCode.id p =? fk) (pairing_codes db).

Definition code_or_unknown (db : Store) (pairing_code_id : uuid) : string :=
  match embed_code db pairing_code_id with
  | Some p => if PairingCode.code p =? "" then "Unknown" else PairingCode.code p
  | None => "Unknown"
  end.

Definition owner_device_or_unknown (db : Store) (pairing_code_id : uuid) : string :=
  match embed_code db pairing_code_id with
  | Some p => device_name_or_unknown db (PairingCode.user_id p)
  | None => "Unknown Device"
  end.

(** GET /api/users/:userId/pasted-codes *)
Definition pastedCodes (db : Store) (userId : string) : Reply :=
  if negb (JS.truthy (Some userId)) then
    reply 400 (Plain (Error "Missing required field: userId"))
  else
    let usage :=
      firstn 50
        (order_desc (filter (fun r => CodeUsage.user_id r =? userId) (code_usage db))) in
    let pastedCodes :=
      map (fun item =>
             PastedCode.mk (CodeUsage.id item)
               (code_or_unknown db (CodeUsage.pairing_code_id item))
               (CodeUsage.timestamp item)
               (owner_device_or_unknown db (CodeUsage.pairing_code_id item)))
        usage in
    reply 200 (PastedCodes (length pastedCodes) pastedCodes).

(** GET /api/codes/:code/who-used *)
Definition whoUsed (db : Store) (code : string) : Reply :=
  let cleanCode := cleanCode code in
  match select_code db cleanCode with
  | None => reply 400 (Plain (Error "Invalid code"))
  | Some pairingCode =>
      let usage :=
        order_desc
          (filter (fun r => CodeUsage.pairing_code_id r =? PairingCode.id pairingCode)
             (code_usage db)) in
      let usageList :=
        map (fun item =>
               UsedBy.mk (CodeUsage.id item)
                 (device_name_or_unknown db (CodeUsage.user_id item))
                 (CodeUsage.timestamp item))
          usage in
      reply 200 (WhoUsed cleanCode (length usageList) usageList)
  end.

(** The pings table, and the database with it. *)
Module Ping.
Record t := mk { id : uuid; from_user_id : uuid; to_user_id : uuid; created_at : instant }.
End Ping.

Record Database := mkDatabase { tables : Store; pings : list Ping.t }.

(** [from('pings').insert({ from_user_id, to_user_id })] *)
Definition insert_ping (env : Env) (d : Database) (from_user_id to_user_id : uuid)
    : Database * option Pg.error :=
  if existsb (fun p => Ping.id p =? gen_random_uuid env) (pings d) then
    (d, Some (Pg.unique_violation "pings_pkey"))
  else if negb (has_user (tables d) from_user_id) then
    (d, Some (Pg.foreign_key_violation "pings_from_user_id_fkey"))
  else if negb (has_user (tables d) to_user_id) then
    (d, Some (Pg.foreign_key_violation "pings_to_user_id_fkey"))
  else
    (mkDatabase (tables d)
       (pings d ++ [Ping.mk (gen_random_uuid env) from_user_id to_user_id (now env)]),
     None).

(** POST /api/pings/send *)
Definition sendPing (env : Env) (d : Database) (fromUserId toUserId : option string)
    : Response * Database :=
  if negb (JS.truthy fromUserId) || negb (JS.truthy toUserId) then
    (respond 400 (Error "Missing required fields: fromUserId, toUserId"), d)
  else
    match insert_ping env d (str fromUserId) (str toUserId) with
    | (d1, Some error) => (respond 500 (Error (Pg.message error)), d1)
    | (d1, None) => (respond 200 (Message "Ping sent successfully"), d1)
    end.

(** [from('users').delete().eq('id', id)].  The rows that reference the user
    go with it where the schema says ON DELETE CASCADE: its pairing codes
    (and, through them, their code_usage rows), the connections on either
    side, the code_usage rows it redeemed, its pings.  [code_owner_id] has no
    cascade: a code_usage row left over that names the user as code owner
    makes the statement fail, and nothing is deleted. *)
Definition delete_user (d : Database) (id : uuid) : Database * option Pg.error :=
  let db := tables d in
  if negb (has_user db id) then (d, None)
  else
    let owned := filter (fun p => PairingCode.user_id p =? id) (pairing_codes db) in
    let usage :=
      filter (fun r => negb (CodeUsage.user_id r =? id)
                       && negb (existsb (fun p => PairingCode.id p
                                                  =? CodeUsage.pairing_code_id r) owned))
        (code_usage db) in
    if existsb (fun r => CodeUsage.code_owner_id r =? id) usage then
      (d, Some (Pg.foreign_key_violation "code_usage_code_owner_id_fkey"))
    else
      (mkDatabase
         (mkStore
            (filter (fun u => negb (User.id u =? id)) (users db))
            (filter (fun p => negb (PairingCode.user_id p =? id)) (pairing_codes db))
            (filter (fun c => negb (touches id c)) (device_connections db))
            usage)
         (filter (fun p => negb ((Ping.from_user_id p =? id) || (Ping.to_user_id p =? id)))
            (pings d)),
       None).

(** DELETE /api/users/:userId *)
Definition deleteUser (d : Database) (userId : string) : Response * Database :=
  if negb (JS.truthy (Some userId)) then
    (respond 400 (Error "Missing required field: userId"), d)
  else
    match delete_user d userId with
    | (d1, Some deleteError) => (respond 404 (Error "User not found"), d1)
    | (d1, None) => (respond 200 (Message "User profile deleted successfully"), d1)
    end.

(** What goes to [admin.messaging().send]. *)
Module Push.
Record t := mk {
  token : string;
  title : string;
  body : string;
  data_type : string;
  data_device_name : option string;
  data_timestamp : instant;          (* new Date().toISOString() *)
  android_priority : string;
  android_sound : option string;
  android_channelId : option string;
  android_eventTimestamp : option instant   (* new Date().getTime().toString() *)
}.
End Push.

(** POST /api/notifications/send-crash: the response, and the messages handed
    to Firebase (the handler does not wait for their delivery). *)
Definition sendCrash (env : Env) (firebaseInitialized : bool) (db : Store)
    (toUserId deviceName message : option string) : Response * list Push.t :=
  if negb (JS.truthy toUserId) || negb (JS.truthy deviceName) then
    (respond 400 (Error "Missing required fields: toUserId, deviceName"), [])
  else
    match select_user db (str toUserId) with
    | None => (respond 404 (Error "User not found or no FCM token registered"), [])
    | Some user =>
        if negb (JS.truthy (User.fcm_token user)) then
          (respond 400 (Error "User does not have FCM token registered"), [])
        else if negb firebaseInitialized then
          (respond 202 (Message "Notification queued - Firebase initializing"), [])
        else
          (respond 202 (Message "Crash notification sent successfully"),
           [Push.mk (str (User.fcm_token user))
              "CRASH DETECTED!"
              ("Crash detected on " ++ str deviceName ++ ". "
               ++ (if JS.truthy message then str message
                   else "Contact emergency services immediately!"))
              "crash" (Some (str deviceName)) (now env)
              "high" (Some "default") (Some "crash_detection_channel") (Some (now env))])
    end.

(** POST /api/notifications/send: here the response waits for Firebase, whose
    answer is the message id or the text of an error. *)
Definition sendNotification (env : Env) (firebaseInitialized : bool)
    (delivery : string + string) (db : Store)
    (toUserId title body : option string) : Reply * list Push.t :=
  if negb (JS.truthy toUserId) || negb (JS.truthy title) || negb (JS.truthy body) then
    (reply 400 (Plain (Error "Missing required fields: toUserId, title, body")), [])
  else
    match select_user db (str toUserId) with
    | None => (reply 404 (Plain (Error "User not found")), [])
    | Some user =>
        if negb (JS.truthy (User.fcm_token user)) then
          (reply 400 (Plain (Error "User does not have FCM token registered")), [])
        else if negb firebaseInitialized then
          (reply 500 (Plain (Error "Firebase not configured on backend")), [])
        else
          let sent :=
            [Push.mk (str (User.fcm_token user)) (str title) (str body)
               "general" None (now env) "high" None None None] in
          match delivery with
          | inl messageId =>
              (reply 200 (MessageId "Notification sent successfully" messageId), sent)
          | inr error =>
              (reply 500 (ErrorDetails "Failed to send notification" error), sent)
          end
    end.

(** ** The whole service as a transition system *)

(** Every endpoint that reads or writes the database. *)
Inductive Call :=
| Core (req : Request)
| GetOrCreateUser
    (deviceId deviceName expoPushToken fullName
       emergencyContact1Name emergencyContact1Phone
       emergencyContact2Name emergencyContact2Phone birthday address : option string)
| GetUser (userId : string)
| UpdateEmergencyContacts (userId : string)
    (emergency_contact1_name emergency_contact1_phone
       emergency_contact2_name emergency_contact2_phone : option string)
| UpdateProfile (userId : string)
    (full_name birthday address
       emergency_contact1_name emergency_contact1_phone
       emergency_contact2_name emergency_contact2_phone device_name : option string)
| UpdateFcmToken (deviceId fcmToken : option string)
| PastedCodesOf (userId : string)
| WhoUsedCode (code : string)
| SendPing (fromUserId toUserId : option string)
| DeleteUser (userId : string)
| SendCrash (firebaseInitialized : bool) (toUserId deviceName message : option string)
| SendNotification (firebaseInitialized : bool) (delivery : string + string)
    (toUserId title body : option string).

(** One call served: the status of the response and the database
    afterwards. *)
Definition serve (env : Env) (d : Database) (call : Call) : nat * Database :=
  let on_tables (status : nat) (db : Store) := (status, mkDatabase db (pings d)) in
  match call with
  | Core req =>
      let (r, db) := handle env (tables d) req in on_tables (status r) db
  | GetOrCreateUser deviceId deviceName expoPushToken fullName c1n c1p c2n c2p
      birthday address =>
      let (r, db) :=
        getOrCreateUser env (tables d) deviceId deviceName expoPushToken fullName
          c1n c1p c2n c2p birthday address in
      on_tables (status r) db
  | GetUser userId => (reply_status (getUser (tables d) userId), d)
  | UpdateEmergencyContacts userId c1n c1p c2n c2p =>
      let (r, db) := updateEmergencyContacts (tables d) userId c1n c1p c2n c2p in
      on_tables (reply_status r) db
  | UpdateProfile userId full_name birthday address c1n c1p c2n c2p device_name =>
      let (r, db) :=
        updateProfile (tables d) userId full_name birthday address c1n c1p c2n c2p
          device_name in
      on_tables (reply_status r) db
  | UpdateFcmToken deviceId fcmToken =>
      let (r, db) := updateFcmToken (tables d) deviceId fcmToken in
      on_tables (status r) db
  | PastedCodesOf userId => (reply_status (pastedCodes (tables d) userId), d)
  | WhoUsedCode code => (reply_status (whoUsed (tables d) code), d)
  | SendPing fromUserId toUserId =>
      let (r, d1) := sendPing env d fromUserId toUserId in (status r, d1)
  | DeleteUser userId =>
      let (r, d1) := deleteUser d userId in (status r, d1)
  | SendCrash firebaseInitialized toUserId deviceName message =>
      (status (fst (sendCrash env firebaseInitialized (tables d) toUserId deviceName message)),
       d)
  | SendNotification firebaseInitialized delivery toUserId title body =>
      (reply_status
         (fst (sendNotification env firebaseInitialized delivery (tables d)
                 toUserId title body)),
       d)
  end.

Fixpoint serve_all (d : Database) (calls : list (Env * Call)) : Database :=
  match calls with
  | [] => d
  | (env, call) :: calls' => serve_all (snd (serve env d call)) calls'
  end.

(** The constraints of the schema, pings included. *)
Definition database_ok (d : Database) : bool :=
  store_ok (tables d)
  && unique_keys (map Ping.id (pings d))
  && forallb (fun p => has_user (tables d) (Ping.from_user_id p)
                       && has_user (tables d) (Ping.to_user_id p))
       (pings d).

(** Every ledger row names, as code owner, the owner of its pairing code. *)
Definition ledger_owner_ok (db : Store) : bool :=
  forallb (fun r =>
             forallb (fun p => implb (PairingCode.id p =? CodeUsage.pairing_code_id r)
                                 (CodeUsage.code_owner_id r =? PairingCode.user_id p))
               (pairing_codes db))
    (code_usage db).


(** Newest first. *)
Definition newest_first (times : list instant) : Prop :=
  StronglySorted (fun a b => (b <= a)%Z) times.

Definition lower_char (c : ascii) : ascii :=
  let n := nat_of_ascii c in
  if ((65 <=? n)%nat && (n <=? 90)%nat)%bool then ascii_of_nat (n + 32) else c.

(** A code as a user may type it: in lower case, *)
Fixpoint toLowerCase (s : string) : string :=
  match s with
  | EmptyString => EmptyString
  | String c s' => String (lower_char c) (toLowerCase s')
  end.

(** and with a hyphen put in after the first [n] characters. *)
Fixpoint hyphenate (n : nat) (s : string) : string :=
  match n, s with
  | O, _ => String "-" s
  | S n', String c s' => String c (hyphenate n' s')
  | S _, EmptyString => String "-" EmptyString
  end.

(** A column that had a value still has one. *)
Definition still_set (old new : option string) : Prop :=
  old <> None -> new <> None.

(** What no update of a user row undoes: the row keeps its id, device id and
    creation time, its device name does not become empty, and no profile
    column that was set becomes null. *)
Definition keeps_what_is_set (u u1 : User.t) : Prop :=
  User.id u1 = User.id u
  /\ User.device_id u1 = User.device_id u
  /\ User.created_at u1 = User.created_at u
  /\ (User.device_name u <> "" -> User.device_name u1 <> "")
  /\ still_set (User.full_name u) (User.full_name u1)
  /\ still_set (User.emergency_contact1_name u) (User.emergency_contact1_name u1)
  /\ still_set (User.emergency_contact1_phone u) (User.emergency_contact1_phone u1)
  /\ still_set (User.emergency_contact2_name u) (User.emergency_contact2_name u1)
  /\ still_set (User.emergency_contact2_phone u) (User.emergency_contact2_phone u1)
  /\ still_set (User.birthday u) (User.birthday u1)
  /\ still_set (User.address u) (User.address u1).

(** ** Queries on a store that satisfies its constraints *)

Example cleanCode_hyphen_lower : cleanCode "ab-12cd" = "AB12CD".
Proof. reflexivity. Qed.

Example cleanCode_first_hyphen_only : cleanCode "a-b-c" = "AB-C".
Proof. reflexivity. Qed.

Example sample_store_ok : store_ok Sample.db = true.
Proof. reflexivity. Qed.

Section KeyedRows.

Context {A : Type} (key : A -> string).

Lemma filter_key_absent (k : string) (l : list A) :
  existsb (String.eqb k) (map key l) = false ->
  filter (fun y => key y =? k) l = [].
Proof.
  induction l as [|a l IH]; simpl; intros H; [reflexivity|].
  apply orb_false_iff in H. destruct H as [Ha Hl].
  rewrite String.eqb_sym, Ha. auto.
Qed.

Lemma filter_key_unique (x : A) (l : list A) :
  unique_keys (map key l) = true -> In x l ->
  filter (fun y => key y =? key x) l = [x].
Proof.
  induction l as [|a l IH]; simpl; intros U HIn; [contradiction|].
  apply andb_true_iff in U. destruct U as [Ua Ul].
  apply negb_true_iff in Ua.
  destruct HIn as [->|HIn].
  - rewrite String.eqb_refl. f_equal. now apply filter_key_absent.
  - destruct (key a =? key x) eqn:E.
    + apply String.eqb_eq in E. exfalso.
      assert (existsb (String.eqb (key a)) (map key l) = true) as Hx.
      { apply existsb_exists. exists (key x). split.
        - now apply in_map.
        - now apply String.eqb_eq. }
      congruence.
    + auto.
Qed.

Lemma existsb_key_In (k : string) (l : list A) :
  existsb (fun y => key y =? k) l = true -> exists x, In x l /\ key x = k.
Proof.
  intros H. apply existsb_exists in H. destruct H as [x [HIn E]].
  exists x. split; [assumption|]. now apply String.eqb_eq.
Qed.

Lemma In_existsb_key (x : A) (l : list A) :
  In x l -> existsb (fun y => key y =? key x) l = true.
Proof.
  intros H. apply existsb_exists. exists x. split; [assumption|].
  apply String.eqb_refl.
Qed.

End KeyedRows.

Lemma single_Some {A : Type} (l : list A) (x : A) : single l = Some x -> l = [x].
Proof.
  destruct l as [|a [|b l]]; simpl; intros H; try discriminate. now inversion H.
Qed.

(** [store_ok], conjunct by conjunct. *)
Lemma store_ok_iff db :
  store_ok db = true <->
  unique_keys (map User.id (users db)) = true
  /\ unique_keys (map User.device_id (users db)) = true
  /\ unique_keys (map PairingCode.id (pairing_codes db)) = true
  /\ unique_keys (map PairingCode.code (pairing_codes db)) = true
  /\ forallb (fun p => has_user db (PairingCode.user_id p)) (pairing_codes db) = true
  /\ unique_keys (map DeviceConnection.id (device_connections db)) = true
  /\ unique_pairs (device_connections db) = true
  /\ forallb (fun c => has_user db (DeviceConnection.initiator_user_id c)
                       && has_user db (DeviceConnection.paired_user_id c))
       (device_connections db) = true
  /\ unique_keys (map CodeUsage.id (code_usage db)) = true
  /\ forallb (fun r => has_pairing_code db (CodeUsage.pairing_code_id r)
                       && has_user db (CodeUsage.user_id r)
                       && has_user db (CodeUsage.code_owner_id r))
       (code_usage db) = true.
Proof.
  unfold store_ok. rewrite !andb_true_iff. tauto.
Qed.

Lemma ok_unique_user_ids db :
  store_ok db = true -> unique_keys (map User.id (users db)) = true.
Proof. intros OK. now apply store_ok_iff in OK. Qed.

Lemma ok_unique_codes db :
  store_ok db = true -> unique_keys (map PairingCode.code (pairing_codes db)) = true.
Proof. intros OK. now apply store_ok_iff in OK. Qed.

Lemma ok_owner db pc :
  store_ok db = true -> In pc (pairing_codes db) ->
  has_user db (PairingCode.user_id pc) = true.
Proof.
  intros OK HIn. apply store_ok_iff in OK.
  destruct OK as (_ & _ & _ & _ & FK & _).
  rewrite forallb_forall in FK. now apply FK.
Qed.


Lemma select_code_live (db : Store) (pc : PairingCode.t) :
  store_ok db = true -> In pc (pairing_codes db) ->
  select_code db (PairingCode.code pc) = Some pc.
Proof.
  intros OK HIn. unfold select_code.
  now rewrite (filter_key_unique PairingCode.code pc _ (ok_unique_codes db OK) HIn).
Qed.

Lemma select_user_In (db : Store) (u : User.t) :
  store_ok db = true -> In u (users db) -> select_user db (User.id u) = Some u.
Proof.
  intros OK HIn. unfold select_user.
  now rewrite (filter_key_unique User.id u _ (ok_unique_user_ids db OK) HIn).
Qed.

Lemma has_user_In (db : Store) (id : uuid) :
  has_user db id = true -> exists u, In u (users db) /\ User.id u = id.
Proof. apply existsb_key_In. Qed.

Lemma select_user_owner (db : Store) (pc : PairingCode.t) :
  store_ok db = true -> In pc (pairing_codes db) ->
  exists owner, In owner (users db)
                /\ User.id owner = PairingCode.user_id pc
                /\ select_user db (PairingCode.user_id pc) = Some owner.
Proof.
  intros OK HIn.
  pose proof (ok_owner db pc OK HIn) as Hu.
  apply has_user_In in Hu. destruct Hu as [owner [Ho Hid]].
  exists owner. repeat split; try assumption.
  rewrite <- Hid. now apply select_user_In.
Qed.

Lemma select_code_In (db : Store) (c : string) (pc : PairingCode.t) :
  select_code db c = Some pc -> In pc (pairing_codes db) /\ PairingCode.code pc = c.
Proof.
  unfold select_code. intros H. apply single_Some in H.
  assert (In pc (filter (fun p => PairingCode.code p =? c) (pairing_codes db))) as HIn
    by (rewrite H; now left).
  apply filter_In in HIn. destruct HIn as [HIn E].
  split; [assumption|]. now apply String.eqb_eq.
Qed.

Lemma truthy_Some (s : string) : s <> "" -> JS.truthy (Some s) = true.
Proof. intros H. simpl. apply negb_true_iff. now apply String.eqb_neq. Qed.

(** ** validate *)

(** The handler once the guards before the insert have passed. *)
Lemma validate_with_passed ins env db code seeker pc owner :
  JS.truthy (Some code) = true -> JS.truthy (Some seeker) = true ->
  select_code db (cleanCode code) = Some pc ->
  (now env <= PairingCode.expires_at pc)%Z ->
  select_user db (PairingCode.user_id pc) = Some owner ->
  validate_with ins env db (Some code) (Some seeker) =
    match ins env db seeker (User.id owner) with
    | (db1, Some error) =>
        if Pg.code error =? "23505"
        then (respond 200 (Profile owner), delete_pairing_code db1 (PairingCode.id pc))
        else (respond 500 (Error (Pg.message error)), db1)
    | (db1, None) =>
        (respond 200 (Profile owner), delete_pairing_code db1 (PairingCode.id pc))
    end.
Proof.
  intros Hc Hs Hsel Hexp Hown. unfold validate_with.
  rewrite Hc, Hs. cbn [negb orb str]. rewrite Hsel.
  assert ((PairingCode.expires_at pc <? now env)%Z = false) as ->
    by (apply Z.ltb_ge; assumption).
  rewrite Hown.
  destruct (ins env db seeker (User.id owner)) as [db1 [e|]]; [|reflexivity].
  destruct (Pg.code e =? "23505"); reflexivity.
Qed.

(** The insert statement touches the connections table only. *)
Lemma insert_device_connection_frame env db a b :
  users (fst (insert_device_connection env db a b)) = users db
  /\ pairing_codes (fst (insert_device_connection env db a b)) = pairing_codes db
  /\ code_usage (fst (insert_device_connection env db a b)) = code_usage db.
Proof.
  unfold insert_device_connection.
  repeat match goal with |- context [if ?c then _ else _] => destruct c end;
    simpl; auto.
Qed.

(** Between two existing users the insert either succeeds or reports a
    uniqueness violation. *)
Lemma insert_device_connection_users env db a b :
  has_user db a = true -> has_user db b = true ->
  match snd (insert_device_connection env db a b) with
  | Some e => Pg.code e = "23505"
  | None => True
  end.
Proof.
  intros Ha Hb. unfold insert_device_connection. rewrite Ha, Hb. cbn [negb].
  repeat match goal with |- context [if existsb ?f ?l then _ else _] =>
           destruct (existsb f l) end;
    simpl; auto.
Qed.

Lemma delete_pairing_code_codes db id :
  pairing_codes (delete_pairing_code db id)
  = filter (fun p => negb (PairingCode.id p =? id)) (pairing_codes db).
Proof. reflexivity. Qed.

(** After the delete no row carries the id, and on a store with unique codes
    the deleted row's code selects nothing. *)
Lemma delete_pairing_code_gone db pc :
  forall p, In p (pairing_codes (delete_pairing_code db (PairingCode.id pc))) ->
            PairingCode.id p <> PairingCode.id pc.
Proof.
  intros p H. rewrite delete_pairing_code_codes in H.
  apply filter_In in H. destruct H as [_ H].
  apply negb_true_iff in H. now apply String.eqb_neq.
Qed.

Lemma select_code_deleted db pc :
  unique_keys (map PairingCode.code (pairing_codes db)) = true ->
  In pc (pairing_codes db) ->
  select_code (delete_pairing_code db (PairingCode.id pc)) (PairingCode.code pc) = None.
Proof.
  intros U HIn. unfold select_code. rewrite delete_pairing_code_codes.
  pose proof (filter_key_unique PairingCode.code pc _ U HIn) as F.
  destruct (filter (fun p => PairingCode.code p =? PairingCode.code pc)
              (filter (fun p => negb (PairingCode.id p =? PairingCode.id pc))
                 (pairing_codes db))) as [|q l] eqn:E; [reflexivity|].
  exfalso.
  assert (In q (q :: l)) as Hq by now left.
  rewrite <- E in Hq. apply filter_In in Hq. destruct Hq as [Hq Hc].
  apply filter_In in Hq. destruct Hq as [Hq Hid].
  assert (In q [pc]) as Hq' by (rewrite <- F; apply filter_In; auto).
  destruct Hq' as [<-|[]].
  rewrite String.eqb_refl in Hid. discriminate.
Qed.

(** C4. A stored code whose expiry lies strictly before the current time is
    rejected by validate with the expired-code error, and the store is left
    exactly as it was: the code row is still there and no connection row has
    been created. *)
Theorem validate_expired_rejected env db pc code seeker :
  store_ok db = true ->
  In pc (pairing_codes db) ->
  names code pc ->
  JS.truthy (Some seeker) = true ->
  (PairingCode.expires_at pc < now env)%Z ->
  validate env db (Some code) (Some seeker)
    = (respond 400 (Error "Pairing code has expired"), db)
  /\ In pc (pairing_codes (snd (validate env db (Some code) (Some seeker))))
  /\ device_connections (snd (validate env db (Some code) (Some seeker)))
     = device_connections db.
Proof.
  intros OK HIn [Hc Hn] Hs Hexp.
  assert (validate env db (Some code) (Some seeker)
          = (respond 400 (Error "Pairing code has expired"), db)) as E.
  { unfold validate, validate_with. rewrite Hc, Hs. cbn [negb orb str].
    rewrite Hn, (select_code_live db pc OK HIn).
    now apply Z.ltb_lt in Hexp as ->. }
  rewrite E. auto.
Qed.

Lemma validate_expired_rejected_witness :
  validate (Sample.env 90000000 "c1") Sample.db (Some "ab-12cd") (Some "u2")
    = (respond 400 (Error "Pairing code has expired"), Sample.db)
  /\ In Sample.AB12CD
       (pairing_codes
          (snd (validate (Sample.env 90000000 "c1") Sample.db (Some "ab-12cd") (Some "u2"))))
  /\ device_connections
       (snd (validate (Sample.env 90000000 "c1") Sample.db (Some "ab-12cd") (Some "u2")))
     = device_connections Sample.db.
Proof.
  apply (validate_expired_rejected (Sample.env 90000000 "c1") Sample.db Sample.AB12CD
           "ab-12cd" "u2").
  - reflexivity.
  - simpl; auto.
  - split; reflexivity.
  - reflexivity.
  - simpl; lia.
Defined.

(** C3. A live, unexpired code is good for one validate only: the first call
    by a registered seeker answers with the owner's profile and removes the
    code row, and a second call with the same code is answered with the
    unknown-code error. *)
Theorem validate_one_time_use env1 env2 db pc code seeker :
  store_ok db = true ->
  In pc (pairing_codes db) ->
  (now env1 <= PairingCode.expires_at pc)%Z ->
  names code pc ->
  JS.truthy (Some seeker) = true ->
  has_user db seeker = true ->
  exists owner db1,
    In owner (users db)
    /\ User.id owner = PairingCode.user_id pc
    /\ validate env1 db (Some code) (Some seeker) = (respond 200 (Profile owner), db1)
    /\ (forall p, In p (pairing_codes db1) ->
                  PairingCode.id p <> PairingCode.id pc
                  /\ PairingCode.code p <> PairingCode.code pc)
    /\ validate env2 db1 (Some code) (Some seeker)
       = (respond 400 (Error "Invalid or expired pairing code"), db1).
Proof.
  intros OK HIn Hexp [Hc Hn] Hs Hseeker.
  destruct (select_user_owner db pc OK HIn) as [owner [Ho [Hid Hsel]]].
  pose proof (select_code_live db pc OK HIn) as Hcode.
  pose proof (ok_unique_codes db OK) as U.
  assert (has_user db (User.id owner) = true) as Howner
    by (unfold has_user; now apply In_existsb_key).
  pose proof (insert_device_connection_users env1 db seeker (User.id owner) Hseeker Howner)
    as Htol.
  destruct (insert_device_connection_frame env1 db seeker (User.id owner)) as [_ [Hpc _]].
  exists owner, (delete_pairing_code
                   (fst (insert_device_connection env1 db seeker (User.id owner)))
                   (PairingCode.id pc)).
  assert (select_code
            (delete_pairing_code
               (fst (insert_device_connection env1 db seeker (User.id owner)))
               (PairingCode.id pc))
            (PairingCode.code pc) = None) as Hgone.
  { apply select_code_deleted; rewrite Hpc; assumption. }
  split; [assumption|]. split; [assumption|]. split; [|split].
  - unfold validate.
    rewrite (validate_with_passed _ env1 db code seeker pc owner); try assumption.
    + destruct (insert_device_connection env1 db seeker (User.id owner)) as [d [e|]];
        simpl in *; [rewrite Htol|]; reflexivity.
    + now rewrite Hn.
  - intros p Hp. split.
    + exact (delete_pairing_code_gone _ pc p Hp).
    + intros E. rewrite delete_pairing_code_codes, Hpc in Hp.
      apply filter_In in Hp. destruct Hp as [Hp Hne].
      assert (In p [pc]) as Hp'.
      { rewrite <- (filter_key_unique PairingCode.code pc _ U HIn).
        apply filter_In. split; [assumption|]. now apply String.eqb_eq. }
      destruct Hp' as [<-|[]]. rewrite String.eqb_refl in Hne. discriminate.
  - unfold validate, validate_with. rewrite Hc, Hs. cbn [negb orb str].
    now rewrite Hn, Hgone.
Qed.

Lemma validate_one_time_use_witness :
  exists owner db1,
    In owner (users Sample.db)
    /\ User.id owner = PairingCode.user_id Sample.AB12CD
    /\ validate (Sample.env 2000 "c1") Sample.db (Some "ab-12cd") (Some "u2")
       = (respond 200 (Profile owner), db1)
    /\ (forall p, In p (pairing_codes db1) ->
                  PairingCode.id p <> PairingCode.id Sample.AB12CD
                  /\ PairingCode.code p <> PairingCode.code Sample.AB12CD)
    /\ validate (Sample.env 3000 "c2") db1 (Some "ab-12cd") (Some "u2")
       = (respond 400 (Error "Invalid or expired pairing code"), db1).
Proof.
  apply (validate_one_time_use (Sample.env 2000 "c1") (Sample.env 3000 "c2") Sample.db
           Sample.AB12CD "ab-12cd" "u2").
  - reflexivity.
  - simpl; auto.
  - simpl; lia.
  - split; reflexivity.
  - reflexivity.
  - reflexivity.
Defined.

(** C5. validate runs the connection insert on the store that still holds
    the code and deletes the code from the store the insert returns.  Whatever
    the insert statement does: when it reports an error other than a
    uniqueness violation (SQLSTATE 23505) the error is passed on (status 500
    with its text), the store is the one the insert left, and if that
    statement did not touch the codes the row is still there and still
    selected by the same request; when it reports a uniqueness violation, or
    no error, validate answers with the owner's profile and the code row is
    deleted. *)
Theorem validate_insert_then_delete
    (ins : Env -> Store -> uuid -> uuid -> Store * option Pg.error)
    env db pc code seeker :
  store_ok db = true ->
  In pc (pairing_codes db) ->
  (now env <= PairingCode.expires_at pc)%Z ->
  names code pc ->
  JS.truthy (Some seeker) = true ->
  exists owner,
    In owner (users db)
    /\ User.id owner = PairingCode.user_id pc
    /\ forall db1 connectionError,
         ins env db seeker (User.id owner) = (db1, connectionError) ->
         (forall e, connectionError = Some e -> Pg.code e <> "23505" ->
            validate_with ins env db (Some code) (Some seeker)
              = (respond 500 (Error (Pg.message e)), db1)
            /\ (pairing_codes db1 = pairing_codes db ->
                In pc (pairing_codes db1)
                /\ select_code db1 (cleanCode code) = Some pc))
         /\ (forall e, connectionError = Some e -> Pg.code e = "23505" ->
               validate_with ins env db (Some code) (Some seeker)
                 = (respond 200 (Profile owner),
                    delete_pairing_code db1 (PairingCode.id pc)))
         /\ (connectionError = None ->
               validate_with ins env db (Some code) (Some seeker)
                 = (respond 200 (Profile owner),
                    delete_pairing_code db1 (PairingCode.id pc)))
         /\ (forall p, In p (pairing_codes (delete_pairing_code db1 (PairingCode.id pc))) ->
                       PairingCode.id p <> PairingCode.id pc).
Proof.
  intros OK HIn Hexp [Hc Hn] Hs.
  destruct (select_user_owner db pc OK HIn) as [owner [Ho [Hid Hsel]]].
  pose proof (select_code_live db pc OK HIn) as Hcode.
  exists owner. split; [assumption|]. split; [assumption|].
  intros db1 connectionError Hins.
  assert (select_code db (cleanCode code) = Some pc) as Hcode' by now rewrite Hn.
  pose proof (validate_with_passed ins env db code seeker pc owner Hc Hs Hcode' Hexp Hsel)
    as V.
  rewrite Hins in V.
  split; [|split; [|split]].
  - intros e -> Hne. apply String.eqb_neq in Hne. rewrite Hne in V.
    split; [assumption|].
    intros Hsame. split.
    + now rewrite Hsame.
    + unfold select_code in *. now rewrite Hsame.
  - intros e -> He. apply String.eqb_eq in He. now rewrite He in V.
  - now intros ->.
  - apply delete_pairing_code_gone.
Qed.

Lemma validate_insert_then_delete_witness :
  exists owner,
    In owner (users Sample.db)
    /\ User.id owner = PairingCode.user_id Sample.AB12CD
    /\ forall db1 connectionError,
         insert_device_connection (Sample.env 2000 "c1") Sample.db "nobody" (User.id owner)
           = (db1, connectionError) ->
         (forall e, connectionError = Some e -> Pg.code e <> "23505" ->
            validate_with insert_device_connection (Sample.env 2000 "c1") Sample.db
              (Some "AB12CD") (Some "nobody")
              = (respond 500 (Error (Pg.message e)), db1)
            /\ (pairing_codes db1 = pairing_codes Sample.db ->
                In Sample.AB12CD (pairing_codes db1)
                /\ select_code db1 (cleanCode "AB12CD") = Some Sample.AB12CD))
         /\ (forall e, connectionError = Some e -> Pg.code e = "23505" ->
               validate_with insert_device_connection (Sample.env 2000 "c1") Sample.db
                 (Some "AB12CD") (Some "nobody")
                 = (respond 200 (Profile owner),
                    delete_pairing_code db1 (PairingCode.id Sample.AB12CD)))
         /\ (connectionError = None ->
               validate_with insert_device_connection (Sample.env 2000 "c1") Sample.db
                 (Some "AB12CD") (Some "nobody")
                 = (respond 200 (Profile owner),
                    delete_pairing_code db1 (PairingCode.id Sample.AB12CD)))
         /\ (forall p, In p (pairing_codes
                               (delete_pairing_code db1 (PairingCode.id Sample.AB12CD))) ->
                       PairingCode.id p <> PairingCode.id Sample.AB12CD).
Proof.
  apply (validate_insert_then_delete insert_device_connection (Sample.env 2000 "c1")
           Sample.db Sample.AB12CD "AB12CD" "nobody").
  - reflexivity.
  - simpl; auto.
  - simpl; lia.
  - split; reflexivity.
  - reflexivity.
Defined.


(** ** The usage ledger *)

Lemma usage_of_update db id at_ dev pcid uid :
  usage_of (update_usage db id at_ dev) pcid uid
  = map (fun r => if CodeUsage.id r =? id then CodeUsage.touch at_ dev r else r)
      (usage_of db pcid uid).
Proof.
  unfold usage_of, update_usage. cbn [code_usage].
  induction (code_usage db) as [|r l IH]; [reflexivity|].
  cbn [map filter].
  assert (forall x : CodeUsage.t,
             CodeUsage.pairing_code_id
               (if CodeUsage.id x =? id then CodeUsage.touch at_ dev x else x)
             = CodeUsage.pairing_code_id x
             /\ CodeUsage.user_id
                  (if CodeUsage.id x =? id then CodeUsage.touch at_ dev x else x)
                = CodeUsage.user_id x) as K
    by (intros x; destruct (CodeUsage.id x =? id); auto).
  destruct (K r) as [-> ->].
  destruct ((CodeUsage.pairing_code_id r =? pcid) && (CodeUsage.user_id r =? uid));
    cbn [map]; now rewrite IH.
Qed.

Lemma usage_of_insert env db pcid uid dev owner at_ db1 p u :
  insert_usage env db pcid uid dev owner at_ = (db1, None) ->
  usage_of db1 p u
  = usage_of db p u
    ++ (if (pcid =? p) && (uid =? u)
        then [CodeUsage.mk (gen_random_uuid env) pcid uid dev owner at_ (now env)]
        else []).
Proof.
  unfold insert_usage.
  repeat match goal with |- context [if ?c then (db, _) else _] => destruct c end;
    try discriminate.
  intros H. inversion H; subst; clear H.
  unfold usage_of. cbn [code_usage]. rewrite filter_app. f_equal.
Qed.

Lemma insert_usage_succeeds env db pcid uid dev owner at_ :
  existsb (fun r => CodeUsage.id r =? gen_random_uuid env) (code_usage db) = false ->
  has_pairing_code db pcid = true ->
  has_user db uid = true ->
  has_user db owner = true ->
  exists db1,
    insert_usage env db pcid uid dev owner at_ = (db1, None)
    /\ pairing_codes db1 = pairing_codes db
    /\ users db1 = users db.
Proof.
  intros H1 H2 H3 H4. unfold insert_usage. rewrite H1, H2, H3, H4. cbn [negb].
  eexists. repeat split.
Qed.

Lemma length_le_1 {A : Type} (l : list A) :
  (length l <= 1)%nat -> l = [] \/ exists x, l = [x].
Proof.
  destruct l as [|a [|b l]]; simpl; intros H.
  - now left.
  - right. now exists a.
  - lia.
Qed.

(** C6. On a ledger that holds at most one row for the pair, two trackUsage
    calls in a row by a registered user for a live code leave exactly one row
    for (pairing-code id, user id): the second call updates the row the first
    call left (same id, no row added) and stamps it with its own time, which
    is no earlier than the first call's. *)
Theorem trackUsage_twice_one_row env1 env2 db pc code userId deviceId1 deviceId2 :
  store_ok db = true ->
  In pc (pairing_codes db) ->
  names code pc ->
  JS.truthy (Some userId) = true ->
  has_user db userId = true ->
  (length (usage_of db (PairingCode.id pc) userId) <= 1)%nat ->
  existsb (fun r => CodeUsage.id r =? gen_random_uuid env1) (code_usage db) = false ->
  (now env1 <= now env2)%Z ->
  exists r1 db1 db2 row1 row2,
    trackUsage env1 db code (Some userId) deviceId1 = (r1, db1)
    /\ status r1 = 200
    /\ trackUsage env2 db1 code (Some userId) deviceId2
       = (respond 200 (Message "Code usage updated successfully"), db2)
    /\ usage_of db1 (PairingCode.id pc) userId = [row1]
    /\ usage_of db2 (PairingCode.id pc) userId = [row2]
    /\ CodeUsage.id row2 = CodeUsage.id row1
    /\ CodeUsage.timestamp row1 = now env1
    /\ CodeUsage.timestamp row2 = now env2
    /\ (CodeUsage.timestamp row1 <= CodeUsage.timestamp row2)%Z
    /\ length (code_usage db2) = length (code_usage db1).
Proof.
  intros OK HIn [Hc Hn] Hu Huser Hone Hfresh Hclock.
  pose proof (select_code_live db pc OK HIn) as Hsel. rewrite <- Hn in Hsel.
  (* the second call, on any store in which the pair has the single row [row1] *)
  assert (forall db1 row1,
             pairing_codes db1 = pairing_codes db ->
             usage_of db1 (PairingCode.id pc) userId = [row1] ->
             trackUsage env2 db1 code (Some userId) deviceId2
             = (respond 200 (Message "Code usage updated successfully"),
                update_usage db1 (CodeUsage.id row1) (now env2) (JS.str_or_null deviceId2))
             /\ usage_of (update_usage db1 (CodeUsage.id row1) (now env2)
                            (JS.str_or_null deviceId2)) (PairingCode.id pc) userId
                = [CodeUsage.touch (now env2) (JS.str_or_null deviceId2) row1])
    as Second.
  { intros db1 row1 Hpc Hrow. split.
    - unfold trackUsage. rewrite Hu. cbn [negb str].
      unfold select_code in *. rewrite Hpc, Hsel, Hrow. reflexivity.
    - rewrite usage_of_update, Hrow. cbn [map]. now rewrite String.eqb_refl. }
  destruct (length_le_1 _ Hone) as [Hnone | [r Hr]].
  - (* first call inserts *)
    destruct (insert_usage_succeeds env1 db (PairingCode.id pc) userId
                (JS.str_or_null deviceId1) (PairingCode.user_id pc) (now env1))
      as [db1 [Hins [Hpc _]]]; try assumption.
    { unfold has_pairing_code. now apply In_existsb_key. }
    { now apply ok_owner. }
    pose proof (usage_of_insert _ _ _ _ _ _ _ _ (PairingCode.id pc) userId Hins) as Hrow.
    rewrite Hnone, !String.eqb_refl in Hrow. cbn [andb app] in Hrow.
    destruct (Second db1 _ Hpc Hrow) as [S1 S2].
    eexists _, db1, _, _, _.
    split. { unfold trackUsage. rewrite Hu. cbn [negb str]. rewrite Hsel, Hnone.
             cbn [single]. rewrite Hins. reflexivity. }
    split; [reflexivity|]. split; [exact S1|]. split; [exact Hrow|].
    split; [exact S2|]. cbn. repeat split; try assumption.
    now rewrite length_map.
  - (* first call updates the row that is there *)
    pose proof (usage_of_update db (CodeUsage.id r) (now env1) (JS.str_or_null deviceId1)
                  (PairingCode.id pc) userId) as Hrow.
    rewrite Hr in Hrow. cbn [map] in Hrow. rewrite String.eqb_refl in Hrow.
    destruct (Second (update_usage db (CodeUsage.id r) (now env1) (JS.str_or_null deviceId1))
                _ eq_refl Hrow) as [S1 S2].
    eexists _, _, _, _, _.
    split. { unfold trackUsage. rewrite Hu. cbn [negb str]. rewrite Hsel, Hr.
             cbn [single]. reflexivity. }
    split; [reflexivity|]. split; [exact S1|]. split; [exact Hrow|].
    split; [exact S2|]. cbn. repeat split; try assumption.
    now rewrite !length_map.
Qed.

Lemma trackUsage_twice_one_row_witness :
  exists r1 db1 db2 row1 row2,
    trackUsage (Sample.env 2000 "cu1") Sample.db "AB-12cd" (Some "u2") None = (r1, db1)
    /\ status r1 = 200
    /\ trackUsage (Sample.env 3000 "cu9") db1 "AB-12cd" (Some "u2") (Some "dev-2")
       = (respond 200 (Message "Code usage updated successfully"), db2)
    /\ usage_of db1 (PairingCode.id Sample.AB12CD) "u2" = [row1]
    /\ usage_of db2 (PairingCode.id Sample.AB12CD) "u2" = [row2]
    /\ CodeUsage.id row2 = CodeUsage.id row1
    /\ CodeUsage.timestamp row1 = now (Sample.env 2000 "cu1")
    /\ CodeUsage.timestamp row2 = now (Sample.env 3000 "cu9")
    /\ (CodeUsage.timestamp row1 <= CodeUsage.timestamp row2)%Z
    /\ length (code_usage db2) = length (code_usage db1).
Proof.
  apply (trackUsage_twice_one_row (Sample.env 2000 "cu1") (Sample.env 3000 "cu9")
           Sample.db Sample.AB12CD "AB-12cd" "u2" None (Some "dev-2")).
  - reflexivity.
  - simpl; auto.
  - split; reflexivity.
  - reflexivity.
  - reflexivity.
  - simpl; lia.
  - reflexivity.
  - simpl; lia.
Defined.

Lemma insert_usage_failed env db pcid uid dev owner at_ db1 e :
  insert_usage env db pcid uid dev owner at_ = (db1, Some e) -> db1 = db.
Proof.
  unfold insert_usage.
  repeat match goal with |- context [if ?c then (db, _) else _] => destruct c end;
    intros H; inversion H; reflexivity.
Qed.

(** Run one call after another, trackUsage keeps the ledger at one row per
    pair at most. *)
Lemma trackUsage_keeps_ledger_single env db code userId deviceId :
  ledger_single db ->
  ledger_single (snd (trackUsage env db code userId deviceId)).
Proof.
  intros L. unfold trackUsage.
  destruct (JS.truthy userId); cbn [negb]; [|exact L].
  destruct (select_code db (cleanCode code)) as [pc|]; [|exact L].
  destruct (single (usage_of db (PairingCode.id pc) (str userId))) as [r|] eqn:S.
  - intros p u. cbn [snd]. rewrite usage_of_update, length_map. apply L.
  - destruct (insert_usage env db (PairingCode.id pc) (str userId) (JS.str_or_null deviceId)
                (PairingCode.user_id pc) (now env)) as [db1 [e|]] eqn:I; cbn [snd].
    + apply insert_usage_failed in I. now subst.
    + intros p u. rewrite (usage_of_insert _ _ _ _ _ _ _ _ p u I), length_app.
      destruct ((PairingCode.id pc =? p) && (str userId =? u)) eqn:E.
      * apply andb_true_iff in E. destruct E as [E1 E2].
        apply String.eqb_eq in E1, E2. subst p u.
        destruct (length_le_1 _ (L (PairingCode.id pc) (str userId))) as [->|[x Hx]].
        -- simpl; lia.
        -- rewrite Hx in S. discriminate.
      * pose proof (L p u). simpl. lia.
Qed.

Lemma ledger_single_empty : ledger_single empty_store.
Proof. intros p u. simpl. lia. Qed.

(** C7. The usage history of an existing code is shown to its owner only: a
    requester whose id differs from the owner's, registered user or not, is
    answered 403; the owner is answered with the history; and no request gets
    the history unless its userId is the owner's id. *)
Theorem usageHistory_owner_only db pc code :
  store_ok db = true ->
  In pc (pairing_codes db) ->
  names code pc ->
  (forall requesterId,
      JS.truthy (Some requesterId) = true ->
      requesterId <> PairingCode.user_id pc ->
      usageHistory db code (Some requesterId)
      = respond 403 (Error "Not authorized to view this code's usage"))
  /\ (JS.truthy (Some (PairingCode.user_id pc)) = true ->
      usageHistory db code (Some (PairingCode.user_id pc))
      = respond 200 (UsageHistory (PairingCode.code pc)
                       (length (history_of db pc)) (history_of db pc)))
  /\ (forall userId,
         status (usageHistory db code userId) = 200 ->
         userId = Some (PairingCode.user_id pc)).
Proof.
  intros OK HIn [Hc Hn].
  pose proof (select_code_live db pc OK HIn) as Hsel. rewrite <- Hn in Hsel.
  split; [|split].
  - intros requesterId Ht Hne. unfold usageHistory.
    rewrite Ht. cbn [negb str]. rewrite Hsel.
    apply not_eq_sym in Hne. apply String.eqb_neq in Hne. now rewrite Hne.
  - intros Ht. unfold usageHistory. rewrite Ht. cbn [negb str]. rewrite Hsel.
    rewrite String.eqb_refl. cbn [negb]. rewrite Hn. reflexivity.
  - intros userId. unfold usageHistory.
    destruct (JS.truthy userId) eqn:Ht; cbn [negb]; [|discriminate].
    rewrite Hsel.
    destruct (PairingCode.user_id pc =? str userId) eqn:E; cbn [negb]; [|discriminate].
    intros _. apply String.eqb_eq in E.
    destruct userId as [u|]; [|discriminate]. now rewrite E.
Qed.

Lemma usageHistory_owner_only_witness :
  (forall requesterId,
      JS.truthy (Some requesterId) = true ->
      requesterId <> PairingCode.user_id Sample.ZZ99ZZ ->
      usageHistory Sample.db "zz-99zz" (Some requesterId)
      = respond 403 (Error "Not authorized to view this code's usage"))
  /\ (JS.truthy (Some (PairingCode.user_id Sample.ZZ99ZZ)) = true ->
      usageHistory Sample.db "zz-99zz" (Some (PairingCode.user_id Sample.ZZ99ZZ))
      = respond 200 (UsageHistory (PairingCode.code Sample.ZZ99ZZ)
                       (length (history_of Sample.db Sample.ZZ99ZZ))
                       (history_of Sample.db Sample.ZZ99ZZ)))
  /\ (forall userId,
         status (usageHistory Sample.db "zz-99zz" userId) = 200 ->
         userId = Some (PairingCode.user_id Sample.ZZ99ZZ)).
Proof.
  apply (usageHistory_owner_only Sample.db Sample.ZZ99ZZ "zz-99zz").
  - reflexivity.
  - simpl; auto.
  - split; reflexivity.
Defined.

(** A request without userId is turned away by the missing-field guard, before
    the code is looked up. *)
Lemma usageHistory_missing_userId db code userId :
  JS.truthy userId = false ->
  usageHistory db code userId = respond 400 (Error "Missing required field: userId").
Proof. intros H. unfold usageHistory. now rewrite H. Qed.

(** C8. For a code the requester owns, removeUsageEntry with a usageId that
    is the id of a row of another code, or of no row, deletes nothing (the
    store is unchanged) and still answers with the success acknowledgement,
    the same response every usageId gets. *)
Theorem removeUsage_foreign_id_noop db pc code usageId requesterId :
  store_ok db = true ->
  In pc (pairing_codes db) ->
  names code pc ->
  JS.truthy (Some requesterId) = true ->
  requesterId = PairingCode.user_id pc ->
  foreign_to db usageId pc = true ->
  removeUsage db code usageId (Some requesterId)
    = (respond 200 (Message "User removed successfully"), db)
  /\ forall usageId',
       fst (removeUsage db code usageId' (Some requesterId))
       = fst (removeUsage db code usageId (Some requesterId)).
Proof.
  intros OK HIn [Hc Hn] Ht Hown Hforeign.
  pose proof (select_code_live db pc OK HIn) as Hsel. rewrite <- Hn in Hsel.
  assert (forall u, removeUsage db code u (Some requesterId)
                    = (respond 200 (Message "User removed successfully"),
                       delete_usage db u (PairingCode.id pc))) as R.
  { intros u. unfold removeUsage. rewrite Ht. cbn [negb str]. rewrite Hsel.
    rewrite Hown, String.eqb_refl. reflexivity. }
  split.
  - rewrite R. f_equal. unfold delete_usage. rewrite forallb_filter_id.
    + now destruct db.
    + unfold foreign_to in Hforeign. rewrite forallb_forall in *.
      intros r Hr. specialize (Hforeign r Hr).
      destruct (CodeUsage.id r =? usageId); [|reflexivity].
      cbn [implb] in Hforeign. cbn [andb]. assumption.
  - intros u. now rewrite !R.
Qed.

Lemma removeUsage_foreign_id_noop_witness :
  removeUsage Sample.db "AB-12CD" "cu2" (Some "u1")
    = (respond 200 (Message "User removed successfully"), Sample.db)
  /\ forall usageId',
       fst (removeUsage Sample.db "AB-12CD" usageId' (Some "u1"))
       = fst (removeUsage Sample.db "AB-12CD" "cu2" (Some "u1")).
Proof.
  apply (removeUsage_foreign_id_noop Sample.db Sample.AB12CD "AB-12CD" "cu2" "u1").
  - reflexivity.
  - simpl; auto.
  - split; reflexivity.
  - reflexivity.
  - reflexivity.
  - reflexivity.
Defined.

(** The same request with the id of a row of the code itself does delete it,
    and is answered the same. *)
Lemma removeUsage_own_row :
  removeUsage Sample.db "ZZ99ZZ" "cu2" (Some "u1")
    = (respond 200 (Message "User removed successfully"),
       mkStore (users Sample.db) (pairing_codes Sample.db) [] []).
Proof. reflexivity. Qed.

(** ** The device graph *)

Lemma embed_user_id db fk u : embed_user db fk = Some u -> User.id u = fk.
Proof.
  unfold embed_user. intros H. apply find_some in H.
  destruct H as [_ H]. now apply String.eqb_eq.
Qed.

(** Whoever a paired-devices response lists is the paired party of a row that
    touches the user asked about. *)
Lemma listed_paired_party db userId x :
  In x (listed (listPaired db userId)) ->
  exists c, In c (device_connections db)
            /\ touches userId c = true
            /\ DeviceConnection.paired_user_id c = x.
Proof.
  unfold listed, listPaired. cbn [body]. intros H.
  apply in_map_iff in H. destruct H as [d [Hd H]].
  apply in_flat_map in H. destruct H as [[pid ou] [Hrow H]].
  apply in_map_iff in Hrow. destruct Hrow as [c [Hc Hrow]].
  apply filter_In in Hrow. destruct Hrow as [HIn Ht].
  inversion Hc; subst; clear Hc. cbn [snd] in H.
  destruct (embed_user db (DeviceConnection.paired_user_id c)) as [u|] eqn:E;
    [|contradiction].
  destruct H as [<-|[]]. exists c. repeat split; try assumption.
  cbn. symmetry. now apply (embed_user_id db).
Qed.

(** C9. disconnect(A, B) removes exactly the connection rows that link A and
    B, in either direction, and keeps every other row; afterwards, for two
    different users, B is not listed among A's paired devices and A is not
    listed among B's. *)
Theorem disconnect_both_directions db A B :
  JS.truthy (Some A) = true ->
  JS.truthy (Some B) = true ->
  exists db',
    disconnect db (Some A) (Some B)
      = (respond 200 (Message "Device disconnected successfully"), db')
    /\ (forall c, In c (device_connections db') <->
                  In c (device_connections db) /\ links A B c = false)
    /\ users db' = users db
    /\ (A <> B ->
        ~ In B (listed (listPaired db' A)) /\ ~ In A (listed (listPaired db' B))).
Proof.
  intros HA HB. exists (delete_connections db A B).
  split; [|split; [|split]].
  - unfold disconnect. rewrite HA, HB. reflexivity.
  - intros c. unfold delete_connections. cbn [device_connections].
    rewrite filter_In, negb_true_iff. reflexivity.
  - reflexivity.
  - intros Hne.
    assert (forall c, In c (device_connections (delete_connections db A B)) ->
                      links A B c = false) as Gone.
    { intros c Hc. unfold delete_connections in Hc. cbn [device_connections] in Hc.
      apply filter_In in Hc. destruct Hc as [_ Hc]. now apply negb_true_iff. }
    split; intros H; apply listed_paired_party in H;
      destruct H as [c [Hc [Ht Hp]]]; specialize (Gone c Hc);
      unfold touches in Ht; unfold links in Gone; rewrite Hp in *;
      apply orb_true_iff in Ht; destruct Ht as [Ht|Ht];
      apply String.eqb_eq in Ht.
    + rewrite Ht, !String.eqb_refl in Gone. discriminate.
    + congruence.
    + rewrite Ht, !String.eqb_refl in Gone. cbn in Gone.
      rewrite orb_true_r in Gone. discriminate.
    + congruence.
Qed.

Lemma disconnect_both_directions_witness :
  exists db',
    disconnect
      (mkStore (users Sample.db) (pairing_codes Sample.db)
         [DeviceConnection.mk "c1" "u2" "u1" 2000%Z;
          DeviceConnection.mk "c2" "u1" "u2" 2500%Z;
          DeviceConnection.mk "c3" "u3" "u1" 2600%Z] [])
      (Some "u1") (Some "u2")
      = (respond 200 (Message "Device disconnected successfully"), db')
    /\ (forall c, In c (device_connections db') <->
                  In c [DeviceConnection.mk "c1" "u2" "u1" 2000%Z;
                        DeviceConnection.mk "c2" "u1" "u2" 2500%Z;
                        DeviceConnection.mk "c3" "u3" "u1" 2600%Z]
                  /\ links "u1" "u2" c = false)
    /\ users db' = users Sample.db
    /\ ("u1" <> "u2" ->
        ~ In "u2" (listed (listPaired db' "u1")) /\ ~ In "u1" (listed (listPaired db' "u2"))).
Proof.
  apply (disconnect_both_directions
           (mkStore (users Sample.db) (pairing_codes Sample.db)
              [DeviceConnection.mk "c1" "u2" "u1" 2000%Z;
               DeviceConnection.mk "c2" "u1" "u2" 2500%Z;
               DeviceConnection.mk "c3" "u3" "u1" 2600%Z] [])
           "u1" "u2").
  - reflexivity.
  - reflexivity.
Defined.

(** Disconnecting a user from itself: the own entry that the rows of other
    initiators put in the user's list stays. *)
Example disconnect_self_still_listed :
  let db := mkStore (users Sample.db) [] [DeviceConnection.mk "c3" "u3" "u1" 2600%Z] [] in
  snd (disconnect db (Some "u1") (Some "u1")) = db
  /\ listed (listPaired db "u1") = ["u1"].
Proof. split; reflexivity. Qed.

(** ** Locations *)

Lemma truthy_num_zero x : is_zero x = true -> JS.truthy_num x = false.
Proof.
  destruct x as [f|]; simpl; [|discriminate]. now intros ->.
Qed.

Lemma updateLocation_zero env db code latitude longitude accuracy :
  (is_zero latitude || is_zero longitude) = true ->
  updateLocation env db code latitude longitude accuracy
  = (respond 400 (Error "Missing required fields: latitude, longitude"), db).
Proof.
  intros H. unfold updateLocation. apply orb_true_iff in H.
  destruct H as [H|H]; apply truthy_num_zero in H; rewrite H; cbn [negb orb].
  - reflexivity.
  - now rewrite orb_true_r.
Qed.

Lemma getLocation_unavailable db pc code :
  store_ok db = true ->
  In pc (pairing_codes db) ->
  names code pc ->
  JS.truthy_num (PairingCode.latitude pc) = false
  \/ JS.truthy_num (PairingCode.longitude pc) = false ->
  getLocation db code = respond 400 (Error "Location data not available for this code").
Proof.
  intros OK HIn [Hc Hn] H. unfold getLocation.
  rewrite Hn, (select_code_live db pc OK HIn).
  destruct H as [-> | ->]; cbn [negb orb]; [reflexivity|].
  now rewrite orb_true_r.
Qed.

(** C10. A coordinate equal to zero counts as missing.  An updateLocation
    request whose latitude or longitude is 0 is rejected with the
    missing-coordinates error and changes nothing; and for a stored code
    whose latitude or longitude is 0, getLocation answers that no location
    data is available, the very response it gives for a code that never had
    a location. *)
Theorem zero_coordinate_is_absent env db_u code_u latitude longitude accuracy db pc code :
  (is_zero latitude || is_zero longitude) = true ->
  store_ok db = true ->
  In pc (pairing_codes db) ->
  names code pc ->
  (is_zero (PairingCode.latitude pc) || is_zero (PairingCode.longitude pc)) = true ->
  updateLocation env db_u code_u latitude longitude accuracy
    = (respond 400 (Error "Missing required fields: latitude, longitude"), db_u)
  /\ getLocation db code
     = respond 400 (Error "Location data not available for this code")
  /\ forall db' pc' code',
       store_ok db' = true ->
       In pc' (pairing_codes db') ->
       names code' pc' ->
       PairingCode.latitude pc' = None \/ PairingCode.longitude pc' = None ->
       getLocation db' code' = getLocation db code.
Proof.
  intros Hreq OK HIn Hnames Hz.
  assert (getLocation db code
          = respond 400 (Error "Location data not available for this code")) as G.
  { apply (getLocation_unavailable db pc); try assumption.
    apply orb_true_iff in Hz. destruct Hz as [Hz|Hz]; apply truthy_num_zero in Hz; auto. }
  split; [now apply updateLocation_zero|]. split; [exact G|].
  intros db' pc' code' OK' HIn' Hnames' Hnone. rewrite G.
  apply (getLocation_unavailable db' pc'); try assumption.
  destruct Hnone as [-> | ->]; auto.
Qed.

Lemma zero_coordinate_is_absent_witness :
  updateLocation (Sample.env 2000 "x") Sample.db "AB12CD"
      (Some 51.5%float) (Some 0%float) (Some 3%float)
    = (respond 400 (Error "Missing required fields: latitude, longitude"), Sample.db)
  /\ getLocation Sample.db "eq0000"
     = respond 400 (Error "Location data not available for this code")
  /\ forall db' pc' code',
       store_ok db' = true ->
       In pc' (pairing_codes db') ->
       names code' pc' ->
       PairingCode.latitude pc' = None \/ PairingCode.longitude pc' = None ->
       getLocation db' code' = getLocation Sample.db "eq0000".
Proof.
  apply (zero_coordinate_is_absent (Sample.env 2000 "x") Sample.db "AB12CD"
           (Some 51.5%float) (Some 0%float) (Some 3%float)
           Sample.db Sample.EQ0000 "eq0000").
  - reflexivity.
  - reflexivity.
  - simpl; auto.
  - split; reflexivity.
  - reflexivity.
Defined.

(** ** Who is listed after a pairing *)

Lemma listed_intro db userId c u :
  In c (device_connections db) ->
  touches userId c = true ->
  embed_user db (DeviceConnection.paired_user_id c) = Some u ->
  In (User.id u) (listed (listPaired db userId)).
Proof.
  intros Hc Ht Hu. unfold listed, listPaired. cbn [body].
  apply in_map_iff. exists (PairedDevice.of_user u). split; [reflexivity|].
  apply in_flat_map.
  exists (DeviceConnection.paired_user_id c,
          embed_user db (DeviceConnection.paired_user_id c)).
  split.
  - apply in_map_iff. exists c. split; [reflexivity|]. apply filter_In. auto.
  - cbn [snd]. rewrite Hu. now left.
Qed.

Lemma embed_user_has db id :
  has_user db id = true -> exists u, embed_user db id = Some u /\ User.id u = id.
Proof.
  unfold has_user, embed_user. intros H.
  destruct (find (fun u => User.id u =? id) (users db)) as [u|] eqn:F.
  - exists u. split; [reflexivity|]. apply find_some in F.
    destruct F as [_ F]. now apply String.eqb_eq.
  - exfalso. apply existsb_exists in H. destruct H as [u [Hu E]].
    pose proof (find_none _ _ F u Hu) as N. cbn in N. congruence.
Qed.

(** After the insert, whatever its outcome short of a clash on the drawn id,
    a row from the initiator to the paired user is in the table. *)
Lemma insert_device_connection_row env db a b :
  has_user db a = true -> has_user db b = true ->
  existsb (fun c => DeviceConnection.id c =? gen_random_uuid env) (device_connections db)
    = false ->
  exists c, In c (device_connections (fst (insert_device_connection env db a b)))
            /\ DeviceConnection.initiator_user_id c = a
            /\ DeviceConnection.paired_user_id c = b.
Proof.
  intros Ha Hb Hid. unfold insert_device_connection. rewrite Hid, Ha, Hb.
  cbn [negb]. cbv iota.
  match goal with
  | |- context [if existsb ?f ?l then _ else _] => destruct (existsb f l) eqn:E
  end; cbn [fst].
  - apply existsb_exists in E. destruct E as [c [Hc E]].
    apply andb_true_iff in E. destruct E as [E1 E2].
    apply String.eqb_eq in E1, E2. now exists c.
  - eexists. split; [cbn [device_connections]; apply in_or_app; right; now left|].
    split; reflexivity.
Qed.

(** X2. The direction of the pairing that the listing does show: after a
    successful validate the initiator's list contains the owner of the code. *)
Lemma listPaired_initiator_sees_owner env db pc code seeker :
  store_ok db = true ->
  In pc (pairing_codes db) ->
  (now env <= PairingCode.expires_at pc)%Z ->
  names code pc ->
  JS.truthy (Some seeker) = true ->
  has_user db seeker = true ->
  existsb (fun c => DeviceConnection.id c =? gen_random_uuid env) (device_connections db)
    = false ->
  In (PairingCode.user_id pc)
     (listed (listPaired (snd (validate env db (Some code) (Some seeker))) seeker)).
Proof.
  intros OK HIn Hexp [Hc Hn] Hs Hseeker Hid.
  destruct (select_user_owner db pc OK HIn) as [owner [Ho [Hido Hsel]]].
  pose proof (select_code_live db pc OK HIn) as Hcode. rewrite <- Hn in Hcode.
  assert (has_user db (User.id owner) = true) as Howner
    by (unfold has_user; now apply In_existsb_key).
  pose proof (insert_device_connection_users env db seeker (User.id owner) Hseeker Howner)
    as Htol.
  destruct (insert_device_connection_row env db seeker (User.id owner) Hseeker Howner Hid)
    as [c [Hrow [Hci Hcp]]].
  destruct (insert_device_connection_frame env db seeker (User.id owner)) as [Husers _].
  unfold validate.
  rewrite (validate_with_passed _ env db code seeker pc owner Hc Hs Hcode Hexp Hsel).
  assert (snd (match insert_device_connection env db seeker (User.id owner) with
               | (db1, Some error) =>
                   if Pg.code error =? "23505"
                   then (respond 200 (Profile owner),
                         delete_pairing_code db1 (PairingCode.id pc))
                   else (respond 500 (Error (Pg.message error)), db1)
               | (db1, None) =>
                   (respond 200 (Profile owner), delete_pairing_code db1 (PairingCode.id pc))
               end)
          = delete_pairing_code (fst (insert_device_connection env db seeker (User.id owner)))
              (PairingCode.id pc)) as ->.
  { destruct (insert_device_connection env db seeker (User.id owner)) as [d [e|]];
      cbn [fst snd] in *; [rewrite Htol|]; reflexivity. }
  destruct (embed_user_has db (User.id owner) Howner) as [u [Hu Huid]].
  replace (PairingCode.user_id pc) with (User.id u) by congruence.
  apply (listed_intro _ seeker c).
  - exact Hrow.
  - unfold touches. now rewrite Hci, String.eqb_refl.
  - rewrite Hcp. unfold embed_user in *. cbn [users delete_pairing_code].
    now rewrite Husers.
Qed.

(** C1. The listing is not symmetric.  U2 validates the code AB12CD of U1:
    the call succeeds and U2's paired devices list U1, but U1's paired
    devices list U1 itself (the row's paired_user_id) and not U2. *)
Theorem listPaired_owner_does_not_see_initiator :
  exists db1,
    validate (Sample.env 2000 "c1") Sample.db (Some "AB12CD") (Some "u2")
      = (respond 200 (Profile Sample.U1), db1)
    /\ device_connections db1 = [DeviceConnection.mk "c1" "u2" "u1" 2000%Z]
    /\ listPaired db1 "u2" = respond 200 (PairedDevices [PairedDevice.of_user Sample.U1])
    /\ listPaired db1 "u1" = respond 200 (PairedDevices [PairedDevice.of_user Sample.U1])
    /\ ~ In "u2" (listed (listPaired db1 "u1")).
Proof.
  eexists. split; [reflexivity|]. split; [reflexivity|].
  split; [reflexivity|]. split; [reflexivity|].
  cbn. intros [H|[]]. discriminate.
Qed.

(** The same on any store: whoever B's list shows is the paired party of a
    row, so unless a row from B to A was there before, A is not in B's list
    after A has validated B's code. *)
Lemma listPaired_owner_blind env db pc code seeker :
  store_ok db = true ->
  In pc (pairing_codes db) ->
  names code pc ->
  JS.truthy (Some seeker) = true ->
  seeker <> PairingCode.user_id pc ->
  (forall c, In c (device_connections db) ->
             DeviceConnection.paired_user_id c = seeker ->
             DeviceConnection.initiator_user_id c <> PairingCode.user_id pc) ->
  ~ In seeker
      (listed (listPaired (snd (validate env db (Some code) (Some seeker)))
                 (PairingCode.user_id pc))).
Proof.
  intros OK HIn [Hc Hn] Hs Hne Hnorow H.
  apply listed_paired_party in H. destruct H as [c [Hrow [Ht Hp]]].
  assert (In c (device_connections db)
          \/ (DeviceConnection.initiator_user_id c = seeker
              /\ DeviceConnection.paired_user_id c = PairingCode.user_id pc)) as Hc'.
  { revert Hrow. unfold validate, validate_with. rewrite Hc, Hs. cbn [negb orb str].
    destruct (select_code db (cleanCode code)) as [pc'|] eqn:Hsel; [|now left].
    rewrite Hn, (select_code_live db pc OK HIn) in Hsel. inversion Hsel; subst pc'.
    destruct (PairingCode.expires_at pc <? now env)%Z; [now left|].
    destruct (select_user db (PairingCode.user_id pc)) as [owner|] eqn:Hown; [|now left].
    assert (User.id owner = PairingCode.user_id pc) as Hid.
    { unfold select_user in Hown. apply single_Some in Hown.
      assert (In owner (filter (fun u => User.id u =? PairingCode.user_id pc) (users db)))
        as Hf by (rewrite Hown; now left).
      apply filter_In in Hf. destruct Hf as [_ Hf]. now apply String.eqb_eq. }
    unfold insert_device_connection.
    repeat match goal with |- context [if ?b then (db, _) else _] => destruct b end;
      cbn; try (now left).
    intros Hin. apply in_app_or in Hin. destruct Hin as [Hin|[<-|[]]]; [now left|].
    right. cbn. auto. }
  destruct Hc' as [Hold | [Hi Hpc]].
  - unfold touches in Ht. apply orb_true_iff in Ht.
    destruct Ht as [Ht|Ht]; apply String.eqb_eq in Ht.
    + exact (Hnorow c Hold Hp Ht).
    + congruence.
  - congruence.
Qed.

(** ** generate *)

Lemma upper_char_alnum c : radix36_digit c = true -> upper_alnum (JS.upper_char c) = true.
Proof.
  destruct c as [[] [] [] [] [] [] [] []]; vm_compute; congruence.
Qed.

Lemma toUpperCase_alnum s :
  all_chars radix36_digit s = true -> all_chars upper_alnum (JS.toUpperCase s) = true.
Proof.
  induction s as [|c s IH]; simpl; intros H; [reflexivity|].
  apply andb_true_iff in H. destruct H as [Hc Hs].
  now rewrite upper_char_alnum, IH.
Qed.

Lemma toUpperCase_length s : String.length (JS.toUpperCase s) = String.length s.
Proof. induction s; simpl; congruence. Qed.

Lemma prefix_all_chars f n s :
  all_chars f s = true -> all_chars f (String.substring 0 n s) = true.
Proof.
  revert s. induction n as [|n IH]; intros [|c s]; simpl; intros H; try reflexivity.
  apply andb_true_iff in H. destruct H as [-> H]. now apply IH.
Qed.

Lemma prefix_length n s :
  String.length (String.substring 0 n s) = Nat.min n (String.length s).
Proof.
  revert s. induction n as [|n IH]; intros [|c s]; simpl; try reflexivity.
  now rewrite IH.
Qed.

(** The six characters taken from the draw: what follows [0.], cut at six. *)
Lemma substring_2_8 s :
  radix36_fraction s = true ->
  exists ds, all_chars radix36_digit ds = true
             /\ JS.substring s 2 8 = String.substring 0 6 ds
             /\ (s = "0" /\ ds = "" \/ s = String "0" (String "." ds)).
Proof.
  unfold radix36_fraction, JS.substring.
  destruct s as [|a [|b ds]]; try discriminate.
  - destruct (Ascii.eqb a "0") eqn:E.
    + apply Ascii.eqb_eq in E. subst a. intros _. exists "". auto.
    + destruct a as [[] [] [] [] [] [] [] []]; discriminate.
  - destruct a as [[] [] [] [] [] [] [] []]; try discriminate.
    destruct b as [[] [] [] [] [] [] [] []]; try discriminate.
    intros H. apply andb_true_iff in H. destruct H as [_ H].
    exists ds. auto.
Qed.

(** X3. What the code generate returns is made of: at most six characters, each
    of [A-Z0-9]; six exactly when the draw has six digits or more after the
    point. *)
Lemma generate_code_alphabet env db userId latitude longitude accuracy deviceName c db1 :
  radix36_fraction (random36 env) = true ->
  generate env db userId latitude longitude accuracy deviceName
    = (respond 200 (Code c), db1) ->
  all_chars upper_alnum c = true
  /\ (String.length c <= 6)%nat
  /\ (matches_code_format c = true <-> (8 <= String.length (random36 env))%nat).
Proof.
  intros Hr. unfold generate.
  destruct (JS.truthy userId); cbn [negb]; [|discriminate].
  destruct (insert_pairing_code _ _ _ _ _ _ _) as [d [e|]]; [discriminate|].
  intros H. inversion H; subst; clear H.
  destruct (substring_2_8 _ Hr) as [ds [Hds [-> Hs]]].
  assert (all_chars upper_alnum (JS.toUpperCase (String.substring 0 6 ds)) = true) as Ha
    by (apply toUpperCase_alnum, prefix_all_chars; assumption).
  split; [exact Ha|].
  unfold matches_code_format. rewrite Ha, andb_true_r.
  rewrite toUpperCase_length, prefix_length, Nat.eqb_eq.
  destruct Hs as [[-> ->] | ->]; cbn [String.length]; lia.
Qed.

(** X4. A successful generate leaves a row owned by the caller that carries the
    returned code and expires 24 hours after its creation. *)
Lemma generate_record env db userId latitude longitude accuracy deviceName c db1 :
  generate env db userId latitude longitude accuracy deviceName
    = (respond 200 (Code c), db1) ->
  exists row,
    In row (pairing_codes db1)
    /\ PairingCode.user_id row = str userId
    /\ PairingCode.code row = c
    /\ PairingCode.expires_at row = (PairingCode.created_at row + day_ms)%Z
    /\ userId = Some (str userId).
Proof.
  unfold generate.
  destruct (JS.truthy userId) eqn:Ht; cbn [negb]; [|discriminate].
  unfold insert_pairing_code.
  repeat match goal with
         | |- context [if ?b then (?d, Some ?e) else _] => destruct b
         end; try discriminate.
  intros H. inversion H; subst; clear H.
  eexists. split; [cbn [pairing_codes]; apply in_or_app; right; now left|].
  cbn. repeat split. destruct userId; [reflexivity|discriminate].
Qed.

(** C2. generate can return a code shorter than six characters.  A draw of
    one half is written [0.i] in radix 36, so the call succeeds with the
    one-character code [I], which does not match [^[A-Z0-9]{6}$]; the row is
    stored with that code and an expiry 24 hours after its creation. *)
Theorem generate_short_code :
  radix36_fraction "0.i" = true
  /\ exists db1,
       generate (mkEnv 2000%Z "pc9" "0.i") Sample.db (Some "u2") None None None None
         = (respond 200 (Code "I"), db1)
       /\ matches_code_format "I" = false
       /\ pairing_codes db1
          = pairing_codes Sample.db
            ++ [PairingCode.mk "pc9" "u2" "I" None None None 2000%Z (2000 + day_ms)%Z None].
Proof.
  split; [reflexivity|]. eexists. repeat split.
Qed.

(** ** The statements keep the constraints of the schema *)

Section UniqueKeys.

Context {A : Type} (key : A -> string).

Lemma existsb_map_key (k : string) (l : list A) :
  existsb (String.eqb k) (map key l) = existsb (fun y => key y =? k) l.
Proof.
  induction l as [|a l IH]; simpl; [reflexivity|].
  now rewrite IH, String.eqb_sym.
Qed.

Lemma existsb_filter_false (p f : A -> bool) (l : list A) :
  existsb p l = false -> existsb p (filter f l) = false.
Proof.
  induction l as [|a l IH]; simpl; intros H; [reflexivity|].
  apply orb_false_iff in H. destruct H as [Ha Hl].
  destruct (f a); simpl; [rewrite Ha|]; auto.
Qed.

Lemma unique_keys_filter (f : A -> bool) (l : list A) :
  unique_keys (map key l) = true -> unique_keys (map key (filter f l)) = true.
Proof.
  induction l as [|a l IH]; simpl; intros H; [reflexivity|].
  apply andb_true_iff in H. destruct H as [Ha Hl].
  destruct (f a); simpl; [|auto].
  rewrite IH by assumption. rewrite andb_true_r.
  apply negb_true_iff in Ha. apply negb_true_iff.
  rewrite existsb_map_key in *. now apply existsb_filter_false.
Qed.

Lemma unique_keys_snoc (x : A) (l : list A) :
  unique_keys (map key l) = true ->
  existsb (fun y => key y =? key x) l = false ->
  unique_keys (map key (l ++ [x])) = true.
Proof.
  induction l as [|a l IH]; simpl; intros U F; [reflexivity|].
  apply andb_true_iff in U. destruct U as [Ua Ul].
  apply orb_false_iff in F. destruct F as [Fa Fl].
  rewrite IH by assumption. rewrite andb_true_r.
  apply negb_true_iff in Ua. apply negb_true_iff.
  rewrite map_app, existsb_app, Ua. simpl. now rewrite Fa.
Qed.

Lemma map_key_map (g : A -> A) (l : list A) :
  (forall x, key (g x) = key x) -> map key (map g l) = map key l.
Proof.
  intros H. rewrite map_map. apply map_ext. exact H.
Qed.

End UniqueKeys.

Lemma unique_pairs_filter (f : DeviceConnection.t -> bool) (l : list DeviceConnection.t) :
  unique_pairs l = true -> unique_pairs (filter f l) = true.
Proof.
  induction l as [|a l IH]; simpl; intros H; [reflexivity|].
  apply andb_true_iff in H. destruct H as [Ha Hl].
  destruct (f a); simpl; [|auto].
  rewrite IH by assumption. rewrite andb_true_r.
  apply negb_true_iff in Ha. apply negb_true_iff.
  now apply existsb_filter_false.
Qed.

Lemma unique_pairs_snoc (x : DeviceConnection.t) (l : list DeviceConnection.t) :
  unique_pairs l = true ->
  existsb (fun c => (DeviceConnection.initiator_user_id c
                       =? DeviceConnection.initiator_user_id x)
                    && (DeviceConnection.paired_user_id c
                          =? DeviceConnection.paired_user_id x)) l = false ->
  unique_pairs (l ++ [x]) = true.
Proof.
  induction l as [|a l IH]; simpl; intros U F; [reflexivity|].
  apply andb_true_iff in U. destruct U as [Ua Ul].
  apply orb_false_iff in F. destruct F as [Fa Fl].
  rewrite IH by assumption. rewrite andb_true_r.
  apply negb_true_iff in Ua. apply negb_true_iff.
  rewrite existsb_app, Ua. simpl.
  rewrite (String.eqb_sym (DeviceConnection.initiator_user_id x)),
    (String.eqb_sym (DeviceConnection.paired_user_id x)), Fa. reflexivity.
Qed.

Lemma forallb_filter_keeps {A : Type} (p f : A -> bool) (l : list A) :
  forallb p l = true -> forallb p (filter f l) = true.
Proof.
  rewrite !forallb_forall. intros H x Hx. apply filter_In in Hx. now apply H.
Qed.

Lemma forallb_pointwise {A : Type} (p q : A -> bool) (l : list A) :
  (forall x, p x = q x) -> forallb p l = forallb q l.
Proof.
  intros H. induction l as [|a l IH]; simpl; [reflexivity|]. now rewrite H, IH.
Qed.

Lemma forallb_snoc {A : Type} (p : A -> bool) (l : list A) (x : A) :
  forallb p l = true -> p x = true -> forallb p (l ++ [x]) = true.
Proof.
  intros Hl Hx. rewrite forallb_app, Hl. simpl. now rewrite Hx.
Qed.

Ltac ok_start H :=
  apply store_ok_iff in H;
  destruct H as (U1 & U2 & P1 & P2 & P3 & C1 & C2 & C3 & G1 & G2);
  apply store_ok_iff;
  unfold has_user, has_pairing_code in *;
  cbn [users pairing_codes device_connections code_usage].

Lemma existsb_map_same {A : Type} (p : A -> bool) (g : A -> A) (l : list A) :
  (forall x, p (g x) = p x) -> existsb p (map g l) = existsb p l.
Proof.
  intros H. induction l as [|a l IH]; simpl; [reflexivity|]. now rewrite H, IH.
Qed.

Lemma update_device_name_ok db id name :
  store_ok db = true -> store_ok (update_device_name db id name) = true.
Proof.
  intros OK. unfold update_device_name.
  assert (forall x,
             existsb (fun u => User.id u =? x)
               (map (fun u => if User.id u =? id then User.set_device_name name u else u)
                  (users db))
             = existsb (fun u => User.id u =? x) (users db)) as E.
  { intros x. apply existsb_map_same. intros u. now destruct (User.id u =? id). }
  ok_start OK.
  rewrite !map_key_map by (intros u; now destruct (User.id u =? id)).
  repeat split; try assumption.
  - rewrite <- P3. apply forallb_pointwise. intros p. apply E.
  - rewrite <- C3. apply forallb_pointwise. intros c. now rewrite !E.
  - rewrite <- G2. apply forallb_pointwise. intros r. now rewrite !E.
Qed.

Lemma insert_pairing_code_ok env db user_id code lat lon acc db1 e :
  insert_pairing_code env db user_id code lat lon acc = (db1, e) ->
  store_ok db = true -> store_ok db1 = true.
Proof.
  unfold insert_pairing_code, has_pairing_code.
  destruct (existsb _ (pairing_codes db)) eqn:Eid;
    [intros H; inversion H; now subst|].
  destruct (existsb (fun p => PairingCode.code p =? code) (pairing_codes db)) eqn:Ecode;
    [intros H; inversion H; now subst|].
  destruct (has_user db user_id) eqn:Eu; cbn [negb];
    [|intros H; inversion H; now subst].
  intros H OK. inversion H; subst; clear H.
  ok_start OK. repeat split; try assumption.
  - now apply unique_keys_snoc.
  - now apply unique_keys_snoc.
  - now apply forallb_snoc.
  - rewrite forallb_forall in *. intros r Hr. specialize (G2 r Hr).
    apply andb_true_iff in G2. destruct G2 as [G2 G3].
    apply andb_true_iff in G2. destruct G2 as [G2 G4].
    rewrite G3, G4, existsb_app, G2. reflexivity.
Qed.

Lemma update_location_ok db id lat lon acc at_ :
  store_ok db = true -> store_ok (update_location db id lat lon acc at_) = true.
Proof.
  intros OK. unfold update_location. ok_start OK.
  rewrite !map_key_map by (intros p; now destruct (PairingCode.id p =? id)).
  repeat split; try assumption.
  - rewrite forallb_forall in *. intros p Hp. apply in_map_iff in Hp.
    destruct Hp as [q [<- Hq]]. specialize (P3 q Hq).
    now destruct (PairingCode.id q =? id).
  - rewrite <- G2. apply forallb_pointwise. intros r. f_equal. f_equal.
    apply existsb_map_same. intros p. now destruct (PairingCode.id p =? id).
Qed.

Lemma delete_pairing_code_ok db id :
  store_ok db = true -> store_ok (delete_pairing_code db id) = true.
Proof.
  intros OK. unfold delete_pairing_code.
  assert (forall r, In r (code_usage db) ->
                    has_pairing_code db id = false ->
                    (CodeUsage.pairing_code_id r =? id) = false) as Hdangling.
  { intros r Hr Hno. apply not_true_is_false. intros E. apply String.eqb_eq in E.
    apply store_ok_iff in OK. destruct OK as (_ & _ & _ & _ & _ & _ & _ & _ & _ & G2).
    rewrite forallb_forall in G2. specialize (G2 r Hr).
    rewrite !andb_true_iff in G2. destruct G2 as [[G2 _] _]. congruence. }
  unfold has_pairing_code in Hdangling.
  ok_start OK. repeat split; try assumption.
  - now apply unique_keys_filter.
  - now apply unique_keys_filter.
  - now apply forallb_filter_keeps.
  - destruct (existsb _ (pairing_codes db)); [now apply unique_keys_filter|assumption].
  - assert (forall r, In r (code_usage db) ->
                      (CodeUsage.pairing_code_id r =? id) = false ->
                      existsb (fun p => PairingCode.id p =? CodeUsage.pairing_code_id r)
                        (filter (fun p => negb (PairingCode.id p =? id)) (pairing_codes db))
                      && existsb (fun u => User.id u =? CodeUsage.user_id r) (users db)
                      && existsb (fun u => User.id u =? CodeUsage.code_owner_id r) (users db)
                      = true) as Keep.
    { intros r Hr Hne. rewrite forallb_forall in G2. specialize (G2 r Hr).
      rewrite !andb_true_iff in G2. destruct G2 as [[G2 G3] G4].
      rewrite G3, G4, !andb_true_r.
      apply existsb_exists in G2. destruct G2 as [p [Hp E]].
      apply existsb_exists. exists p. split; [|assumption].
      apply filter_In. split; [assumption|].
      apply String.eqb_eq in E. rewrite E. now rewrite Hne. }
    rewrite forallb_forall.
    destruct (existsb (fun p => PairingCode.id p =? id) (pairing_codes db)) eqn:Has.
    + intros r Hr. apply filter_In in Hr. destruct Hr as [Hr Hne].
      apply negb_true_iff in Hne. now apply Keep.
    + intros r Hr. apply Keep; [assumption|]. now apply Hdangling.
Qed.

Lemma insert_device_connection_ok env db a b db1 e :
  insert_device_connection env db a b = (db1, e) ->
  store_ok db = true -> store_ok db1 = true.
Proof.
  unfold insert_device_connection.
  destruct (existsb (fun c => DeviceConnection.id c =? gen_random_uuid env)
              (device_connections db)) eqn:Eid;
    [intros H; inversion H; now subst|].
  cbv iota.
  match goal with
  | |- context [if existsb ?f ?l then _ else _] => destruct (existsb f l) eqn:Epair
  end; [intros H; inversion H; now subst|].
  destruct (has_user db a) eqn:Ea; cbn [negb]; [|intros H; inversion H; now subst].
  destruct (has_user db b) eqn:Eb; cbn [negb]; [|intros H; inversion H; now subst].
  intros H OK. inversion H; subst; clear H.
  ok_start OK. repeat split; try assumption.
  - now apply unique_keys_snoc.
  - now apply unique_pairs_snoc.
  - apply forallb_snoc; [assumption|]. cbn. now rewrite Ea, Eb.
Qed.

Lemma delete_connections_ok db u p :
  store_ok db = true -> store_ok (delete_connections db u p) = true.
Proof.
  intros OK. unfold delete_connections. ok_start OK. repeat split; try assumption.
  - now apply unique_keys_filter.
  - now apply unique_pairs_filter.
  - now apply forallb_filter_keeps.
Qed.

Lemma update_usage_ok db id at_ dev :
  store_ok db = true -> store_ok (update_usage db id at_ dev) = true.
Proof.
  intros OK. unfold update_usage. ok_start OK.
  rewrite !map_key_map by (intros r; now destruct (CodeUsage.id r =? id)).
  repeat split; try assumption.
  rewrite forallb_forall in *. intros r Hr. apply in_map_iff in Hr.
  destruct Hr as [q [<- Hq]]. specialize (G2 q Hq).
  now destruct (CodeUsage.id q =? id).
Qed.

Lemma insert_usage_ok env db pcid uid dev owner at_ db1 e :
  insert_usage env db pcid uid dev owner at_ = (db1, e) ->
  store_ok db = true -> store_ok db1 = true.
Proof.
  unfold insert_usage.
  destruct (existsb _ (code_usage db)) eqn:Eid; [intros H; inversion H; now subst|].
  destruct (has_pairing_code db pcid) eqn:Ep; cbn [negb];
    [|intros H; inversion H; now subst].
  destruct (has_user db uid) eqn:Eu; cbn [negb]; [|intros H; inversion H; now subst].
  destruct (has_user db owner) eqn:Eo; cbn [negb]; [|intros H; inversion H; now subst].
  intros H OK. inversion H; subst; clear H.
  ok_start OK. repeat split; try assumption.
  - now apply unique_keys_snoc.
  - apply forallb_snoc; [assumption|]. cbn. now rewrite Ep, Eu, Eo.
Qed.

Lemma delete_usage_ok db usageId pcid :
  store_ok db = true -> store_ok (delete_usage db usageId pcid) = true.
Proof.
  intros OK. unfold delete_usage. ok_start OK. repeat split; try assumption.
  - now apply unique_keys_filter.
  - now apply forallb_filter_keeps.
Qed.

(** Every request leaves the store within the constraints of the schema. *)
Lemma handle_keeps_store_ok env db req :
  store_ok db = true -> store_ok (snd (handle env db req)) = true.
Proof.
  intros OK. destruct req; cbn [handle snd]; try assumption.
  - (* generate *)
    unfold generate. destruct (JS.truthy userId); cbn [negb snd]; [|assumption].
    destruct (insert_pairing_code _ _ _ _ _ _ _) as [db2 e] eqn:I.
    apply insert_pairing_code_ok in I.
    + now destruct e.
    + destruct (JS.truthy deviceName); [now apply update_device_name_ok|assumption].
  - (* validate *)
    unfold validate, validate_with.
    destruct (negb (JS.truthy code) || negb (JS.truthy initiatorUserId)); [assumption|].
    destruct (select_code db (cleanCode (str code))) as [pc|]; [|assumption].
    destruct (PairingCode.expires_at pc <? now env)%Z; [assumption|].
    destruct (select_user db (PairingCode.user_id pc)) as [owner|]; [|assumption].
    destruct (insert_device_connection env db (str initiatorUserId) (User.id owner))
      as [db1 e] eqn:I.
    apply insert_device_connection_ok in I; [|assumption].
    destruct e as [e|]; [destruct (negb (Pg.code e =? "23505"))|]; cbn [snd];
      try assumption; now apply delete_pairing_code_ok.
  - (* disconnect *)
    unfold disconnect.
    destruct (negb (JS.truthy userId) || negb (JS.truthy pairedUserId)); cbn [snd];
      [assumption|now apply delete_connections_ok].
  - (* trackUsage *)
    unfold trackUsage. destruct (JS.truthy userId); cbn [negb snd]; [|assumption].
    destruct (select_code db (cleanCode code)) as [pc|]; [|assumption].
    destruct (single _) as [r|]; cbn [snd]; [now apply update_usage_ok|].
    destruct (insert_usage _ _ _ _ _ _ _) as [db1 e] eqn:I.
    apply insert_usage_ok in I; [|assumption]. now destruct e.
  - (* removeUsage *)
    unfold removeUsage. destruct (JS.truthy userId); cbn [negb snd]; [|assumption].
    destruct (select_code db (cleanCode code)) as [pc|]; [|assumption].
    destruct (negb (PairingCode.user_id pc =? str userId)); cbn [snd];
      [assumption|now apply delete_usage_ok].
  - (* updateLocation *)
    unfold updateLocation.
    destruct (negb (JS.truthy_num latitude) || negb (JS.truthy_num longitude));
      cbn [snd]; [assumption|].
    destruct (select_code db (cleanCode code)) as [pc|]; cbn [snd];
      [now apply update_location_ok|assumption].
Qed.

Lemma run_keeps_store_ok calls : forall db,
  store_ok db = true -> store_ok (run db calls) = true.
Proof.
  induction calls as [|[env req] calls IH]; intros db OK; cbn [run]; [assumption|].
  apply IH. now apply handle_keeps_store_ok.
Qed.

(** ** The ledger invariant along a run *)

Lemma filter_swap {A : Type} (p f : A -> bool) (l : list A) :
  filter p (filter f l) = filter f (filter p l).
Proof.
  induction l as [|a l IH]; simpl; [reflexivity|].
  destruct (f a) eqn:F, (p a) eqn:P; simpl; rewrite ?F, ?P, IH; reflexivity.
Qed.

Lemma ledger_single_same db db' :
  code_usage db' = code_usage db -> ledger_single db -> ledger_single db'.
Proof.
  intros E L p u. unfold usage_of. rewrite E. apply L.
Qed.

Lemma ledger_single_filter db db' f :
  code_usage db' = filter f (code_usage db) -> ledger_single db -> ledger_single db'.
Proof.
  intros E L p u. unfold usage_of. rewrite E, filter_swap.
  etransitivity; [apply filter_length_le|]. apply L.
Qed.

Lemma insert_pairing_code_usage env db user_id code lat lon acc :
  code_usage (fst (insert_pairing_code env db user_id code lat lon acc)) = code_usage db.
Proof.
  unfold insert_pairing_code.
  repeat match goal with |- context [if ?b then (db, _) else _] => destruct b end;
    reflexivity.
Qed.

Lemma handle_keeps_ledger_single env db req :
  ledger_single db -> ledger_single (snd (handle env db req)).
Proof.
  intros L. destruct req; cbn [handle snd]; try assumption.
  - (* generate *)
    unfold generate. destruct (JS.truthy userId); cbn [negb snd]; [|assumption].
    match goal with
    | |- context [insert_pairing_code ?e ?d ?u ?c ?x ?y ?z] =>
        pose proof (insert_pairing_code_usage e d u c x y z) as E;
        destruct (insert_pairing_code e d u c x y z) as [db2 [err|]]
    end; cbn [fst snd] in *;
      (apply (ledger_single_same db); [|assumption]);
      rewrite E; now destruct (JS.truthy deviceName).
  - (* validate *)
    unfold validate, validate_with.
    destruct (negb (JS.truthy code) || negb (JS.truthy initiatorUserId)); [assumption|].
    destruct (select_code db (cleanCode (str code))) as [pc|]; [|assumption].
    destruct (PairingCode.expires_at pc <? now env)%Z; [assumption|].
    destruct (select_user db (PairingCode.user_id pc)) as [owner|]; [|assumption].
    destruct (insert_device_connection_frame env db (str initiatorUserId) (User.id owner))
      as [_ [_ E]].
    destruct (insert_device_connection env db (str initiatorUserId) (User.id owner))
      as [db1 e].
    cbn [fst] in E.
    assert (ledger_single db1) as L1 by now apply (ledger_single_same db).
    assert (ledger_single (delete_pairing_code db1 (PairingCode.id pc))) as L2.
    { unfold delete_pairing_code.
      destruct (has_pairing_code db1 (PairingCode.id pc)).
      - eapply ledger_single_filter; [|exact L1]. reflexivity.
      - now apply (ledger_single_same db1). }
    destruct e as [e|]; [destruct (negb (Pg.code e =? "23505"))|]; cbn [snd]; assumption.
  - (* disconnect *)
    unfold disconnect.
    destruct (negb (JS.truthy userId) || negb (JS.truthy pairedUserId)); cbn [snd];
      [assumption|now apply (ledger_single_same db)].
  - (* trackUsage *)
    now apply trackUsage_keeps_ledger_single.
  - (* removeUsage *)
    unfold removeUsage. destruct (JS.truthy userId); cbn [negb snd]; [|assumption].
    destruct (select_code db (cleanCode code)) as [pc|]; [|assumption].
    destruct (negb (PairingCode.user_id pc =? str userId)); cbn [snd]; [assumption|].
    eapply ledger_single_filter; [|exact L]. reflexivity.
  - (* updateLocation *)
    unfold updateLocation.
    destruct (negb (JS.truthy_num latitude) || negb (JS.truthy_num longitude));
      cbn [snd]; [assumption|].
    destruct (select_code db (cleanCode code)) as [pc|]; cbn [snd];
      [now apply (ledger_single_same db)|assumption].
Qed.

(** Served one request at a time, a store whose ledger starts empty never
    holds two rows for the same pairing code and redeeming user. *)
Lemma run_keeps_ledger_single calls : forall db,
  ledger_single db -> ledger_single (run db calls).
Proof.
  induction calls as [|[env req] calls IH]; intros db L; cbn [run]; [assumption|].
  apply IH. now apply handle_keeps_ledger_single.
Qed.

Lemma run_from_empty_ledger db calls :
  code_usage db = [] -> ledger_single (run db calls).
Proof.
  intros E. apply run_keeps_ledger_single. intros p u.
  unfold usage_of. rewrite E. simpl. lia.
Qed.

(** ** Codes as typed by a user *)

Lemma upper_lower_char c :
  upper_alnum c = true ->
  JS.upper_char (lower_char c) = c /\ (lower_char c =? "-")%char = false
  /\ JS.upper_char c = c /\ (c =? "-")%char = false.
Proof.
  destruct c as [[] [] [] [] [] [] [] []]; vm_compute; intros H;
    try discriminate; repeat split.
Qed.

Lemma toUpperCase_toLowerCase s :
  all_chars upper_alnum s = true -> JS.toUpperCase (toLowerCase s) = s.
Proof.
  induction s as [|c s IH]; simpl; intros H; [reflexivity|].
  apply andb_true_iff in H. destruct H as [Hc Hs].
  destruct (upper_lower_char c Hc) as [-> _]. now rewrite IH.
Qed.


(** X5. The endpoints take a code in any letter case and with one hyphen put in
    anywhere: written in lower case and hyphenated after any number of
    characters, a code over [A-Z0-9] is normalised back to itself. *)
Theorem cleanCode_hyphen_case c n :
  all_chars upper_alnum c = true ->
  cleanCode (hyphenate n (toLowerCase c)) = c.
Proof.
  unfold cleanCode. revert n. induction c as [|a c IH]; intros n H.
  - destruct n; reflexivity.
  - simpl in H. apply andb_true_iff in H. destruct H as [Ha Hc].
    destruct (upper_lower_char a Ha) as (Hu & Hh & _ & _).
    destruct n as [|n].
    + cbn [hyphenate JS.replace_hyphen]. cbn.
      now rewrite Hu, toUpperCase_toLowerCase.
    + cbn [toLowerCase hyphenate JS.replace_hyphen]. rewrite Hh.
      cbn [JS.toUpperCase]. now rewrite Hu, IH.
Qed.

Lemma cleanCode_hyphen_case_witness :
  cleanCode (hyphenate 2 (toLowerCase "AB12CD")) = "AB12CD".
Proof. apply (cleanCode_hyphen_case "AB12CD" 2). reflexivity. Defined.

(** ** disconnect, composed with itself *)

Lemma links_sym u p c : links u p c = links p u c.
Proof. unfold links. apply orb_comm. Qed.

Lemma filter_idem {A : Type} (f : A -> bool) (l : list A) :
  filter f (filter f l) = filter f l.
Proof.
  induction l as [|a l IH]; simpl; [reflexivity|].
  destruct (f a) eqn:F; simpl; rewrite ?F, IH; reflexivity.
Qed.

(** X6. disconnect does not care which of the two users is named first, and a
    second disconnect of the same two changes nothing more. *)
Theorem disconnect_symmetric_idempotent db a b :
  disconnect db a b = disconnect db b a
  /\ disconnect (snd (disconnect db a b)) a b
     = (fst (disconnect db a b), snd (disconnect db a b)).
Proof.
  unfold disconnect. rewrite (orb_comm (negb (JS.truthy b))).
  destruct (negb (JS.truthy a) || negb (JS.truthy b)); cbn [fst snd].
  - split; reflexivity.
  - split.
    + f_equal. unfold delete_connections. f_equal.
      apply filter_ext. intros c. now rewrite links_sym.
    + f_equal. unfold delete_connections. cbn [users pairing_codes device_connections
                                                 code_usage].
      now rewrite filter_idem.
Qed.

(** ** The ledger views: newest first *)

Lemma insert_desc_perm r l : Permutation (insert_desc r l) (r :: l).
Proof.
  induction l as [|x l IH]; simpl; [reflexivity|].
  destruct (CodeUsage.timestamp x <=? CodeUsage.timestamp r)%Z; [reflexivity|].
  rewrite IH. apply perm_swap.
Qed.

Lemma order_desc_perm l : Permutation (order_desc l) l.
Proof.
  induction l as [|r l IH]; simpl; [reflexivity|].
  rewrite insert_desc_perm. now constructor.
Qed.

Lemma insert_desc_sorted r l :
  StronglySorted (fun a b => (CodeUsage.timestamp b <= CodeUsage.timestamp a)%Z) l ->
  StronglySorted (fun a b => (CodeUsage.timestamp b <= CodeUsage.timestamp a)%Z)
    (insert_desc r l).
Proof.
  induction l as [|x l IH]; simpl; intros S.
  - constructor; constructor.
  - inversion S as [|? ? Sl Hx]; subst.
    destruct (CodeUsage.timestamp x <=? CodeUsage.timestamp r)%Z eqn:E.
    + apply Z.leb_le in E. constructor; [assumption|].
      constructor; [assumption|].
      rewrite Forall_forall in *. intros y Hy. specialize (Hx y Hy). lia.
    + apply Z.leb_gt in E. constructor; [now apply IH|].
      rewrite Forall_forall in *. intros y Hy.
      apply (Permutation_in _ (insert_desc_perm r l)) in Hy.
      destruct Hy as [<-|Hy]; [lia|now apply Hx].
Qed.

Lemma order_desc_sorted l :
  StronglySorted (fun a b => (CodeUsage.timestamp b <= CodeUsage.timestamp a)%Z)
    (order_desc l).
Proof.
  induction l as [|r l IH]; simpl; [constructor|]. now apply insert_desc_sorted.
Qed.

Lemma sorted_map {A : Type} (f : A -> Z) (l : list A) :
  StronglySorted (fun a b => (f b <= f a)%Z) l -> newest_first (map f l).
Proof.
  unfold newest_first. induction 1 as [|a l S IH F]; simpl; constructor;
    [assumption|].
  rewrite Forall_forall in *. intros y Hy. apply in_map_iff in Hy.
  destruct Hy as [x [<- Hx]]. now apply F.
Qed.

Lemma sorted_firstn {A : Type} (R : A -> A -> Prop) n (l : list A) :
  StronglySorted R l -> StronglySorted R (firstn n l).
Proof.
  revert l. induction n as [|n IH]; intros l S; [constructor|].
  destruct l as [|a l]; [constructor|]. simpl.
  inversion S as [|? ? Sl Ha]; subst. constructor; [now apply IH|].
  rewrite Forall_forall in *. intros y Hy. apply Ha.
  clear -Hy. revert n Hy. induction l as [|b l IHl]; intros [|n] Hy; simpl in *;
    try contradiction. destruct Hy as [->|Hy]; [now left|right; eauto].
Qed.

(** X7. The history shown to the owner of a code lists each ledger row of the
    code exactly once, newest first, and its count is the number of
    entries. *)
Theorem usageHistory_newest_first db pc code :
  store_ok db = true ->
  In pc (pairing_codes db) ->
  names code pc ->
  JS.truthy (Some (PairingCode.user_id pc)) = true ->
  exists usage,
    usageHistory db code (Some (PairingCode.user_id pc))
      = respond 200 (UsageHistory (PairingCode.code pc) (length usage) usage)
    /\ newest_first (map UsageEntry.timestamp usage)
    /\ Permutation (map UsageEntry.id usage)
         (map CodeUsage.id
            (filter (fun r => CodeUsage.pairing_code_id r =? PairingCode.id pc)
               (code_usage db))).
Proof.
  intros OK HIn [Hc Hn] Ht.
  pose proof (select_code_live db pc OK HIn) as Hsel. rewrite <- Hn in Hsel.
  exists (history_of db pc). split; [|split].
  - unfold usageHistory. rewrite Ht. cbn [negb str]. rewrite Hsel.
    rewrite String.eqb_refl. cbn [negb]. now rewrite Hn.
  - unfold history_of. rewrite map_map. cbn [UsageEntry.timestamp].
    apply (sorted_map CodeUsage.timestamp). apply order_desc_sorted.
  - unfold history_of. rewrite map_map. cbn [UsageEntry.id].
    apply Permutation_map. apply order_desc_perm.
Qed.

Lemma usageHistory_newest_first_witness :
  exists usage,
    usageHistory Sample.db "zz-99zz" (Some (PairingCode.user_id Sample.ZZ99ZZ))
      = respond 200 (UsageHistory (PairingCode.code Sample.ZZ99ZZ) (length usage) usage)
    /\ newest_first (map UsageEntry.timestamp usage)
    /\ Permutation (map UsageEntry.id usage)
         (map CodeUsage.id
            (filter (fun r => CodeUsage.pairing_code_id r
                              =? PairingCode.id Sample.ZZ99ZZ)
               (code_usage Sample.db))).
Proof.
  apply (usageHistory_newest_first Sample.db Sample.ZZ99ZZ "zz-99zz").
  - reflexivity.
  - simpl; auto.
  - split; reflexivity.
  - reflexivity.
Defined.

(** X8. who-used reads no userId at all: whoever knows the code string is shown
    the ledger of the code, entry for entry what the owner-only history
    shows (ids, device names, times, in the same order). *)
Theorem whoUsed_shows_owner_history db pc code :
  store_ok db = true ->
  In pc (pairing_codes db) ->
  names code pc ->
  exists entries,
    whoUsed db code = reply 200 (WhoUsed (PairingCode.code pc) (length entries) entries)
    /\ map (fun e => (UsedBy.id e, UsedBy.device e, UsedBy.usedAt e)) entries
       = map (fun e => (UsageEntry.id e, UsageEntry.deviceName e, UsageEntry.timestamp e))
           (history_of db pc).
Proof.
  intros OK HIn [Hc Hn].
  pose proof (select_code_live db pc OK HIn) as Hsel. rewrite <- Hn in Hsel.
  unfold whoUsed. rewrite Hsel, Hn. eexists. split; [reflexivity|].
  unfold history_of. now rewrite !map_map.
Qed.

Lemma whoUsed_shows_owner_history_witness :
  exists entries,
    whoUsed Sample.db "zz99zz"
      = reply 200 (WhoUsed (PairingCode.code Sample.ZZ99ZZ) (length entries) entries)
    /\ map (fun e => (UsedBy.id e, UsedBy.device e, UsedBy.usedAt e)) entries
       = map (fun e => (UsageEntry.id e, UsageEntry.deviceName e, UsageEntry.timestamp e))
           (history_of Sample.db Sample.ZZ99ZZ).
Proof.
  apply (whoUsed_shows_owner_history Sample.db Sample.ZZ99ZZ "zz99zz").
  - reflexivity.
  - simpl; auto.
  - split; reflexivity.
Defined.

Lemma In_firstn {A : Type} n (l : list A) x : In x (firstn n l) -> In x l.
Proof.
  revert n. induction l as [|a l IH]; intros [|n] H; simpl in *; try contradiction.
  destruct H as [->|H]; [now left|right; eauto].
Qed.

(** X9. pasted-codes shows at most 50 entries, newest first; each is a ledger
    row of the user asked about, and the count is the number of rows of that
    user, capped at 50. *)
Theorem pastedCodes_newest_fifty db userId :
  JS.truthy (Some userId) = true ->
  exists codes,
    pastedCodes db userId = reply 200 (PastedCodes (length codes) codes)
    /\ length codes
       = Nat.min 50 (length (filter (fun r => CodeUsage.user_id r =? userId)
                               (code_usage db)))
    /\ newest_first (map PastedCode.usedAt codes)
    /\ forall e, In e codes ->
         exists r, In r (code_usage db)
                   /\ CodeUsage.user_id r = userId
                   /\ CodeUsage.id r = PastedCode.id e
                   /\ CodeUsage.timestamp r = PastedCode.usedAt e.
Proof.
  intros Ht. unfold pastedCodes. rewrite Ht. cbn [negb].
  eexists. split; [reflexivity|]. split; [|split].
  - rewrite length_map, length_firstn.
    now rewrite (Permutation_length (order_desc_perm _)).
  - rewrite map_map. cbn [PastedCode.usedAt].
    apply (sorted_map CodeUsage.timestamp). apply sorted_firstn, order_desc_sorted.
  - intros e He. apply in_map_iff in He. destruct He as [r [<- Hr]].
    apply In_firstn in Hr. apply (Permutation_in _ (order_desc_perm _)) in Hr.
    apply filter_In in Hr. destruct Hr as [Hr Hu]. apply String.eqb_eq in Hu.
    exists r. repeat split; assumption.
Qed.

Lemma pastedCodes_newest_fifty_witness :
  exists codes,
    pastedCodes Sample.db "u3" = reply 200 (PastedCodes (length codes) codes)
    /\ length codes
       = Nat.min 50 (length (filter (fun r => CodeUsage.user_id r =? "u3")
                               (code_usage Sample.db)))
    /\ newest_first (map PastedCode.usedAt codes)
    /\ forall e, In e codes ->
         exists r, In r (code_usage Sample.db)
                   /\ CodeUsage.user_id r = "u3"
                   /\ CodeUsage.id r = PastedCode.id e
                   /\ CodeUsage.timestamp r = PastedCode.usedAt e.
Proof. apply (pastedCodes_newest_fifty Sample.db "u3"). reflexivity. Defined.

(** ** generate, validate and the location endpoints, composed *)




(** validate on a live, unexpired code by a registered seeker. *)
Lemma validate_succeeds env db pc code seeker :
  store_ok db = true ->
  In pc (pairing_codes db) ->
  (now env <= PairingCode.expires_at pc)%Z ->
  names code pc ->
  JS.truthy (Some seeker) = true ->
  has_user db seeker = true ->
  exists owner,
    In owner (users db)
    /\ User.id owner = PairingCode.user_id pc
    /\ validate env db (Some code) (Some seeker)
       = (respond 200 (Profile owner),
          delete_pairing_code
            (fst (insert_device_connection env db seeker (User.id owner)))
            (PairingCode.id pc)).
Proof.
  intros OK HIn Hexp [Hc Hn] Hs Hseeker.
  destruct (select_user_owner db pc OK HIn) as [owner [Ho [Hid Hsel]]].
  pose proof (select_code_live db pc OK HIn) as Hcode. rewrite <- Hn in Hcode.
  assert (has_user db (User.id owner) = true) as Howner
    by (unfold has_user; now apply In_existsb_key).
  pose proof (insert_device_connection_users env db seeker (User.id owner) Hseeker Howner)
    as Htol.
  exists owner. split; [assumption|]. split; [assumption|].
  unfold validate.
  rewrite (validate_with_passed _ env db code seeker pc owner Hc Hs Hcode Hexp Hsel).
  destruct (insert_device_connection env db seeker (User.id owner)) as [d [e|]];
    cbn [fst snd] in *; [rewrite Htol|]; reflexivity.
Qed.



(** X11. A generate that fails on the insert has already renamed the device: with
    a deviceName given and the drawn code already taken, the answer is 500
    and the store is the one with the owner's device renamed, no code
    added. *)
Theorem generate_failure_keeps_rename env db userId latitude longitude accuracy deviceName :
  JS.truthy (Some userId) = true ->
  JS.truthy (Some deviceName) = true ->
  existsb (fun p => PairingCode.code p
                    =? JS.toUpperCase (JS.substring (random36 env) 2 8))
    (pairing_codes db) = true ->
  exists error,
    generate env db (Some userId) latitude longitude accuracy (Some deviceName)
      = (respond 500 (Error error), update_device_name db userId deviceName)
    /\ pairing_codes (update_device_name db userId deviceName) = pairing_codes db
    /\ forall u, In u (users db) -> User.id u = userId ->
         In (User.set_device_name deviceName u)
            (users (update_device_name db userId deviceName)).
Proof.
  intros Hu Hn Htaken. unfold generate. rewrite Hu, Hn. cbn [negb str].
  unfold insert_pairing_code, has_pairing_code.
  cbn [update_device_name pairing_codes]. rewrite Htaken.
  assert (forall u, In u (users db) -> User.id u = userId ->
            In (User.set_device_name deviceName u)
               (map (fun u0 => if User.id u0 =? userId
                               then User.set_device_name deviceName u0 else u0)
                  (users db))) as Hren.
  { intros u HIn Hid. apply in_map_iff. exists u. split; [|assumption].
    now rewrite Hid, String.eqb_refl. }
  match goal with
  | |- context [if existsb ?f ?l then _ else _] => destruct (existsb f l)
  end; eexists; (split; [reflexivity|]); (split; [reflexivity|exact Hren]).
Qed.

Lemma generate_failure_keeps_rename_witness :
  exists error,
    generate (mkEnv 2000%Z "pc9" "0.ab12cdxyz") Sample.db (Some "u2") None None None
      (Some "Renamed")
      = (respond 500 (Error error), update_device_name Sample.db "u2" "Renamed")
    /\ pairing_codes (update_device_name Sample.db "u2" "Renamed")
       = pairing_codes Sample.db
    /\ forall u, In u (users Sample.db) -> User.id u = "u2" ->
         In (User.set_device_name "Renamed" u)
            (users (update_device_name Sample.db "u2" "Renamed")).
Proof.
  apply (generate_failure_keeps_rename (mkEnv 2000%Z "pc9" "0.ab12cdxyz") Sample.db "u2"
           None None None "Renamed").
  - reflexivity.
  - reflexivity.
  - reflexivity.
Defined.








(** X14. A successful validate takes the ledger of the code with it: the delete
    of the code cascades to its code_usage rows, so none of them is left and
    who-used no longer knows the code; the rows of other codes stay. *)
Theorem validate_clears_ledger env db pc code seeker :
  store_ok db = true ->
  In pc (pairing_codes db) ->
  (now env <= PairingCode.expires_at pc)%Z ->
  names code pc ->
  JS.truthy (Some seeker) = true ->
  has_user db seeker = true ->
  exists owner db1,
    validate env db (Some code) (Some seeker) = (respond 200 (Profile owner), db1)
    /\ (forall r, In r (code_usage db1) <->
                  In r (code_usage db)
                  /\ CodeUsage.pairing_code_id r <> PairingCode.id pc)
    /\ whoUsed db1 code = reply 400 (Plain (Error "Invalid code")).
Proof.
  intros OK HIn Hexp Hnames Hs Hseeker.
  destruct (validate_succeeds env db pc code seeker OK HIn Hexp Hnames Hs Hseeker)
    as [owner [_ [_ V]]].
  destruct (insert_device_connection_frame env db seeker (User.id owner))
    as [_ [Hpc Hcu]].
  eexists owner, _. split; [exact V|]. split.
  - intros r. unfold delete_pairing_code, has_pairing_code. cbn [code_usage].
    rewrite Hpc, Hcu.
    rewrite (In_existsb_key PairingCode.id pc _ HIn).
    rewrite filter_In, negb_true_iff, String.eqb_neq. reflexivity.
  - unfold whoUsed. destruct Hnames as [_ Hn]. rewrite Hn.
    rewrite select_code_deleted; [reflexivity| |]; rewrite Hpc;
      [now apply ok_unique_codes|assumption].
Qed.

Lemma validate_clears_ledger_witness :
  exists owner db1,
    validate (Sample.env 2000 "c1") Sample.db (Some "zz99zz") (Some "u2")
      = (respond 200 (Profile owner), db1)
    /\ (forall r, In r (code_usage db1) <->
                  In r (code_usage Sample.db)
                  /\ CodeUsage.pairing_code_id r <> PairingCode.id Sample.ZZ99ZZ)
    /\ whoUsed db1 "zz99zz" = reply 400 (Plain (Error "Invalid code")).
Proof.
  apply (validate_clears_ledger (Sample.env 2000 "c1") Sample.db Sample.ZZ99ZZ
           "zz99zz" "u2").
  - reflexivity.
  - simpl; auto.
  - simpl; lia.
  - split; reflexivity.
  - reflexivity.
  - reflexivity.
Defined.

(** ** The ledger: what is tracked is shown, what is removed is gone *)

Lemma ok_unique_usage_ids db :
  store_ok db = true -> unique_keys (map CodeUsage.id (code_usage db)) = true.
Proof. intros OK. now apply store_ok_iff in OK. Qed.

Lemma unique_key_In {A : Type} (key : A -> string) (l : list A) (x y : A) :
  unique_keys (map key l) = true -> In x l -> In y l -> key x = key y -> x = y.
Proof.
  intros U Hx Hy E.
  pose proof (filter_key_unique key x l U Hx) as F.
  assert (In y (filter (fun z => key z =? key x) l)) as Hy'
    by (apply filter_In; split; [assumption|now apply String.eqb_eq]).
  rewrite F in Hy'. now destruct Hy' as [->|[]].
Qed.

(** X15. The owner removing an entry of the code removes that ledger row and no
    other: the ledger is one row shorter, every other row is still there, and
    the entry is gone from the usage history. *)
Theorem removeUsage_removes_that_row db pc code r :
  store_ok db = true ->
  In pc (pairing_codes db) ->
  names code pc ->
  JS.truthy (Some (PairingCode.user_id pc)) = true ->
  In r (code_usage db) ->
  CodeUsage.pairing_code_id r = PairingCode.id pc ->
  exists db1,
    removeUsage db code (CodeUsage.id r) (Some (PairingCode.user_id pc))
      = (respond 200 (Message "User removed successfully"), db1)
    /\ (forall x, In x (code_usage db1) <-> In x (code_usage db) /\ x <> r)
    /\ S (length (code_usage db1)) = length (code_usage db)
    /\ ~ In (CodeUsage.id r) (map UsageEntry.id (history_of db1 pc)).
Proof.
  intros OK HIn [Hc Hn] Ht Hr Hpc.
  pose proof (select_code_live db pc OK HIn) as Hsel. rewrite <- Hn in Hsel.
  pose proof (ok_unique_usage_ids db OK) as U.
  assert (forall x, In x (code_usage db) ->
            negb ((CodeUsage.id x =? CodeUsage.id r)
                  && (CodeUsage.pairing_code_id x =? PairingCode.id pc)) = true
            <-> x <> r) as Keep.
  { intros x Hx. rewrite negb_true_iff. split.
    - intros F E. subst x. now rewrite Hpc, !String.eqb_refl in F.
    - intros Hne. apply andb_false_iff. left. apply String.eqb_neq. intros E.
      apply Hne. now apply (unique_key_In CodeUsage.id (code_usage db)). }
  exists (delete_usage db (CodeUsage.id r) (PairingCode.id pc)).
  split; [|split; [|split]].
  - unfold removeUsage. rewrite Ht. cbn [negb str]. rewrite Hsel.
    now rewrite String.eqb_refl.
  - intros x. unfold delete_usage. cbn [code_usage]. rewrite filter_In.
    split; intros [Hx Hk]; (split; [assumption|]); now apply (Keep x Hx).
  - unfold delete_usage. cbn [code_usage]. clear Hsel.
    revert U Hr Keep. generalize (code_usage db) as l.
    induction l as [|a l IH]; intros U Hr Keep; [contradiction|].
    simpl in U. apply andb_true_iff in U. destruct U as [Ua Ul].
    cbn [filter length].
    destruct Hr as [->|Hr].
    + rewrite Hpc, !String.eqb_refl. cbn [andb negb]. f_equal.
      f_equal. apply forallb_filter_id. apply forallb_forall. intros x Hx.
      apply Keep; [now right|]. intros ->.
      apply negb_true_iff in Ua. rewrite existsb_map_key in Ua.
      now rewrite (In_existsb_key CodeUsage.id r l Hx) in Ua.
    + assert (a <> r) as Hne.
      { intros ->. apply negb_true_iff in Ua. rewrite existsb_map_key in Ua.
        now rewrite (In_existsb_key CodeUsage.id r l Hr) in Ua. }
      apply (Keep a (or_introl eq_refl)) in Hne. rewrite Hne. cbn [length]. f_equal.
      apply IH; try assumption.
      intros x Hx. split; intros H.
      * apply (Keep x (or_intror Hx)); assumption.
      * apply (Keep x (or_intror Hx)); assumption.
  - intros H. unfold history_of in H. rewrite map_map in H. cbn [UsageEntry.id] in H.
    apply in_map_iff in H. destruct H as [x [Hid Hx]].
    apply (Permutation_in _ (order_desc_perm _)) in Hx.
    apply filter_In in Hx. destruct Hx as [Hx _].
    unfold delete_usage in Hx. cbn [code_usage] in Hx.
    apply filter_In in Hx. destruct Hx as [Hx Hk].
    apply (Keep x Hx) in Hk. apply Hk.
    now apply (unique_key_In CodeUsage.id (code_usage db)).
Qed.

Lemma removeUsage_removes_that_row_witness :
  exists db1,
    removeUsage Sample.db "zz-99zz" (CodeUsage.id Sample.usage2)
        (Some (PairingCode.user_id Sample.ZZ99ZZ))
      = (respond 200 (Message "User removed successfully"), db1)
    /\ (forall x, In x (code_usage db1) <-> In x (code_usage Sample.db) /\ x <> Sample.usage2)
    /\ S (length (code_usage db1)) = length (code_usage Sample.db)
    /\ ~ In (CodeUsage.id Sample.usage2)
           (map UsageEntry.id (history_of db1 Sample.ZZ99ZZ)).
Proof.
  apply (removeUsage_removes_that_row Sample.db Sample.ZZ99ZZ "zz-99zz" Sample.usage2).
  - reflexivity.
  - simpl; auto.
  - split; reflexivity.
  - reflexivity.
  - simpl; auto.
  - reflexivity.
Defined.

(** A successful trackUsage of a live code by a registered user. *)
Lemma trackUsage_row env db pc code userId deviceId :
  store_ok db = true ->
  In pc (pairing_codes db) ->
  names code pc ->
  JS.truthy (Some userId) = true ->
  has_user db userId = true ->
  (length (usage_of db (PairingCode.id pc) userId) <= 1)%nat ->
  existsb (fun r => CodeUsage.id r =? gen_random_uuid env) (code_usage db) = false ->
  exists r1 db1 row,
    trackUsage env db code (Some userId) deviceId = (r1, db1)
    /\ status r1 = 200
    /\ usage_of db1 (PairingCode.id pc) userId = [row]
    /\ CodeUsage.timestamp row = now env
    /\ CodeUsage.device_id row = JS.str_or_null deviceId
    /\ users db1 = users db
    /\ pairing_codes db1 = pairing_codes db.
Proof.
  intros OK HIn [Hc Hn] Hu Huser Hone Hfresh.
  pose proof (select_code_live db pc OK HIn) as Hsel. rewrite <- Hn in Hsel.
  destruct (length_le_1 _ Hone) as [Hnone | [r Hr]].
  - destruct (insert_usage_succeeds env db (PairingCode.id pc) userId
                (JS.str_or_null deviceId) (PairingCode.user_id pc) (now env))
      as [db1 [Hins [Hpc Hus]]]; try assumption.
    { unfold has_pairing_code. now apply In_existsb_key. }
    { now apply ok_owner. }
    pose proof (usage_of_insert _ _ _ _ _ _ _ _ (PairingCode.id pc) userId Hins) as Hrow.
    rewrite Hnone, !String.eqb_refl in Hrow. cbn [andb app] in Hrow.
    eexists _, db1, _.
    split. { unfold trackUsage. rewrite Hu. cbn [negb str]. rewrite Hsel, Hnone.
             cbn [single]. rewrite Hins. reflexivity. }
    split; [reflexivity|]. split; [exact Hrow|]. cbn. auto.
  - pose proof (usage_of_update db (CodeUsage.id r) (now env) (JS.str_or_null deviceId)
                  (PairingCode.id pc) userId) as Hrow.
    rewrite Hr in Hrow. cbn [map] in Hrow. rewrite String.eqb_refl in Hrow.
    eexists _, _, _.
    split. { unfold trackUsage. rewrite Hu. cbn [negb str]. rewrite Hsel, Hr.
             cbn [single]. reflexivity. }
    split; [reflexivity|]. split; [exact Hrow|]. cbn. auto.
Qed.

(** X16. What trackUsage records is what the owner reads: after a successful
    call the usage history of the code has an entry for that user, carrying
    the time of the call and the device id given (null when none was). *)
Theorem trackUsage_then_usageHistory env db pc code userId deviceId :
  store_ok db = true ->
  In pc (pairing_codes db) ->
  names code pc ->
  JS.truthy (Some userId) = true ->
  has_user db userId = true ->
  JS.truthy (Some (PairingCode.user_id pc)) = true ->
  (length (usage_of db (PairingCode.id pc) userId) <= 1)%nat ->
  existsb (fun r => CodeUsage.id r =? gen_random_uuid env) (code_usage db) = false ->
  exists r1 db1 n usage entry,
    trackUsage env db code (Some userId) deviceId = (r1, db1)
    /\ status r1 = 200
    /\ usageHistory db1 code (Some (PairingCode.user_id pc))
       = respond 200 (UsageHistory (PairingCode.code pc) n usage)
    /\ In entry usage
    /\ UsageEntry.userId entry = userId
    /\ UsageEntry.timestamp entry = now env
    /\ UsageEntry.deviceId entry = JS.str_or_null deviceId
    /\ (forall e, In e usage -> UsageEntry.userId e = userId -> e = entry).
Proof.
  intros OK HIn Hnames Hu Huser Ht Hone Hfresh.
  destruct (trackUsage_row env db pc code userId deviceId OK HIn Hnames Hu Huser Hone
              Hfresh) as (r1 & db1 & row & T & S & Hrow & Hts & Hdev & Hus & Hpc).
  destruct Hnames as [Hc Hn].
  assert (select_code db1 (cleanCode code) = Some pc) as Hsel.
  { unfold select_code. rewrite Hpc, Hn. now apply select_code_live. }
  assert (forall x, In x (order_desc
                            (filter (fun r => CodeUsage.pairing_code_id r
                                              =? PairingCode.id pc) (code_usage db1))) ->
                    CodeUsage.user_id x = userId -> x = row) as Only.
  { intros x Hx Hxu. apply (Permutation_in _ (order_desc_perm _)) in Hx.
    apply filter_In in Hx. destruct Hx as [Hx Hp].
    assert (In x (usage_of db1 (PairingCode.id pc) userId)) as Hx'.
    { unfold usage_of. apply filter_In. split; [assumption|].
      rewrite Hp. now apply String.eqb_eq. }
    rewrite Hrow in Hx'. now destruct Hx' as [->|[]]. }
  assert (In row (order_desc
                    (filter (fun r => CodeUsage.pairing_code_id r =? PairingCode.id pc)
                       (code_usage db1)))) as Hin.
  { apply (Permutation_in _ (Permutation_sym (order_desc_perm _))).
    assert (In row (usage_of db1 (PairingCode.id pc) userId)) as H
      by (rewrite Hrow; now left).
    unfold usage_of in H. apply filter_In in H. destruct H as [H K].
    apply andb_true_iff in K. destruct K as [K _]. apply filter_In. auto. }
  assert (CodeUsage.user_id row = userId) as Hru.
  { assert (In row (usage_of db1 (PairingCode.id pc) userId)) as H
      by (rewrite Hrow; now left).
    unfold usage_of in H. apply filter_In in H. destruct H as [_ K].
    apply andb_true_iff in K. destruct K as [_ K]. now apply String.eqb_eq. }
  eexists r1, db1, _, _, _.
  split; [exact T|]. split; [exact S|].
  split. { unfold usageHistory. rewrite Ht. cbn [negb str]. rewrite Hsel.
           rewrite String.eqb_refl. cbn [negb]. rewrite Hn. reflexivity. }
  split. { apply in_map. exact Hin. }
  cbn. split; [exact Hru|]. split; [exact Hts|]. split; [exact Hdev|].
  intros e He Heu. apply in_map_iff in He. destruct He as [x [<- Hx]].
  cbn in Heu. now rewrite (Only x Hx Heu).
Qed.

Lemma trackUsage_then_usageHistory_witness :
  exists r1 db1 n usage entry,
    trackUsage (Sample.env 2000 "cu1") Sample.db "zz-99zz" (Some "u2") (Some "dev-2")
      = (r1, db1)
    /\ status r1 = 200
    /\ usageHistory db1 "zz-99zz" (Some (PairingCode.user_id Sample.ZZ99ZZ))
       = respond 200 (UsageHistory (PairingCode.code Sample.ZZ99ZZ) n usage)
    /\ In entry usage
    /\ UsageEntry.userId entry = "u2"
    /\ UsageEntry.timestamp entry = now (Sample.env 2000 "cu1")
    /\ UsageEntry.deviceId entry = JS.str_or_null (Some "dev-2")
    /\ (forall e, In e usage -> UsageEntry.userId e = "u2" -> e = entry).
Proof.
  apply (trackUsage_then_usageHistory (Sample.env 2000 "cu1") Sample.db Sample.ZZ99ZZ
           "zz-99zz" "u2" (Some "dev-2")).
  - reflexivity.
  - simpl; auto.
  - split; reflexivity.
  - reflexivity.
  - reflexivity.
  - reflexivity.
  - simpl; lia.
  - reflexivity.
Defined.

(** ** Users *)

Lemma select_user_by_device_new db device_id u :
  existsb (fun v => User.device_id v =? device_id) (users db) = false ->
  User.device_id u = device_id ->
  single (filter (fun v => User.device_id v =? device_id) (users db ++ [u])) = Some u.
Proof.
  intros Hnew Hd. rewrite filter_app.
  rewrite <- (existsb_map_key User.device_id) in Hnew.
  rewrite (filter_key_absent User.device_id _ _ Hnew). cbn.
  now rewrite Hd, String.eqb_refl.
Qed.

Lemma str_or_null_truthy s : JS.truthy (Some s) = true -> JS.str_or_null (Some s) = Some s.
Proof. intros H. unfold JS.str_or_null. now rewrite H. Qed.

Lemma update_user_ids db id patch :
  map User.id (users (update_user db id patch)) = map User.id (users db).
Proof.
  unfold update_user. cbn [users]. apply map_key_map.
  intros u. now destruct (User.id u =? id).
Qed.

(** X17. Find or create: the first contact of a device creates its user, and a
    later contact of the same device id, whatever else it sends, adds no
    user and is answered with that same user, as the row stood before the
    later call. *)
Theorem getOrCreateUser_twice env1 env2 db deviceId deviceName expoPushToken fullName
    c1n c1p c2n c2p birthday address
    deviceName' expoPushToken' fullName' c1n' c1p' c2n' c2p' birthday' address' :
  JS.truthy (Some deviceId) = true ->
  JS.truthy (Some deviceName) = true ->
  JS.truthy (Some deviceName') = true ->
  existsb (fun u => User.device_id u =? deviceId) (users db) = false ->
  has_user db (gen_random_uuid env1) = false ->
  exists newUser db1 db2,
    getOrCreateUser env1 db (Some deviceId) (Some deviceName) expoPushToken fullName
        c1n c1p c2n c2p birthday address
      = (respond 200 (Profile newUser), db1)
    /\ User.id newUser = gen_random_uuid env1
    /\ User.device_id newUser = deviceId
    /\ User.device_name newUser = deviceName
    /\ users db1 = users db ++ [newUser]
    /\ getOrCreateUser env2 db1 (Some deviceId) (Some deviceName') expoPushToken' fullName'
         c1n' c1p' c2n' c2p' birthday' address'
       = (respond 200 (Profile newUser), db2)
    /\ map User.id (users db2) = map User.id (users db1).
Proof.
  intros Hd Hn Hn' Hnew Hfresh.
  assert (select_user_by_device db deviceId = None) as Hnone.
  { unfold select_user_by_device. rewrite <- (existsb_map_key User.device_id) in Hnew.
    now rewrite (filter_key_absent User.device_id _ _ Hnew). }
  eexists _, _, _.
  split.
  { unfold getOrCreateUser. rewrite Hd, Hn. cbn [negb orb str]. rewrite Hnone.
    unfold insert_user. rewrite Hfresh, Hnew. reflexivity. }
  cbn [User.id User.device_id User.device_name users].
  do 4 (split; [reflexivity|]).
  match goal with
  | |- context [mkStore (users db ++ [?u]) _ _ _] => set (newUser := u)
  end.
  assert (select_user_by_device
            (mkStore (users db ++ [newUser]) (pairing_codes db) (device_connections db)
               (code_usage db)) deviceId = Some newUser) as Hsel
    by (unfold select_user_by_device; cbn [users];
        now apply select_user_by_device_new).
  split.
  - unfold getOrCreateUser. rewrite Hd, Hn'. cbn [negb orb str]. rewrite Hsel.
    rewrite (str_or_null_truthy _ Hn'). cbn [Patch.is_empty]. reflexivity.
  - apply update_user_ids.
Qed.

Lemma getOrCreateUser_twice_witness :
  exists newUser db1 db2,
    getOrCreateUser (Sample.env 2000 "u9") Sample.db (Some "dev-9") (Some "Garage")
        (Some "ExponentPushToken[x]") None None None None None None None
      = (respond 200 (Profile newUser), db1)
    /\ User.id newUser = gen_random_uuid (Sample.env 2000 "u9")
    /\ User.device_id newUser = "dev-9"
    /\ User.device_name newUser = "Garage"
    /\ users db1 = users Sample.db ++ [newUser]
    /\ getOrCreateUser (Sample.env 3000 "u10") db1 (Some "dev-9") (Some "Garage door")
         None (Some "Ada") None None None None None None
       = (respond 200 (Profile newUser), db2)
    /\ map User.id (users db2) = map User.id (users db1).
Proof.
  apply (getOrCreateUser_twice (Sample.env 2000 "u9") (Sample.env 3000 "u10") Sample.db
           "dev-9" "Garage" (Some "ExponentPushToken[x]") None None None None None None None
           "Garage door" None (Some "Ada") None None None None None None).
  - reflexivity.
  - reflexivity.
  - reflexivity.
  - reflexivity.
  - reflexivity.
Defined.

Lemma override_still_set new old : still_set old (Patch.override new old).
Proof. unfold still_set. destruct new; simpl; [discriminate|auto]. Qed.


Lemma str_or_null_None s : JS.str_or_null s = None -> JS.truthy s = false.
Proof.
  unfold JS.str_or_null. destruct (JS.truthy s) eqn:T; [|reflexivity].
  intros ->. discriminate T.
Qed.

Lemma is_empty_fields p :
  Patch.is_empty p = true ->
  Patch.device_name p = None /\ Patch.full_name p = None
  /\ Patch.emergency_contact1_name p = None /\ Patch.emergency_contact1_phone p = None
  /\ Patch.emergency_contact2_name p = None /\ Patch.emergency_contact2_phone p = None
  /\ Patch.birthday p = None /\ Patch.address p = None
  /\ Patch.expo_push_token p = None /\ Patch.fcm_token p = None.
Proof.
  destruct p as [[] [] [] [] [] [] [] [] [] []]; cbn; intros H;
    try discriminate; repeat split.
Qed.

(** A patch built from truthy request fields undoes nothing. *)
Lemma patch_keeps p u :
  (forall v, Patch.device_name p = Some v -> v <> "") ->
  keeps_what_is_set u (Patch.apply p u).
Proof.
  intros Hname. unfold keeps_what_is_set, Patch.apply. cbn.
  repeat split; try apply override_still_set.
  destruct (Patch.device_name p) as [v|]; [intros _; now apply Hname|auto].
Qed.

Lemma filter_map_same {A : Type} (p : A -> bool) (g : A -> A) (l : list A) :
  (forall x, p (g x) = p x) -> filter p (map g l) = map g (filter p l).
Proof.
  intros H. induction l as [|a l IH]; simpl; [reflexivity|].
  rewrite H. destruct (p a); simpl; now rewrite IH.
Qed.

Lemma update_user_selects db u patch :
  store_ok db = true -> In u (users db) ->
  select_user (update_user db (User.id u) patch) (User.id u) = Some (Patch.apply patch u).
Proof.
  intros OK HIn. unfold select_user, update_user. cbn [users].
  rewrite filter_map_same.
  - rewrite (filter_key_unique User.id u _ (ok_unique_user_ids db OK) HIn).
    cbn. now rewrite String.eqb_refl.
  - intros v. destruct (User.id v =? User.id u) eqn:E; cbn [Patch.apply User.id]; exact E.
Qed.

Lemma update_user_absent db id patch :
  has_user db id = false -> update_user db id patch = db.
Proof.
  intros H. unfold update_user, has_user in *.
  assert (map (fun u => if User.id u =? id then Patch.apply patch u else u) (users db)
          = users db) as ->; [|now destruct db].
  induction (users db) as [|a l IH]; [reflexivity|].
  cbn in *. apply orb_false_iff in H. destruct H as [-> H]. now rewrite IH.
Qed.



(** X19. update-emergency-contacts reaches the four contact columns and nothing
    else: it answers 400 and changes nothing when none of them is truthy;
    otherwise the stored row has the contacts given, keeps the contacts not
    given, and its name, profile and tokens are as before. *)
Theorem updateEmergencyContacts_contacts_only db u c1n c1p c2n c2p :
  store_ok db = true ->
  In u (users db) ->
  JS.truthy (Some (User.id u)) = true ->
  let '(r, db1) := updateEmergencyContacts db (User.id u) c1n c1p c2n c2p in
  (r = reply 400 (Plain (Error "No fields to update")) /\ db1 = db
   /\ JS.truthy c1n = false /\ JS.truthy c1p = false
   /\ JS.truthy c2n = false /\ JS.truthy c2p = false)
  \/ (exists u1,
        r = reply 200 (MessageUser "Emergency contacts updated successfully" u1)
        /\ select_user db1 (User.id u) = Some u1
        /\ keeps_what_is_set u u1
        /\ (JS.truthy c1n = true -> User.emergency_contact1_name u1 = c1n)
        /\ (JS.truthy c1p = true -> User.emergency_contact1_phone u1 = c1p)
        /\ (JS.truthy c2n = true -> User.emergency_contact2_name u1 = c2n)
        /\ (JS.truthy c2p = true -> User.emergency_contact2_phone u1 = c2p)
        /\ User.device_name u1 = User.device_name u
        /\ User.full_name u1 = User.full_name u
        /\ User.birthday u1 = User.birthday u
        /\ User.address u1 = User.address u
        /\ User.expo_push_token u1 = User.expo_push_token u
        /\ User.fcm_token u1 = User.fcm_token u).
Proof.
  intros OK HIn Ht. unfold uuid in Ht. unfold updateEmergencyContacts.
  rewrite Ht. cbn [negb].
  match goal with |- context [Patch.is_empty ?p] => set (patch := p) end.
  destruct (Patch.is_empty patch) eqn:E.
  - left. apply is_empty_fields in E. destruct E as (_ & _ & E1 & E2 & E3 & E4 & _).
    unfold patch in *. cbn in *.
    split; [reflexivity|]. split; [reflexivity|].
    repeat split; now apply str_or_null_None.
  - unfold update_and_reply. cbv zeta.
    pose proof (update_user_selects db u patch OK HIn) as Hsel.
    rewrite Hsel. right.
    exists (Patch.apply patch u). split; [reflexivity|]. split; [exact Hsel|].
    split. { apply patch_keeps. unfold patch. cbn. discriminate. }
    assert (forall x, JS.truthy x = true -> JS.str_or_null x = x) as Set_
      by (intros x T; unfold JS.str_or_null; now rewrite T).
    unfold patch, Patch.apply. cbn.
    repeat split; intros T; rewrite (Set_ _ T);
      match goal with
      | |- Patch.override ?x _ = _ => destruct x; [reflexivity|discriminate]
      end.
Qed.

Lemma updateEmergencyContacts_contacts_only_witness :
  let '(r, db1) :=
    updateEmergencyContacts Sample.db (User.id Sample.U2) (Some "Bob") (Some "555-0100")
      None (Some "") in
  (r = reply 400 (Plain (Error "No fields to update")) /\ db1 = Sample.db
   /\ JS.truthy (Some "Bob") = false /\ JS.truthy (Some "555-0100") = false
   /\ JS.truthy None = false /\ JS.truthy (Some "") = false)
  \/ (exists u1,
        r = reply 200 (MessageUser "Emergency contacts updated successfully" u1)
        /\ select_user db1 (User.id Sample.U2) = Some u1
        /\ keeps_what_is_set Sample.U2 u1
        /\ (JS.truthy (Some "Bob") = true -> User.emergency_contact1_name u1 = Some "Bob")
        /\ (JS.truthy (Some "555-0100") = true ->
            User.emergency_contact1_phone u1 = Some "555-0100")
        /\ (JS.truthy None = true -> User.emergency_contact2_name u1 = None)
        /\ (JS.truthy (Some "") = true -> User.emergency_contact2_phone u1 = Some "")
        /\ User.device_name u1 = User.device_name Sample.U2
        /\ User.full_name u1 = User.full_name Sample.U2
        /\ User.birthday u1 = User.birthday Sample.U2
        /\ User.address u1 = User.address Sample.U2
        /\ User.expo_push_token u1 = User.expo_push_token Sample.U2
        /\ User.fcm_token u1 = User.fcm_token Sample.U2).
Proof.
  apply (updateEmergencyContacts_contacts_only Sample.db Sample.U2 (Some "Bob")
           (Some "555-0100") None (Some "")).
  - reflexivity.
  - simpl; auto.
  - reflexivity.
Defined.

(** ** Push tokens and notifications *)

Lemma ok_unique_device_ids db :
  store_ok db = true -> unique_keys (map User.device_id (users db)) = true.
Proof. intros OK. now apply store_ok_iff in OK. Qed.

(** X20. The token registered with update-fcm-token is where the crash
    notification for that user goes: once Firebase is initialised, send-crash
    hands over exactly one message, addressed to that token.  While it is
    not, the same request is answered 202 as well, and nothing is handed
    over. *)
Theorem updateFcmToken_then_sendCrash env db u fcmToken deviceName message :
  store_ok db = true ->
  In u (users db) ->
  JS.truthy (Some (User.device_id u)) = true ->
  JS.truthy (Some (User.id u)) = true ->
  JS.truthy (Some fcmToken) = true ->
  JS.truthy (Some deviceName) = true ->
  exists db1 push,
    updateFcmToken db (Some (User.device_id u)) (Some fcmToken)
      = (respond 200 (Message "FCM token updated successfully"), db1)
    /\ sendCrash env true db1 (Some (User.id u)) (Some deviceName) message
       = (respond 202 (Message "Crash notification sent successfully"), [push])
    /\ Push.token push = fcmToken
    /\ sendCrash env false db1 (Some (User.id u)) (Some deviceName) message
       = (respond 202 (Message "Notification queued - Firebase initializing"), []).
Proof.
  intros OK HIn Hd Hi Hf Hn.
  set (patch := Patch.mk None None None None None None None None None (Some fcmToken)).
  assert (select_user_by_device db (User.device_id u) = Some u) as Hdev.
  { unfold select_user_by_device.
    now rewrite (filter_key_unique User.device_id u _ (ok_unique_device_ids db OK) HIn). }
  pose proof (update_user_selects db u patch OK HIn) as Hsel.
  eexists (update_user db (User.id u) patch), _.
  split. { unfold updateFcmToken. rewrite Hd, Hf. cbn [negb orb str]. now rewrite Hdev. }
  unfold sendCrash. rewrite Hi, Hn. cbn [negb orb str]. rewrite Hsel.
  cbn [patch Patch.apply Patch.fcm_token Patch.override User.fcm_token].
  rewrite Hf. cbn [negb str]. repeat split.
Qed.

Lemma updateFcmToken_then_sendCrash_witness :
  exists db1 push,
    updateFcmToken Sample.db (Some (User.device_id Sample.U1)) (Some "fcm-token-1")
      = (respond 200 (Message "FCM token updated successfully"), db1)
    /\ sendCrash (Sample.env 2000 "x") true db1 (Some (User.id Sample.U1)) (Some "Helmet")
         None
       = (respond 202 (Message "Crash notification sent successfully"), [push])
    /\ Push.token push = "fcm-token-1"
    /\ sendCrash (Sample.env 2000 "x") false db1 (Some (User.id Sample.U1)) (Some "Helmet")
         None
       = (respond 202 (Message "Notification queued - Firebase initializing"), []).
Proof.
  apply (updateFcmToken_then_sendCrash (Sample.env 2000 "x") Sample.db Sample.U1
           "fcm-token-1" "Helmet" None).
  - reflexivity.
  - simpl; auto.
  - reflexivity.
  - reflexivity.
  - reflexivity.
  - reflexivity.
Defined.

(** X21. Whatever the two notification endpoints hand to Firebase is addressed to
    the non-empty fcm_token stored for the user named in the request, and
    nothing is handed over while Firebase is not initialised. *)
Theorem pushes_go_to_the_stored_token env firebaseInitialized delivery db
    toUserId deviceName message title body push :
  In push (snd (sendCrash env firebaseInitialized db toUserId deviceName message))
  \/ In push (snd (sendNotification env firebaseInitialized delivery db toUserId title body)) ->
  firebaseInitialized = true
  /\ exists user,
       select_user db (str toUserId) = Some user
       /\ User.fcm_token user = Some (Push.token push)
       /\ Push.token push <> "".
Proof.
  assert (forall t, JS.truthy t = true -> t = Some (str t) /\ str t <> "") as Tok.
  { intros [t|] T; [|discriminate]. split; [reflexivity|].
    cbn in *. apply negb_true_iff in T. now apply String.eqb_neq. }
  unfold sendCrash, sendNotification. intros [H|H]; revert H.
  - destruct (negb (JS.truthy toUserId) || negb (JS.truthy deviceName)); [intros []|].
    destruct (select_user db (str toUserId)) as [user|]; [|intros []].
    destruct (JS.truthy (User.fcm_token user)) eqn:T; cbn [negb]; [|intros []].
    destruct firebaseInitialized; cbn [negb snd]; [|intros []].
    intros [<-|[]]. split; [reflexivity|]. exists user. cbn [Push.token].
    destruct (Tok _ T). auto.
  - destruct (negb (JS.truthy toUserId) || negb (JS.truthy title) || negb (JS.truthy body));
      [intros []|].
    destruct (select_user db (str toUserId)) as [user|]; [|intros []].
    destruct (JS.truthy (User.fcm_token user)) eqn:T; cbn [negb]; [|intros []].
    destruct firebaseInitialized; cbn [negb snd]; [|intros []].
    destruct delivery; cbn [snd]; intros [<-|[]]; (split; [reflexivity|]);
      exists user; cbn [Push.token]; destruct (Tok _ T); auto.
Qed.

Lemma pushes_go_to_the_stored_token_witness :
  true = true
  /\ exists user,
       select_user
         (update_user Sample.db "u1"
            (Patch.mk None None None None None None None None None (Some "fcm-token-1")))
         (str (Some "u1")) = Some user
       /\ User.fcm_token user
          = Some (Push.token
                    (Push.mk "fcm-token-1" "Hello" "World" "general" None 2000%Z "high"
                       None None None))
       /\ Push.token
            (Push.mk "fcm-token-1" "Hello" "World" "general" None 2000%Z "high"
               None None None) <> "".
Proof.
  apply (pushes_go_to_the_stored_token (Sample.env 2000 "x") true (inl "msg-1")
           (update_user Sample.db "u1"
              (Patch.mk None None None None None None None None None (Some "fcm-token-1")))
           (Some "u1") None None (Some "Hello") (Some "World")).
  right. simpl; auto.
Defined.

(** X22. The token a device brings to get-or-create is stored as
    expo_push_token; the notification endpoints read fcm_token.  A user just
    created therefore cannot be notified, with or without a push token in
    the request and in whatever state Firebase is: send-crash answers 400
    and hands nothing over. *)
Theorem new_user_cannot_be_notified env1 env2 firebaseInitialized db deviceId deviceName
    expoPushToken fullName c1n c1p c2n c2p birthday address crashDevice message :
  JS.truthy (Some deviceId) = true ->
  JS.truthy (Some deviceName) = true ->
  JS.truthy (Some (gen_random_uuid env1)) = true ->
  JS.truthy (Some crashDevice) = true ->
  existsb (fun u => User.device_id u =? deviceId) (users db) = false ->
  has_user db (gen_random_uuid env1) = false ->
  exists newUser db1,
    getOrCreateUser env1 db (Some deviceId) (Some deviceName) expoPushToken fullName
        c1n c1p c2n c2p birthday address
      = (respond 200 (Profile newUser), db1)
    /\ User.expo_push_token newUser = expoPushToken
    /\ sendCrash env2 firebaseInitialized db1 (Some (User.id newUser)) (Some crashDevice)
         message
       = (respond 400 (Error "User does not have FCM token registered"), []).
Proof.
  intros Hd Hn Hid Hc Hnew Hfresh.
  assert (select_user_by_device db deviceId = None) as Hnone.
  { unfold select_user_by_device. rewrite <- (existsb_map_key User.device_id) in Hnew.
    now rewrite (filter_key_absent User.device_id _ _ Hnew). }
  eexists _, _.
  split.
  { unfold getOrCreateUser. rewrite Hd, Hn. cbn [negb orb str]. rewrite Hnone.
    unfold insert_user. rewrite Hfresh, Hnew. reflexivity. }
  split; [reflexivity|].
  unfold sendCrash. cbn [User.id]. rewrite Hid, Hc. cbn [negb orb str].
  unfold select_user. cbn [users]. rewrite filter_app.
  unfold has_user in Hfresh. rewrite <- (existsb_map_key User.id) in Hfresh.
  rewrite (filter_key_absent User.id _ _ Hfresh). cbn [filter User.id app].
  rewrite String.eqb_refl. reflexivity.
Qed.

Lemma new_user_cannot_be_notified_witness :
  exists newUser db1,
    getOrCreateUser (Sample.env 2000 "u9") Sample.db (Some "dev-9") (Some "Garage")
        (Some "ExponentPushToken[x]") None None None None None None None
      = (respond 200 (Profile newUser), db1)
    /\ User.expo_push_token newUser = Some "ExponentPushToken[x]"
    /\ sendCrash (Sample.env 3000 "x") true db1 (Some (User.id newUser)) (Some "Helmet") None
       = (respond 400 (Error "User does not have FCM token registered"), []).
Proof.
  apply (new_user_cannot_be_notified (Sample.env 2000 "u9") (Sample.env 3000 "x") true
           Sample.db "dev-9" "Garage" (Some "ExponentPushToken[x]") None None None None None
           None None "Helmet" None).
  - reflexivity.
  - reflexivity.
  - reflexivity.
  - reflexivity.
  - reflexivity.
  - reflexivity.
Defined.

(** ** Deleting a user *)

Lemma has_user_ids db x :
  has_user db x = existsb (String.eqb x) (map User.id (users db)).
Proof. unfold has_user. now rewrite existsb_map_key. Qed.

Lemma has_user_same_ids db db' x :
  map User.id (users db') = map User.id (users db) -> has_user db' x = has_user db x.
Proof. intros E. now rewrite !has_user_ids, E. Qed.

Lemma existsb_key_survives {A : Type} (key : A -> string) (f : A -> bool) (l : list A) k :
  existsb (fun y => key y =? k) l = true ->
  (forall y, In y l -> key y = k -> f y = true) ->
  existsb (fun y => key y =? k) (filter f l) = true.
Proof.
  intros H K. apply existsb_exists in H. destruct H as [y [Hy E]].
  apply existsb_exists. exists y. split; [|assumption].
  apply filter_In. split; [assumption|]. apply K; [assumption|]. now apply String.eqb_eq.
Qed.


Lemma database_ok_iff d :
  database_ok d = true <->
  store_ok (tables d) = true
  /\ unique_keys (map Ping.id (pings d)) = true
  /\ forallb (fun p => has_user (tables d) (Ping.from_user_id p)
                       && has_user (tables d) (Ping.to_user_id p)) (pings d) = true.
Proof. unfold database_ok. rewrite !andb_true_iff. tauto. Qed.

Lemma ledger_owner_ok_iff db :
  ledger_owner_ok db = true <->
  (forall r p, In r (code_usage db) -> In p (pairing_codes db) ->
               PairingCode.id p = CodeUsage.pairing_code_id r ->
               CodeUsage.code_owner_id r = PairingCode.user_id p).
Proof.
  unfold ledger_owner_ok. rewrite forallb_forall. split.
  - intros H r p Hr Hp E. specialize (H r Hr). rewrite forallb_forall in H.
    specialize (H p Hp). rewrite E, String.eqb_refl in H. cbn in H.
    now apply String.eqb_eq.
  - intros H r Hr. apply forallb_forall. intros p Hp.
    destruct (PairingCode.id p =? CodeUsage.pairing_code_id r) eqn:E; [|reflexivity].
    cbn. apply String.eqb_eq. apply String.eqb_eq in E. now apply H.
Qed.

(** What is left of the tables once a user is deleted. *)
Lemma delete_user_done d id d1 :
  has_user (tables d) id = true ->
  delete_user d id = (d1, None) ->
  users (tables d1) = filter (fun u => negb (User.id u =? id)) (users (tables d))
  /\ pairing_codes (tables d1)
     = filter (fun p => negb (PairingCode.user_id p =? id)) (pairing_codes (tables d))
  /\ device_connections (tables d1)
     = filter (fun c => negb (touches id c)) (device_connections (tables d))
  /\ (forall r, In r (code_usage (tables d1)) ->
                In r (code_usage (tables d))
                /\ CodeUsage.user_id r <> id
                /\ CodeUsage.code_owner_id r <> id
                /\ (forall p, In p (pairing_codes (tables d)) ->
                              PairingCode.id p = CodeUsage.pairing_code_id r ->
                              PairingCode.user_id p <> id))
  /\ unique_keys (map CodeUsage.id (code_usage (tables d1)))
     = unique_keys
         (map CodeUsage.id
            (filter (fun r =>
                       negb (CodeUsage.user_id r =? id)
                       && negb (existsb (fun p => PairingCode.id p
                                                  =? CodeUsage.pairing_code_id r)
                                  (filter (fun p => PairingCode.user_id p =? id)
                                     (pairing_codes (tables d)))))
               (code_usage (tables d))))
  /\ pings d1
     = filter (fun p => negb ((Ping.from_user_id p =? id) || (Ping.to_user_id p =? id)))
         (pings d).
Proof.
  intros Hu. unfold delete_user. rewrite Hu. cbn [negb].
  match goal with
  | |- context [if existsb ?f ?l then _ else _] => destruct (existsb f l) eqn:E
  end; [discriminate|].
  intros H. inversion H; subst; clear H. cbn [tables users pairing_codes
                                               device_connections code_usage pings].
  repeat split; try reflexivity.
  - apply filter_In in H. tauto.
  - apply filter_In in H. destruct H as [_ H]. apply andb_true_iff in H.
    destruct H as [H _]. apply negb_true_iff in H. now apply String.eqb_neq.
  - intros Ho. assert (existsb (fun r0 => CodeUsage.code_owner_id r0 =? id)
                         (filter (fun r0 =>
                                    negb (CodeUsage.user_id r0 =? id)
                                    && negb (existsb
                                               (fun p => PairingCode.id p
                                                         =? CodeUsage.pairing_code_id r0)
                                               (filter (fun p => PairingCode.user_id p =? id)
                                                  (pairing_codes (tables d)))))
                            (code_usage (tables d))) = true) as C; [|congruence].
    apply existsb_exists. exists r. split; [assumption|]. now apply String.eqb_eq.
  - intros p Hp Hid Hown. apply filter_In in H. destruct H as [_ H].
    apply andb_true_iff in H. destruct H as [_ H]. apply negb_true_iff in H.
    assert (existsb (fun p0 => PairingCode.id p0 =? CodeUsage.pairing_code_id r)
              (filter (fun p0 => PairingCode.user_id p0 =? id) (pairing_codes (tables d)))
            = true) as C; [|congruence].
    apply existsb_exists. exists p. split.
    + apply filter_In. split; [assumption|]. now apply String.eqb_eq.
    + now apply String.eqb_eq.
Qed.

Lemma has_user_after_delete db id x :
  has_user db x = true -> x <> id ->
  existsb (fun u => User.id u =? x) (filter (fun u => negb (User.id u =? id)) (users db))
  = true.
Proof.
  intros H Hne. apply existsb_key_survives; [exact H|].
  intros u _ E. apply negb_true_iff, String.eqb_neq. congruence.
Qed.

Lemma delete_user_ok d id :
  database_ok d = true -> database_ok (fst (delete_user d id)) = true.
Proof.
  intros OK.
  destruct (has_user (tables d) id) eqn:Hu;
    [|unfold delete_user; rewrite Hu; exact OK].
  destruct (delete_user d id) as [d1 [e|]] eqn:D.
  - unfold delete_user in D. rewrite Hu in D. cbn [negb] in D.
    match type of D with
    | context [if existsb ?f ?l then _ else _] => destruct (existsb f l)
    end; inversion D; now subst.
  - cbn [fst].
    destruct (delete_user_done d id d1 Hu D) as (Eu & Ep & Ec & Er & Eq & Eg).
    apply database_ok_iff in OK. destruct OK as (OK & PU & PF).
    apply store_ok_iff in OK.
    destruct OK as (U1 & U2 & P1 & P2 & P3 & C1 & C2 & C3 & G1 & G2).
    apply database_ok_iff. split; [apply store_ok_iff|split].
    + unfold has_user, has_pairing_code in *. rewrite Eu, Ep, Ec, Eq.
      repeat split.
      * now apply unique_keys_filter.
      * now apply unique_keys_filter.
      * now apply unique_keys_filter.
      * now apply unique_keys_filter.
      * rewrite forallb_forall in *. intros p Hp. apply filter_In in Hp.
        destruct Hp as [Hp Hne]. apply has_user_after_delete; [now apply P3|].
        apply negb_true_iff in Hne. now apply String.eqb_neq.
      * now apply unique_keys_filter.
      * now apply unique_pairs_filter.
      * rewrite forallb_forall in *. intros c Hc. apply filter_In in Hc.
        destruct Hc as [Hc Hne]. specialize (C3 c Hc).
        apply andb_true_iff in C3. destruct C3 as [Ci Cp].
        apply negb_true_iff in Hne. unfold touches in Hne.
        apply orb_false_iff in Hne. destruct Hne as [Hi Hp].
        apply String.eqb_neq in Hi, Hp.
        apply andb_true_iff. split; now apply has_user_after_delete.
      * now apply unique_keys_filter.
      * rewrite forallb_forall in *. intros r Hr.
        destruct (Er r Hr) as (Hr0 & Hru & Hro & Hrp).
        specialize (G2 r Hr0). rewrite !andb_true_iff in G2.
        destruct G2 as [[Gp Gu] Go].
        rewrite !andb_true_iff. repeat split.
        -- apply existsb_key_survives; [exact Gp|].
           intros p Hp E. apply negb_true_iff, String.eqb_neq. now apply Hrp.
        -- now apply has_user_after_delete.
        -- now apply has_user_after_delete.
    + rewrite Eg. now apply unique_keys_filter.
    + rewrite Eg. unfold has_user. rewrite Eu.
      rewrite forallb_forall in *. intros p Hp. apply filter_In in Hp.
      destruct Hp as [Hp Hne]. specialize (PF p Hp).
      apply andb_true_iff in PF. destruct PF as [Pf Pt].
      apply negb_true_iff in Hne. apply orb_false_iff in Hne. destruct Hne as [Hf Ht].
      apply String.eqb_neq in Hf, Ht.
      apply andb_true_iff. split; now apply has_user_after_delete.
Qed.




(** X24. The answers of delete-user are the other way round from what they say:
    for an id that no user has, the answer is the success message and
    nothing changes; the answer "User not found" is given only for a user
    that is there, when a ledger row that names it as code owner blocks the
    delete, and then nothing is deleted. *)
Theorem deleteUser_not_found_only_when_found d userId :
  (JS.truthy (Some userId) = true -> has_user (tables d) userId = false ->
   deleteUser d userId
   = (respond 200 (Message "User profile deleted successfully"), d))
  /\ (status (fst (deleteUser d userId)) = 404 ->
      fst (deleteUser d userId) = respond 404 (Error "User not found")
      /\ snd (deleteUser d userId) = d
      /\ has_user (tables d) userId = true
      /\ exists r, In r (code_usage (tables d)) /\ CodeUsage.code_owner_id r = userId).
Proof.
  split.
  - intros Ht Hu. unfold deleteUser, delete_user. rewrite Ht, Hu. reflexivity.
  - unfold deleteUser, delete_user.
    destruct (JS.truthy (Some userId)); cbn [negb]; [|discriminate].
    destruct (has_user (tables d) userId); cbn [negb]; [|discriminate].
    match goal with
    | |- context [if existsb ?f ?l then _ else _] => destruct (existsb f l) eqn:E
    end; cbn [fst snd status]; [|discriminate].
    intros _. repeat split.
    apply existsb_exists in E. destruct E as [r [Hr Ho]].
    apply filter_In in Hr. destruct Hr as [Hr _]. apply String.eqb_eq in Ho.
    now exists r.
Qed.

(** Both answers occur: the success message for an id nobody has, and
    "User not found" for the registered user u2 on a database in which a
    ledger row of a code of u1 names u2 as code owner. *)
Lemma deleteUser_not_found_only_when_found_witness :
  deleteUser (mkDatabase Sample.db []) "nobody"
    = (respond 200 (Message "User profile deleted successfully"), mkDatabase Sample.db [])
  /\ fst (deleteUser
            (mkDatabase
               (mkStore (users Sample.db) (pairing_codes Sample.db) []
                  [CodeUsage.mk "cu9" "pc2" "u3" None "u2" 1500%Z 1500%Z])
               [])
            "u2")
     = respond 404 (Error "User not found").
Proof.
  split.
  - apply (proj1 (deleteUser_not_found_only_when_found (mkDatabase Sample.db []) "nobody")).
    + reflexivity.
    + reflexivity.
  - apply (proj2 (deleteUser_not_found_only_when_found
                    (mkDatabase
                       (mkStore (users Sample.db) (pairing_codes Sample.db) []
                          [CodeUsage.mk "cu9" "pc2" "u3" None "u2" 1500%Z 1500%Z])
                       [])
                    "u2")).
    reflexivity.
Defined.

(** ** Invariants of the whole service *)

Lemma handle_keeps_user_ids env db req :
  map User.id (users (snd (handle env db req))) = map User.id (users db).
Proof.
  destruct req; cbn [handle snd]; try reflexivity.
  - unfold generate. destruct (JS.truthy userId); cbn [negb snd]; [|reflexivity].
    unfold insert_pairing_code.
    repeat match goal with
           | |- context [if ?b then (?d, Some ?e) else _] => destruct b
           end; cbn [snd users];
      (destruct (JS.truthy deviceName); [|reflexivity]);
      unfold update_device_name; cbn [users]; apply map_key_map;
      intros u; now destruct (User.id u =? str userId).
  - unfold validate, validate_with.
    destruct (negb (JS.truthy code) || negb (JS.truthy initiatorUserId)); [reflexivity|].
    destruct (select_code db (cleanCode (str code))) as [pc|]; [|reflexivity].
    destruct (PairingCode.expires_at pc <? now env)%Z; [reflexivity|].
    destruct (select_user db (PairingCode.user_id pc)) as [owner|]; [|reflexivity].
    destruct (insert_device_connection_frame env db (str initiatorUserId) (User.id owner))
      as [E _].
    destruct (insert_device_connection env db (str initiatorUserId) (User.id owner))
      as [db1 e].
    cbn [fst] in E.
    destruct e as [e|]; [destruct (negb (Pg.code e =? "23505"))|]; cbn [snd];
      unfold delete_pairing_code; cbn [users]; now rewrite E.
  - unfold disconnect.
    now destruct (negb (JS.truthy userId) || negb (JS.truthy pairedUserId)).
  - unfold trackUsage. destruct (JS.truthy userId); cbn [negb snd]; [|reflexivity].
    destruct (select_code db (cleanCode code)) as [pc|]; [|reflexivity].
    destruct (single _) as [r|]; cbn [snd]; [reflexivity|].
    unfold insert_usage.
    repeat match goal with
           | |- context [if ?b then (db, _) else _] => destruct b
           end; reflexivity.
  - unfold removeUsage. destruct (JS.truthy userId); cbn [negb snd]; [|reflexivity].
    destruct (select_code db (cleanCode code)) as [pc|]; [|reflexivity].
    now destruct (negb (PairingCode.user_id pc =? str userId)).
  - unfold updateLocation.
    destruct (negb (JS.truthy_num latitude) || negb (JS.truthy_num longitude));
      [reflexivity|].
    now destruct (select_code db (cleanCode code)).
Qed.

Lemma update_user_ok db id patch :
  store_ok db = true -> store_ok (update_user db id patch) = true.
Proof.
  intros OK. unfold update_user.
  assert (forall x,
             existsb (fun u => User.id u =? x)
               (map (fun u => if User.id u =? id then Patch.apply patch u else u) (users db))
             = existsb (fun u => User.id u =? x) (users db)) as E.
  { intros x. apply existsb_map_same. intros u. now destruct (User.id u =? id). }
  ok_start OK.
  rewrite !map_key_map by (intros u; now destruct (User.id u =? id)).
  repeat split; try assumption.
  - rewrite <- P3. apply forallb_pointwise. intros p. apply E.
  - rewrite <- C3. apply forallb_pointwise. intros c. now rewrite !E.
  - rewrite <- G2. apply forallb_pointwise. intros r. now rewrite !E.
Qed.

Lemma insert_user_ok env db device_id device_name f c1n c1p c2n c2p b a tok :
  store_ok db = true ->
  store_ok (fst (insert_user env db device_id device_name f c1n c1p c2n c2p b a tok)) = true.
Proof.
  intros OK. unfold insert_user.
  destruct (has_user db (gen_random_uuid env)) eqn:Hid; [assumption|].
  destruct (existsb (fun u => User.device_id u =? device_id) (users db)) eqn:Hdev;
    [assumption|].
  cbn [fst]. unfold has_user in Hid. ok_start OK.
  assert (forall x more, existsb (fun u => User.id u =? x) (users db) = true ->
                         existsb (fun u => User.id u =? x) (users db ++ more) = true)
    as Grow by (intros x more H; now rewrite existsb_app, H).
  repeat split; try assumption.
  - now apply unique_keys_snoc.
  - now apply unique_keys_snoc.
  - rewrite forallb_forall in *. intros p Hp. now apply Grow, P3.
  - rewrite forallb_forall in *. intros c Hc. specialize (C3 c Hc).
    apply andb_true_iff in C3. destruct C3. apply andb_true_iff. split; now apply Grow.
  - rewrite forallb_forall in *. intros r Hr. specialize (G2 r Hr).
    rewrite !andb_true_iff in *. destruct G2 as [[? ?] ?].
    repeat split; try assumption; now apply Grow.
Qed.

(** What a call does to the four tables and the pings: the ids of the users
    only ever grow, except in delete-user. *)
Lemma tables_after_user_calls env db :
  (forall a b c e f g h i j k,
      store_ok db = true ->
      store_ok (snd (getOrCreateUser env db a b c e f g h i j k)) = true
      /\ (forall x, has_user db x = true ->
                    has_user (snd (getOrCreateUser env db a b c e f g h i j k)) x = true)
      /\ pairing_codes (snd (getOrCreateUser env db a b c e f g h i j k)) = pairing_codes db
      /\ code_usage (snd (getOrCreateUser env db a b c e f g h i j k)) = code_usage db)
  /\ (forall id patch msg,
         store_ok db = true ->
         store_ok (snd (update_and_reply db id patch msg)) = true
         /\ map User.id (users (snd (update_and_reply db id patch msg)))
            = map User.id (users db)
         /\ pairing_codes (snd (update_and_reply db id patch msg)) = pairing_codes db
         /\ code_usage (snd (update_and_reply db id patch msg)) = code_usage db)
  /\ (forall a b,
         store_ok db = true ->
         store_ok (snd (updateFcmToken db a b)) = true
         /\ map User.id (users (snd (updateFcmToken db a b))) = map User.id (users db)
         /\ pairing_codes (snd (updateFcmToken db a b)) = pairing_codes db
         /\ code_usage (snd (updateFcmToken db a b)) = code_usage db).
Proof.
  split; [|split].
  - intros a b c e f g h i j k OK. unfold getOrCreateUser.
    destruct (negb (JS.truthy a) || negb (JS.truthy b)); cbn [snd]; [auto|].
    destruct (select_user_by_device db (str a)) as [u|]; cbn [snd].
    + match goal with |- context [Patch.is_empty ?p] => destruct (Patch.is_empty p) end;
        [auto|].
      split; [now apply update_user_ok|]. split; [|split; reflexivity].
      intros x Hx. now rewrite (has_user_same_ids db _ x (update_user_ids db _ _)).
    + match goal with
      | |- context [insert_user ?e ?d ?x1 ?x2 ?x3 ?x4 ?x5 ?x6 ?x7 ?x8 ?x9 ?x10] =>
          pose proof (insert_user_ok e d x1 x2 x3 x4 x5 x6 x7 x8 x9 x10 OK) as K;
          destruct (insert_user e d x1 x2 x3 x4 x5 x6 x7 x8 x9 x10) as [db1 [err|nu]] eqn:I
      end; cbn [fst snd] in *; (split; [exact K|]);
        unfold insert_user in I;
        repeat match type of I with
               | context [if ?t then (db, _) else _] => destruct t
               end; inversion I; subst; auto.
      split; [|split; reflexivity].
      intros x Hx. unfold has_user in *. cbn [users]. now rewrite existsb_app, Hx.
  - intros id patch msg OK. unfold update_and_reply. cbv zeta.
    destruct (select_user (update_user db id patch) id); cbn [snd];
      (split; [now apply update_user_ok|]); (split; [apply update_user_ids|]);
      split; reflexivity.
  - intros a b OK. unfold updateFcmToken.
    destruct (negb (JS.truthy a) || negb (JS.truthy b)); cbn [snd]; [auto|].
    destruct (select_user_by_device db (str a)) as [u|]; cbn [snd]; [|auto].
    split; [now apply update_user_ok|]. split; [apply update_user_ids|].
    split; reflexivity.
Qed.

Lemma ledger_owner_sub db db' :
  (forall r, In r (code_usage db') -> In r (code_usage db)) ->
  (forall p, In p (pairing_codes db') -> In p (pairing_codes db)) ->
  ledger_owner_ok db = true -> ledger_owner_ok db' = true.
Proof.
  rewrite !ledger_owner_ok_iff. intros Hr Hp H r p Ir Ip. apply H; auto.
Qed.

Lemma ok_usage_code db r :
  store_ok db = true -> In r (code_usage db) ->
  has_pairing_code db (CodeUsage.pairing_code_id r) = true.
Proof.
  intros OK Hr. apply store_ok_iff in OK.
  destruct OK as (_ & _ & _ & _ & _ & _ & _ & _ & _ & G2).
  rewrite forallb_forall in G2. specialize (G2 r Hr).
  rewrite !andb_true_iff in G2. tauto.
Qed.

Lemma ok_unique_code_ids db :
  store_ok db = true -> unique_keys (map PairingCode.id (pairing_codes db)) = true.
Proof. intros OK. now apply store_ok_iff in OK. Qed.

Lemma handle_keeps_ledger_owner env db req :
  store_ok db = true ->
  ledger_owner_ok db = true -> ledger_owner_ok (snd (handle env db req)) = true.
Proof.
  intros OK L. destruct req; cbn [handle snd]; try assumption.
  - (* generate *)
    unfold generate. destruct (JS.truthy userId); cbn [negb snd]; [|assumption].
    set (db0 := if JS.truthy deviceName
                then update_device_name db (str userId) (str deviceName) else db).
    assert (pairing_codes db0 = pairing_codes db /\ code_usage db0 = code_usage db)
      as [Ep Eu] by (unfold db0; destruct (JS.truthy deviceName); split; reflexivity).
    assert (ledger_owner_ok db0 = true) as L0
      by (apply (ledger_owner_sub db); [rewrite Eu|rewrite Ep|]; auto).
    unfold insert_pairing_code.
    destruct (has_pairing_code db0 (gen_random_uuid env)) eqn:Hid; [assumption|].
    repeat match goal with
           | |- context [if ?b then (db0, _) else _] => destruct b
           end; cbn [snd]; try assumption.
    apply ledger_owner_ok_iff. cbn [code_usage pairing_codes].
    intros r p Hr Hp E. apply in_app_or in Hp. destruct Hp as [Hp|[<-|[]]].
    + rewrite ledger_owner_ok_iff in L0. now apply L0.
    + exfalso. cbn [PairingCode.id] in E.
      rewrite Eu in Hr. pose proof (ok_usage_code db r OK Hr) as K.
      unfold has_pairing_code in *. rewrite Ep in Hid. rewrite <- E in K. congruence.
  - (* validate *)
    unfold validate, validate_with.
    destruct (negb (JS.truthy code) || negb (JS.truthy initiatorUserId)); [assumption|].
    destruct (select_code db (cleanCode (str code))) as [pc|]; [|assumption].
    destruct (PairingCode.expires_at pc <? now env)%Z; [assumption|].
    destruct (select_user db (PairingCode.user_id pc)) as [owner|]; [|assumption].
    destruct (insert_device_connection_frame env db (str initiatorUserId) (User.id owner))
      as [_ [Ep Eu]].
    destruct (insert_device_connection env db (str initiatorUserId) (User.id owner))
      as [db1 e].
    cbn [fst] in Ep, Eu.
    assert (ledger_owner_ok db1 = true) as L1
      by (apply (ledger_owner_sub db); [rewrite Eu|rewrite Ep|]; auto).
    assert (ledger_owner_ok (delete_pairing_code db1 (PairingCode.id pc)) = true) as L2.
    { apply (ledger_owner_sub db1); [| |assumption].
      - intros r. unfold delete_pairing_code. cbn [code_usage].
        destruct (has_pairing_code db1 (PairingCode.id pc)); [|auto].
        intros H. now apply filter_In in H.
      - intros p. unfold delete_pairing_code. cbn [pairing_codes].
        intros H. now apply filter_In in H. }
    destruct e as [e|]; [destruct (negb (Pg.code e =? "23505"))|]; cbn [snd]; assumption.
  - (* disconnect *)
    unfold disconnect.
    destruct (negb (JS.truthy userId) || negb (JS.truthy pairedUserId)); cbn [snd];
      assumption.
  - (* trackUsage *)
    unfold trackUsage. destruct (JS.truthy userId); cbn [negb snd]; [|assumption].
    destruct (select_code db (cleanCode code)) as [pc|] eqn:Hsel; [|assumption].
    apply select_code_In in Hsel. destruct Hsel as [Hpc _].
    destruct (single _) as [x|]; cbn [snd].
    + apply ledger_owner_ok_iff. unfold update_usage. cbn [code_usage pairing_codes].
      rewrite ledger_owner_ok_iff in L. intros r p Hr Hp E.
      apply in_map_iff in Hr. destruct Hr as [r0 [<- Hr0]].
      destruct (CodeUsage.id r0 =? CodeUsage.id x); cbn in *; now apply L.
    + unfold insert_usage.
      repeat match goal with
             | |- context [if ?b then (db, _) else _] => destruct b
             end; cbn [snd]; try assumption.
      apply ledger_owner_ok_iff. cbn [code_usage pairing_codes].
      rewrite ledger_owner_ok_iff in L. intros r p Hr Hp E.
      apply in_app_or in Hr. destruct Hr as [Hr|[<-|[]]]; [now apply L|].
      cbn in *. f_equal.
      symmetry. now apply (unique_key_In PairingCode.id (pairing_codes db) p pc
                             (ok_unique_code_ids db OK)).
  - (* removeUsage *)
    unfold removeUsage. destruct (JS.truthy userId); cbn [negb snd]; [|assumption].
    destruct (select_code db (cleanCode code)) as [pc|]; [|assumption].
    destruct (negb (PairingCode.user_id pc =? str userId)); cbn [snd]; [assumption|].
    apply (ledger_owner_sub db); [| |assumption]; [|auto].
    intros r. unfold delete_usage. cbn [code_usage]. intros H. now apply filter_In in H.
  - (* updateLocation *)
    unfold updateLocation.
    destruct (negb (JS.truthy_num latitude) || negb (JS.truthy_num longitude));
      cbn [snd]; [assumption|].
    destruct (select_code db (cleanCode code)) as [pc|]; cbn [snd]; [|assumption].
    apply ledger_owner_ok_iff. unfold update_location. cbn [code_usage pairing_codes].
    rewrite ledger_owner_ok_iff in L. intros r p Hr Hp E.
    apply in_map_iff in Hp. destruct Hp as [p0 [<- Hp0]].
    destruct (PairingCode.id p0 =? PairingCode.id pc); cbn in *; now apply L.
Qed.

Lemma database_ok_tables d db1 :
  database_ok d = true ->
  store_ok db1 = true ->
  (forall x, has_user (tables d) x = true -> has_user db1 x = true) ->
  database_ok (mkDatabase db1 (pings d)) = true.
Proof.
  intros OK OK1 Grow. apply database_ok_iff in OK. destruct OK as (_ & PU & PF).
  apply database_ok_iff. cbn [tables pings]. repeat split; try assumption.
  rewrite forallb_forall in *. intros p Hp. specialize (PF p Hp).
  apply andb_true_iff in PF. destruct PF. apply andb_true_iff. split; now apply Grow.
Qed.

Lemma database_eta d : mkDatabase (tables d) (pings d) = d.
Proof. now destruct d. Qed.

Lemma delete_user_sub d id :
  (forall r, In r (code_usage (tables (fst (delete_user d id)))) ->
             In r (code_usage (tables d)))
  /\ (forall p, In p (pairing_codes (tables (fst (delete_user d id)))) ->
                In p (pairing_codes (tables d)))
  /\ exists f, code_usage (tables (fst (delete_user d id)))
               = filter f (code_usage (tables d)).
Proof.
  unfold delete_user.
  destruct (has_user (tables d) id); cbn [negb].
  - match goal with
    | |- context [if existsb ?f ?l then _ else _] => destruct (existsb f l)
    end; cbn [fst tables code_usage pairing_codes].
    + split; [auto|]. split; [auto|]. exists (fun _ => true).
      symmetry. apply forallb_filter_id. now apply forallb_forall.
    + split; [intros r H; now apply filter_In in H|].
      split; [intros p H; now apply filter_In in H|]. eexists. reflexivity.
  - cbn [fst]. split; [auto|]. split; [auto|]. exists (fun _ => true).
    symmetry. apply forallb_filter_id. now apply forallb_forall.
Qed.

Lemma insert_ping_ok env d a b :
  database_ok d = true -> database_ok (fst (insert_ping env d a b)) = true.
Proof.
  intros OK. unfold insert_ping.
  destruct (existsb _ (pings d)) eqn:Hid; [assumption|].
  destruct (has_user (tables d) a) eqn:Ha; cbn [negb]; [|assumption].
  destruct (has_user (tables d) b) eqn:Hb; cbn [negb fst]; [|assumption].
  apply database_ok_iff in OK. destruct OK as (SOK & PU & PF).
  apply database_ok_iff. cbn [tables pings]. repeat split; try assumption.
  - now apply unique_keys_snoc.
  - apply forallb_snoc; [assumption|]. cbn. now rewrite Ha, Hb.
Qed.

Lemma insert_ping_tables env d a b :
  tables (fst (insert_ping env d a b)) = tables d.
Proof.
  unfold insert_ping.
  repeat match goal with |- context [if ?c then (d, _) else _] => destruct c end;
    reflexivity.
Qed.

(** The store a user-update endpoint leaves is the one it was given or the
    one its update leaves. *)
Lemma update_endpoints_store db userId :
  (forall a b c e,
      snd (updateEmergencyContacts db userId a b c e) = db
      \/ exists patch msg,
           snd (updateEmergencyContacts db userId a b c e)
           = snd (update_and_reply db userId patch msg))
  /\ (forall a b c e f g h i,
         snd (updateProfile db userId a b c e f g h i) = db
         \/ exists patch msg,
              snd (updateProfile db userId a b c e f g h i)
              = snd (update_and_reply db userId patch msg)).
Proof.
  split; intros; [unfold updateEmergencyContacts|unfold updateProfile];
    (destruct (negb (JS.truthy (Some userId))); [now left|]);
    match goal with |- context [Patch.is_empty ?p] => destruct (Patch.is_empty p) end;
    [now left|right; eauto|now left|right; eauto].
Qed.

Lemma serve_keeps_invariants env d call :
  database_ok d = true ->
  ledger_owner_ok (tables d) = true ->
  database_ok (snd (serve env d call)) = true
  /\ ledger_owner_ok (tables (snd (serve env d call))) = true.
Proof.
  intros OK L. pose proof OK as OK'. apply database_ok_iff in OK'.
  destruct OK' as (SOK & PU & PF).
  assert (forall db1,
             store_ok db1 = true ->
             (forall x, has_user (tables d) x = true -> has_user db1 x = true) ->
             ledger_owner_ok db1 = true ->
             database_ok (mkDatabase db1 (pings d)) = true
             /\ ledger_owner_ok (tables (mkDatabase db1 (pings d))) = true) as Step
    by (intros; cbn [tables]; split; [apply database_ok_tables|]; assumption).
  assert (forall db1,
             pairing_codes db1 = pairing_codes (tables d) ->
             code_usage db1 = code_usage (tables d) ->
             ledger_owner_ok db1 = true) as Same
    by (intros db1 Ep Eu; apply (ledger_owner_sub (tables d));
        [rewrite Eu|rewrite Ep|]; auto).
  destruct (tables_after_user_calls env (tables d)) as (G & U & F).
  assert (forall id patch msg,
             database_ok (mkDatabase (snd (update_and_reply (tables d) id patch msg))
                            (pings d)) = true
             /\ ledger_owner_ok
                  (tables (mkDatabase (snd (update_and_reply (tables d) id patch msg))
                             (pings d))) = true) as Upd.
  { intros id patch msg. destruct (U id patch msg SOK) as (A & B & C & D).
    apply Step; [assumption| |now apply Same].
    intros x Hx. now rewrite (has_user_same_ids _ _ x B). }
  destruct call; cbn [serve]; try (cbn [snd]; now split).
  - destruct (handle env (tables d) req) as [r db1] eqn:H. cbn [snd]. apply Step.
    + pose proof (handle_keeps_store_ok env (tables d) req SOK) as K. now rewrite H in K.
    + intros x Hx. pose proof (handle_keeps_user_ids env (tables d) req) as E.
      rewrite H in E. cbn [snd] in E. now rewrite (has_user_same_ids _ _ x E).
    + pose proof (handle_keeps_ledger_owner env (tables d) req SOK L) as K.
      now rewrite H in K.
  - match goal with
    | |- context [getOrCreateUser ?e ?db ?a ?b ?c ?e1 ?f ?g ?h ?i ?j ?k] =>
        destruct (G a b c e1 f g h i j k SOK) as (A & B & C & D);
        destruct (getOrCreateUser e db a b c e1 f g h i j k) as [r db1]
    end.
    cbn [snd] in *. apply Step; [assumption|assumption|now apply Same].
  - match goal with
    | |- context [updateEmergencyContacts ?db ?u ?a ?b ?c ?e] =>
        destruct (proj1 (update_endpoints_store db u) a b c e) as [E|[patch [msg E]]];
        destruct (updateEmergencyContacts db u a b c e) as [r db1]
    end; cbn [snd] in *; subst db1; [|apply Upd].
    rewrite database_eta. now split.
  - match goal with
    | |- context [updateProfile ?db ?u ?a ?b ?c ?e ?f ?g ?h ?i] =>
        destruct (proj2 (update_endpoints_store db u) a b c e f g h i)
          as [E|[patch [msg E]]];
        destruct (updateProfile db u a b c e f g h i) as [r db1]
    end; cbn [snd] in *; subst db1; [|apply Upd].
    rewrite database_eta. now split.
  - destruct (F deviceId fcmToken SOK) as (A & B & C & D).
    destruct (updateFcmToken (tables d) deviceId fcmToken) as [r db1]. cbn [snd] in *.
    apply Step; [assumption| |now apply Same].
    intros x Hx. now rewrite (has_user_same_ids _ _ x B).
  - unfold sendPing.
    destruct (negb (JS.truthy fromUserId) || negb (JS.truthy toUserId));
      [cbn [snd]; now split|].
    pose proof (insert_ping_ok env d (str fromUserId) (str toUserId) OK) as K.
    pose proof (insert_ping_tables env d (str fromUserId) (str toUserId)) as T.
    destruct (insert_ping env d (str fromUserId) (str toUserId)) as [d1 [e|]];
      cbn [fst snd] in *; rewrite T; now split.
  - unfold deleteUser.
    destruct (negb (JS.truthy (Some userId))); [cbn [snd]; now split|].
    pose proof (delete_user_ok d userId OK) as K.
    destruct (delete_user_sub d userId) as (Su & Sp & _).
    destruct (delete_user d userId) as [d1 [e|]]; cbn [fst snd] in *;
      (split; [assumption|]); now apply (ledger_owner_sub (tables d)).
Qed.

Lemma serve_keeps_ledger_single env d call :
  store_ok (tables d) = true ->
  ledger_single (tables d) -> ledger_single (tables (snd (serve env d call))).
Proof.
  intros SOK L.
  destruct (tables_after_user_calls env (tables d)) as (G & U & F).
  destruct call; cbn [serve]; try (cbn [snd]; assumption).
  - pose proof (handle_keeps_ledger_single env (tables d) req L) as K.
    destruct (handle env (tables d) req) as [r db1]. exact K.
  - match goal with
    | |- context [getOrCreateUser ?e ?db ?a ?b ?c ?e1 ?f ?g ?h ?i ?j ?k] =>
        destruct (G a b c e1 f g h i j k SOK) as (_ & _ & _ & D);
        destruct (getOrCreateUser e db a b c e1 f g h i j k) as [r db1]
    end.
    cbn [snd tables] in *. now apply (ledger_single_same (tables d)).
  - match goal with
    | |- context [updateEmergencyContacts ?db ?u ?a ?b ?c ?e] =>
        destruct (proj1 (update_endpoints_store db u) a b c e) as [E|[patch [msg E]]];
        destruct (updateEmergencyContacts db u a b c e) as [r db1]
    end; cbn [snd tables] in *; subst db1; [assumption|].
    destruct (U userId patch msg SOK) as (_ & _ & _ & D).
    now apply (ledger_single_same (tables d)).
  - match goal with
    | |- context [updateProfile ?db ?u ?a ?b ?c ?e ?f ?g ?h ?i] =>
        destruct (proj2 (update_endpoints_store db u) a b c e f g h i)
          as [E|[patch [msg E]]];
        destruct (updateProfile db u a b c e f g h i) as [r db1]
    end; cbn [snd tables] in *; subst db1; [assumption|].
    destruct (U userId patch msg SOK) as (_ & _ & _ & D).
    now apply (ledger_single_same (tables d)).
  - destruct (F deviceId fcmToken SOK) as (_ & _ & _ & D).
    destruct (updateFcmToken (tables d) deviceId fcmToken) as [r db1].
    cbn [snd tables] in *. now apply (ledger_single_same (tables d)).
  - unfold sendPing.
    destruct (negb (JS.truthy fromUserId) || negb (JS.truthy toUserId));
      [cbn [snd]; assumption|].
    pose proof (insert_ping_tables env d (str fromUserId) (str toUserId)) as T.
    destruct (insert_ping env d (str fromUserId) (str toUserId)) as [d1 [e|]];
      cbn [fst snd] in *; now rewrite T.
  - unfold deleteUser.
    destruct (negb (JS.truthy (Some userId))); [cbn [snd]; assumption|].
    destruct (delete_user_sub d userId) as (_ & _ & [f E]).
    destruct (delete_user d userId) as [d1 [e|]]; cbn [fst snd] in *;
      now apply (ledger_single_filter (tables d) _ f).
Qed.



Lemma serve_all_ledger_single calls : forall d,
  database_ok d = true ->
  ledger_owner_ok (tables d) = true ->
  ledger_single (tables d) ->
  ledger_single (tables (serve_all d calls)).
Proof.
  induction calls as [|[env call] calls IH]; intros d OK L S; cbn [serve_all];
    [assumption|].
  destruct (serve_keeps_invariants env d call OK L) as [OK1 L1].
  apply IH; try assumption. apply serve_keeps_ledger_single; [|assumption].
  now apply database_ok_iff in OK.
Qed.

(** X26. Served one call at a time, a database whose ledger starts empty never
    holds two ledger rows for the same pairing code and redeeming user,
    whatever the calls are. *)
Theorem one_ledger_row_per_pair_along_runs d calls :
  database_ok d = true ->
  code_usage (tables d) = [] ->
  forall pairing_code_id user_id,
    (length (usage_of (tables (serve_all d calls)) pairing_code_id user_id) <= 1)%nat.
Proof.
  intros OK E. apply serve_all_ledger_single; [assumption| |].
  - unfold ledger_owner_ok. now rewrite E.
  - intros p u. unfold usage_of. rewrite E. simpl. lia.
Qed.

Lemma one_ledger_row_per_pair_along_runs_witness :
  (length
     (usage_of
        (tables
           (serve_all
              (mkDatabase (mkStore (users Sample.db) (pairing_codes Sample.db) [] []) [])
              [(Sample.env 2100 "cu1", Core (TrackUsage "ab-12cd" (Some "u2") None));
               (Sample.env 2200 "cu2", Core (TrackUsage "AB12CD" (Some "u2") (Some "d")));
               (Sample.env 2300 "cu3", Core (TrackUsage "AB12CD" (Some "u3") None))]))
        "pc1" "u2") <= 1)%nat.
Proof.
  apply (one_ledger_row_per_pair_along_runs
           (mkDatabase (mkStore (users Sample.db) (pairing_codes Sample.db) [] []) [])
           [(Sample.env 2100 "cu1", Core (TrackUsage "ab-12cd" (Some "u2") None));
            (Sample.env 2200 "cu2", Core (TrackUsage "AB12CD" (Some "u2") (Some "d")));
            (Sample.env 2300 "cu3", Core (TrackUsage "AB12CD" (Some "u3") None))]).
  - reflexivity.
  - reflexivity.
Defined.

(** ** Responses in the 4xx range *)

Ltac by_status H :=
  first [reflexivity | exfalso; vm_compute in H; discriminate H].

Lemma handle_client_error env db req :
  ((400 <=? status (fst (handle env db req)))%nat
   && (status (fst (handle env db req)) <? 500)%nat) = true ->
  snd (handle env db req) = db.
Proof.
  destruct req; cbn [handle fst snd]; try reflexivity.
  - unfold generate. destruct (JS.truthy userId); cbn [negb]; [|reflexivity].
    destruct (insert_pairing_code _ _ _ _ _ _ _) as [db2 [e|]]; intros H; by_status H.
  - unfold validate, validate_with.
    destruct (negb (JS.truthy code) || negb (JS.truthy initiatorUserId)); [reflexivity|].
    destruct (select_code db (cleanCode (str code))) as [pc|]; [|reflexivity].
    destruct (PairingCode.expires_at pc <? now env)%Z; [reflexivity|].
    destruct (select_user db (PairingCode.user_id pc)) as [owner|]; [|reflexivity].
    destruct (insert_device_connection env db (str initiatorUserId) (User.id owner))
      as [db1 [e|]]; [destruct (negb (Pg.code e =? "23505"))|]; intros H; by_status H.
  - unfold disconnect.
    destruct (negb (JS.truthy userId) || negb (JS.truthy pairedUserId)); intros H;
      by_status H.
  - unfold trackUsage. destruct (JS.truthy userId); cbn [negb]; [|reflexivity].
    destruct (select_code db (cleanCode code)) as [pc|]; [|reflexivity].
    destruct (single _) as [r|]; [intros H; by_status H|].
    destruct (insert_usage _ _ _ _ _ _ _) as [db1 [e|]]; intros H; by_status H.
  - unfold removeUsage. destruct (JS.truthy userId); cbn [negb]; [|reflexivity].
    destruct (select_code db (cleanCode code)) as [pc|]; [|reflexivity].
    destruct (negb (PairingCode.user_id pc =? str userId)); intros H; by_status H.
  - unfold updateLocation.
    destruct (negb (JS.truthy_num latitude) || negb (JS.truthy_num longitude));
      [reflexivity|].
    destruct (select_code db (cleanCode code)) as [pc|]; intros H; by_status H.
Qed.

Lemma update_and_reply_client_error db id patch msg :
  store_ok db = true ->
  ((400 <=? reply_status (fst (update_and_reply db id patch msg)))%nat
   && (reply_status (fst (update_and_reply db id patch msg)) <? 500)%nat) = true ->
  snd (update_and_reply db id patch msg) = db.
Proof.
  intros OK. unfold update_and_reply. cbv zeta.
  destruct (select_user (update_user db id patch) id) as [u|] eqn:S; intros H;
    [by_status H|].
  cbn [snd]. apply update_user_absent.
  destruct (has_user db id) eqn:Hu; [|reflexivity].
  apply has_user_In in Hu. destruct Hu as [u [HIn Hid]]. subst id.
  rewrite (update_user_selects db u patch OK HIn) in S. discriminate.
Qed.

Lemma delete_user_failed d id d1 e : delete_user d id = (d1, Some e) -> d1 = d.
Proof.
  unfold delete_user. destruct (negb (has_user (tables d) id)); [discriminate|].
  match goal with
  | |- context [if existsb ?f ?l then _ else _] => destruct (existsb f l)
  end; intros H; inversion H; reflexivity.
Qed.

(** X27. A response with a status from 400 to 499 means that nothing was
    written: whatever the call, the database is exactly as it was. *)
Theorem client_errors_change_nothing env d call :
  database_ok d = true ->
  ((400 <=? fst (serve env d call))%nat && (fst (serve env d call) <? 500)%nat) = true ->
  snd (serve env d call) = d.
Proof.
  intros OK. apply database_ok_iff in OK. destruct OK as (SOK & _).
  destruct call; cbn [serve]; try (cbn [snd]; reflexivity).
  - pose proof (handle_client_error env (tables d) req) as K.
    destruct (handle env (tables d) req) as [r db1]. cbn [fst snd] in *.
    intros H. rewrite (K H). apply database_eta.
  - unfold getOrCreateUser.
    destruct (negb (JS.truthy deviceId) || negb (JS.truthy deviceName));
      [intros _; apply database_eta|].
    destruct (select_user_by_device (tables d) (str deviceId)) as [u|];
      [intros H; by_status H|].
    destruct (insert_user _ _ _ _ _ _ _ _ _ _ _ _) as [db1 [e|nu]]; intros H; by_status H.
  - match goal with
    | |- context [updateEmergencyContacts ?db ?u ?a ?b ?c ?e] =>
        unfold updateEmergencyContacts
    end.
    destruct (negb (JS.truthy (Some userId))); [intros _; apply database_eta|].
    match goal with |- context [Patch.is_empty ?p] => destruct (Patch.is_empty p) end;
      [intros _; apply database_eta|].
    match goal with
    | |- context [update_and_reply ?db ?u ?p ?m] =>
        pose proof (update_and_reply_client_error db u p m SOK) as K;
        destruct (update_and_reply db u p m) as [r db1]
    end.
    cbn [fst snd] in *. intros H. rewrite (K H). apply database_eta.
  - unfold updateProfile.
    destruct (negb (JS.truthy (Some userId))); [intros _; apply database_eta|].
    match goal with |- context [Patch.is_empty ?p] => destruct (Patch.is_empty p) end;
      [intros _; apply database_eta|].
    match goal with
    | |- context [update_and_reply ?db ?u ?p ?m] =>
        pose proof (update_and_reply_client_error db u p m SOK) as K;
        destruct (update_and_reply db u p m) as [r db1]
    end.
    cbn [fst snd] in *. intros H. rewrite (K H). apply database_eta.
  - unfold updateFcmToken.
    destruct (negb (JS.truthy deviceId) || negb (JS.truthy fcmToken));
      [intros _; apply database_eta|].
    destruct (select_user_by_device (tables d) (str deviceId)) as [u|];
      [intros H; by_status H|intros _; apply database_eta].
  - unfold sendPing.
    destruct (negb (JS.truthy fromUserId) || negb (JS.truthy toUserId)); [reflexivity|].
    destruct (insert_ping env d (str fromUserId) (str toUserId)) as [d1 [e|]];
      intros H; by_status H.
  - unfold deleteUser.
    destruct (negb (JS.truthy (Some userId))); [reflexivity|].
    destruct (delete_user d userId) as [d1 [e|]] eqn:D; intros H; [|by_status H].
    cbn [snd]. now apply (delete_user_failed d userId d1 e).
Qed.

Lemma client_errors_change_nothing_witness :
  snd (serve (Sample.env 2000 "x") (mkDatabase Sample.db [])
         (UpdateProfile "nobody" (Some "Ada") None None None None None None None))
  = mkDatabase Sample.db [].
Proof.
  apply (client_errors_change_nothing (Sample.env 2000 "x") (mkDatabase Sample.db [])
           (UpdateProfile "nobody" (Some "Ada") None None None None None None None)).
  - reflexivity.
  - reflexivity.
Defined.



(** ** Witnesses for the properties of generate, validate and listPaired *)

Lemma generate_code_alphabet_witness :
  all_chars upper_alnum "4FZYO8" = true
  /\ (String.length "4FZYO8" <= 6)%nat
  /\ (matches_code_format "4FZYO8" = true
      <-> (8 <= String.length (random36 (Sample.env 2000 "pc9")))%nat).
Proof.
  apply (generate_code_alphabet (Sample.env 2000 "pc9") Sample.db (Some "u3")
           None None None None "4FZYO8"
           (snd (generate (Sample.env 2000 "pc9") Sample.db (Some "u3") None None None None))).
  - reflexivity.
  - reflexivity.
Defined.

Lemma generate_record_witness :
  exists row,
    In row (pairing_codes
              (snd (generate (Sample.env 2000 "pc9") Sample.db (Some "u3") None None None
                      None)))
    /\ PairingCode.user_id row = str (Some "u3")
    /\ PairingCode.code row = "4FZYO8"
    /\ PairingCode.expires_at row = (PairingCode.created_at row + day_ms)%Z
    /\ Some "u3" = Some (str (Some "u3")).
Proof.
  apply (generate_record (Sample.env 2000 "pc9") Sample.db (Some "u3") None None None None
           "4FZYO8").
  reflexivity.
Defined.

Lemma listPaired_initiator_sees_owner_witness :
  In (PairingCode.user_id Sample.AB12CD)
     (listed (listPaired
                (snd (validate (Sample.env 2000 "c1") Sample.db (Some "ab-12cd") (Some "u2")))
                "u2")).
Proof.
  apply (listPaired_initiator_sees_owner (Sample.env 2000 "c1") Sample.db Sample.AB12CD
           "ab-12cd" "u2").
  - reflexivity.
  - simpl; auto.
  - simpl; lia.
  - split; reflexivity.
  - reflexivity.
  - reflexivity.
  - reflexivity.
Defined.

